(** * The annotation editor: geometry, viewport, drawing gestures, store and
      persistence

    A shallow embedding of the canvas annotation editor
    ([AnnotationEditor.tsx], [annotations/page.tsx], [AnnotationChat.tsx],
    [types.ts]).

    TypeScript's [number] is kept abstract behind the interface [JSNumber];
    the code is written once against it and read at two instances:
    - [Binary64]: IEEE 754 double precision, which is what the program runs
      on; every definition evaluates there;
    - [Ideal]: the real numbers, the arithmetic the comments of the source
      reason in ("scale to fit", "overshoot", "clamp"). *)

From Stdlib Require Import ZArith List String Ascii Bool Lia.
From Stdlib Require Import Reals Lra Zfloor.
From Stdlib Require Floats Uint63.
Import SpecFloat.
Import ListNotations.

Set Implicit Arguments.

(* ================================================================== *)
(** * Numbers *)

Class JSNumber (num : Type) : Type := {
  num_of_Z : Z -> num;          (* integer literals, [img.width] *)
  nadd : num -> num -> num;
  nsub : num -> num -> num;
  nmul : num -> num -> num;
  ndiv : num -> num -> num;
  nneg : num -> num;            (* unary minus *)
  nsqrt : num -> num;           (* Math.sqrt *)
  nabs : num -> num;            (* Math.abs *)
  nfloor : num -> num;          (* Math.floor *)
  nmax : num -> num -> num;     (* Math.max *)
  nmin : num -> num -> num;     (* Math.min *)
  nltb : num -> num -> bool;    (* <  *)
  nleb : num -> num -> bool;    (* <= *)
  neqb : num -> num -> bool     (* === on numbers *)
}.

Declare Scope num_scope.
Delimit Scope num_scope with num.
Notation "# z" := (num_of_Z z%Z) (at level 1, format "# z") : num_scope.
Notation "x + y" := (nadd x y) : num_scope.
Notation "x - y" := (nsub x y) : num_scope.
Notation "x * y" := (nmul x y) : num_scope.
Notation "x / y" := (ndiv x y) : num_scope.
Notation "- x" := (nneg x) : num_scope.
Notation "x <? y" := (nltb x y) : num_scope.
Notation "x <=? y" := (nleb x y) : num_scope.
Notation "x >? y" := (nltb y x) : num_scope.
Notation "x >=? y" := (nleb y x) : num_scope.
Notation "x =? y" := (neqb x y) : num_scope.

(** ** IEEE 754 binary64 *)

Module Binary64.

(** Integers up to 2^63 in magnitude; exact up to 2^53. *)
Definition of_Z (z : Z) : PrimFloat.float :=
  match z with
  | Z0 => PrimFloat.zero
  | Zpos _ => PrimFloat.of_uint63 (Uint63.of_Z z)
  | Zneg p => PrimFloat.opp (PrimFloat.of_uint63 (Uint63.of_Z (Zpos p)))
  end.

(** [Math.floor]: a float [m * 2^e] with [e >= 0] is an integer already;
    otherwise the magnitude's integer part has fewer than 53 bits. *)
Definition floor (x : PrimFloat.float) : PrimFloat.float :=
  match FloatOps.Prim2SF x with
  | S754_finite s m e =>
      if (0 <=? e)%Z then x
      else
        let q := (Zpos m / 2 ^ (- e))%Z in
        let r := (Zpos m mod 2 ^ (- e))%Z in
        if s then of_Z (- (if (r =? 0)%Z then q else q + 1))
        else of_Z q
  | _ => x
  end.

(** [Math.max] and [Math.min]: NaN is contagious and [-0 < +0]. *)
Definition max (a b : PrimFloat.float) : PrimFloat.float :=
  if (PrimFloat.is_nan a || PrimFloat.is_nan b)%bool then PrimFloat.nan
  else if PrimFloat.ltb a b then b
  else if PrimFloat.ltb b a then a
  else if PrimFloat.get_sign a then b else a.

Definition min (a b : PrimFloat.float) : PrimFloat.float :=
  if (PrimFloat.is_nan a || PrimFloat.is_nan b)%bool then PrimFloat.nan
  else if PrimFloat.ltb a b then a
  else if PrimFloat.ltb b a then b
  else if PrimFloat.get_sign a then a else b.

#[export] Instance number : JSNumber PrimFloat.float := {|
  num_of_Z := of_Z;
  nadd := PrimFloat.add;
  nsub := PrimFloat.sub;
  nmul := PrimFloat.mul;
  ndiv := PrimFloat.div;
  nneg := PrimFloat.opp;
  nsqrt := PrimFloat.sqrt;
  nabs := PrimFloat.abs;
  nfloor := floor;
  nmax := max;
  nmin := min;
  nltb := PrimFloat.ltb;
  nleb := PrimFloat.leb;
  neqb := PrimFloat.eqb
|}.

End Binary64.

(** ** Real numbers *)

Module Ideal.

Definition ltb (x y : R) : bool := if Rlt_dec x y then true else false.
Definition leb (x y : R) : bool := if Rle_dec x y then true else false.
Definition eqb (x y : R) : bool := if Req_dec_T x y then true else false.

#[export] Instance number : JSNumber R := {|
  num_of_Z := IZR;
  nadd := Rplus;
  nsub := Rminus;
  nmul := Rmult;
  ndiv := Rdiv;
  nneg := Ropp;
  nsqrt := R_sqrt.sqrt;
  nabs := Rabs;
  nfloor := fun x => IZR (Zfloor x);
  nmax := Rmax;
  nmin := Rmin;
  nltb := ltb;
  nleb := leb;
  neqb := eqb
|}.

End Ideal.

(* ================================================================== *)
(** * Data model ([types.ts]) *)

Module Point.
Record t {num : Type} := mk { x : num; y : num }.
Arguments t : clear implicits.
End Point.

Module RectHighlight.
Record t {num : Type} := mk {
  x : num; y : num; width : num; height : num; color : string }.
Arguments t : clear implicits.
End RectHighlight.

Module BrushStroke.
Record t {num : Type} := mk { points : list (Point.t num); brushSize : num }.
Arguments t : clear implicits.
End BrushStroke.

Module BrushHighlight.
Record t {num : Type} := mk {
  strokes : list (BrushStroke.t num); opacity : num; color : string }.
Arguments t : clear implicits.
End BrushHighlight.

(** [type Highlight = RectHighlight | BrushHighlight], discriminated by the
    [type] field (['rect'] or ['brush']). *)
Inductive Highlight (num : Type) : Type :=
| rect (r : RectHighlight.t num)
| brush (b : BrushHighlight.t num).
Arguments rect {num}.
Arguments brush {num}.

Definition Highlight_color {num} (h : Highlight num) : string :=
  match h with
  | rect r => RectHighlight.color r
  | brush b => BrushHighlight.color b
  end.

Module Reply.
Record t {num : Type} := mk { id : string; text : string; timestamp : num }.
Arguments t : clear implicits.
End Reply.

Module Annotation.
Record t {num : Type} := mk {
  id : string;
  text : string;
  highlight : Highlight num;
  color : string;
  timestamp : num;
  replies : list (Reply.t num);
  completed : bool }.
Arguments t : clear implicits.
End Annotation.

(* ================================================================== *)
(** * Geometry and hit testing ([AnnotationEditor.tsx], top level) *)

Section Geometry.
Context {num : Type} {N : JSNumber num}.
Local Open Scope num_scope.

(** [a ** 2] *)
Definition sq (a : num) : num := a * a.

Definition distanceToLineSegment (point p1 p2 : Point.t num) : num :=
  let dx := Point.x p2 - Point.x p1 in
  let dy := Point.y p2 - Point.y p1 in
  let lengthSquared := dx * dx + dy * dy in
  if lengthSquared =? #0 then
    nsqrt (sq (Point.x point - Point.x p1) + sq (Point.y point - Point.y p1))
  else
    let t := ((Point.x point - Point.x p1) * dx
              + (Point.y point - Point.y p1) * dy) / lengthSquared in
    let t := nmax #0 (nmin #1 t) in
    let projX := Point.x p1 + t * dx in
    let projY := Point.y p1 + t * dy in
    nsqrt (sq (Point.x point - projX) + sq (Point.y point - projY)).

(** The loop [for (i = 0; i < points.length - 1; i++)] over
    [points[i]], [points[i + 1]], with its early [return true]. *)
Fixpoint nearSegments (point : Point.t num) (threshold : num)
         (points : list (Point.t num)) : bool :=
  match points with
  | p1 :: ((p2 :: _) as rest) =>
      if distanceToLineSegment point p1 p2 <=? threshold then true
      else nearSegments point threshold rest
  | _ => false
  end.

Definition isPointNearStroke (point : Point.t num) (stroke : BrushStroke.t num)
  : bool :=
  let threshold := BrushStroke.brushSize stroke / #2 + #5 in
  nearSegments point threshold (BrushStroke.points stroke).

Definition isPointInRect (point : Point.t num) (r : RectHighlight.t num) : bool :=
  (Point.x point >=? RectHighlight.x r)
  && (Point.x point <=? RectHighlight.x r + RectHighlight.width r)
  && (Point.y point >=? RectHighlight.y r)
  && (Point.y point <=? RectHighlight.y r + RectHighlight.height r).

(** [for (const stroke of strokes) if (isPointNearStroke(..)) return ann] *)
Fixpoint nearAnyStroke (point : Point.t num) (strokes : list (BrushStroke.t num))
  : bool :=
  match strokes with
  | [] => false
  | stroke :: rest =>
      if isPointNearStroke point stroke then true else nearAnyStroke point rest
  end.

(** The [for (const ann of activeAnnotations)] loop of
    [findAnnotationAtPoint]. *)
Fixpoint firstHit (canvasPos : Point.t num) (active : list (Annotation.t num))
  : option (Annotation.t num) :=
  match active with
  | [] => None
  | ann :: rest =>
      match Annotation.highlight ann with
      | rect r =>
          if isPointInRect canvasPos r then Some ann else firstHit canvasPos rest
      | brush b =>
          if nearAnyStroke canvasPos (BrushHighlight.strokes b) then Some ann
          else firstHit canvasPos rest
      end
  end.

Definition findAnnotationAtPoint (annotations : list (Annotation.t num))
           (canvasPos : Point.t num) : option (Annotation.t num) :=
  let activeAnnotations :=
    rev (filter (fun a => negb (Annotation.completed a)) annotations) in
  firstHit canvasPos activeAnnotations.

End Geometry.

(* ================================================================== *)
(** * Viewport transform ([AnnotationEditor.tsx], wheel effect) *)

Module Transform.
Record t {num : Type} := mk { x : num; y : num; scale : num }.
Arguments t : clear implicits.
End Transform.

Module Bounds.
Record t {num : Type} := mk { minX : num; maxX : num; minY : num; maxY : num }.
Arguments t : clear implicits.
End Bounds.

(** What [getBounds] reads from the DOM when both refs are set. *)
Module Layout.
Record t {num : Type} := mk {
  containerWidth : num;        (* containerRef.current.getBoundingClientRect() *)
  containerHeight : num;
  styleWidth : option num;     (* parseFloat(canvas.style.width); None is NaN *)
  styleHeight : option num;
  canvasWidth : num;           (* canvasRef.current.width *)
  canvasHeight : num }.
Arguments t : clear implicits.
End Layout.

Module WheelEvent.
Record t {num : Type} := mk {
  deltaX : num; deltaY : num; ctrlKey : bool; metaKey : bool }.
Arguments t : clear implicits.
End WheelEvent.

Section Viewport.
Context {num : Type} {N : JSNumber num}.
Local Open Scope num_scope.

(** [dom] is [None] when [containerRef.current] or [canvasRef.current] is
    null. *)
Definition getBounds (dom : option (Layout.t num)) (currentScale : num)
  : Bounds.t num :=
  match dom with
  | None => Bounds.mk #0 #0 #0 #0
  | Some d =>
      let canvasBaseWidth :=
        match Layout.styleWidth d with
        | Some w => w
        | None => Layout.canvasWidth d
        end in
      let canvasBaseHeight :=
        match Layout.styleHeight d with
        | Some h => h
        | None => Layout.canvasHeight d
        end in
      let scaledWidth := canvasBaseWidth * currentScale in
      let scaledHeight := canvasBaseHeight * currentScale in
      let overflowX := nmax #0 ((scaledWidth - Layout.containerWidth d) / #2) in
      let overflowY := nmax #0 ((scaledHeight - Layout.containerHeight d) / #2) in
      Bounds.mk (- overflowX) overflowX (- overflowY) overflowY
  end.

Definition MAX_OVERSHOOT : num := #200.
Definition MIN_ELASTIC_SCALE : num := #1 / #2.   (* 0.5 *)
Definition MAX_ELASTIC_SCALE : num := #5.

(** The zoom branch: [setTransform(prev => ...)] under Ctrl or Meta. *)
Definition wheelZoom (e : WheelEvent.t num) (prev : Transform.t num)
  : Transform.t num :=
  let zoomSensitivity := #2 / #1000 in          (* 0.002 *)
  let delta := (- WheelEvent.deltaY e) * zoomSensitivity in
  let newScale := Transform.scale prev + delta in
  let newScale := if newScale <? MIN_ELASTIC_SCALE then MIN_ELASTIC_SCALE
                  else newScale in
  let newScale := if newScale >? MAX_ELASTIC_SCALE then MAX_ELASTIC_SCALE
                  else newScale in
  Transform.mk (Transform.x prev) (Transform.y prev) newScale.

(** The pan branch. *)
Definition wheelPan (dom : option (Layout.t num)) (e : WheelEvent.t num)
           (prev : Transform.t num) : Transform.t num :=
  let bounds := getBounds dom (Transform.scale prev) in
  let dx := - WheelEvent.deltaX e in
  let dy := - WheelEvent.deltaY e in
  let currentOvershootX := #0 in
  let currentOvershootX :=
    if Transform.x prev >? Bounds.maxX bounds
    then Transform.x prev - Bounds.maxX bounds else currentOvershootX in
  let currentOvershootX :=
    if Transform.x prev <? Bounds.minX bounds
    then Bounds.minX bounds - Transform.x prev else currentOvershootX in
  let currentOvershootY := #0 in
  let currentOvershootY :=
    if Transform.y prev >? Bounds.maxY bounds
    then Transform.y prev - Bounds.maxY bounds else currentOvershootY in
  let currentOvershootY :=
    if Transform.y prev <? Bounds.minY bounds
    then Bounds.minY bounds - Transform.y prev else currentOvershootY in
  let resistanceX := nmax #0 (#1 - currentOvershootX / MAX_OVERSHOOT) in
  let resistanceY := nmax #0 (#1 - currentOvershootY / MAX_OVERSHOOT) in
  let dx := if (Transform.x prev >? Bounds.maxX bounds) && (dx >? #0)
            then dx * resistanceX else dx in
  let dx := if (Transform.x prev <? Bounds.minX bounds) && (dx <? #0)
            then dx * resistanceX else dx in
  let dy := if (Transform.y prev >? Bounds.maxY bounds) && (dy >? #0)
            then dy * resistanceY else dy in
  let dy := if (Transform.y prev <? Bounds.minY bounds) && (dy <? #0)
            then dy * resistanceY else dy in
  Transform.mk (Transform.x prev + dx) (Transform.y prev + dy)
               (Transform.scale prev).

Definition onWheel (dom : option (Layout.t num)) (e : WheelEvent.t num)
           (prev : Transform.t num) : Transform.t num :=
  if WheelEvent.ctrlKey e || WheelEvent.metaKey e then wheelZoom e prev
  else wheelPan dom e prev.

(** The body of the 500 ms timeout: the snap-back. *)
Definition settle (dom : option (Layout.t num)) (prev : Transform.t num)
  : Transform.t num :=
  let targetScale := Transform.scale prev in
  let targetScale := if targetScale <? #1 then #1 else targetScale in
  let targetScale := if targetScale >? #3 then #3 else targetScale in
  let finalBounds := getBounds dom targetScale in
  let targetX := Transform.x prev in
  let targetY := Transform.y prev in
  if targetScale =? #1 then Transform.mk #0 #0 targetScale
  else
    let targetX := if targetX <? Bounds.minX finalBounds
                   then Bounds.minX finalBounds else targetX in
    let targetX := if targetX >? Bounds.maxX finalBounds
                   then Bounds.maxX finalBounds else targetX in
    let targetY := if targetY <? Bounds.minY finalBounds
                   then Bounds.minY finalBounds else targetY in
    let targetY := if targetY >? Bounds.maxY finalBounds
                   then Bounds.maxY finalBounds else targetY in
    Transform.mk targetX targetY targetScale.

End Viewport.

(* ================================================================== *)
(** * Image loader ([loadImage], [img.onload]) *)

Section ImageLoader.
Context {num : Type} {N : JSNumber num}.
Local Open Scope num_scope.

Definition MAX_CANVAS_DIMENSION : num := #8192.

(** [finalWidth], [finalHeight] as [img.onload] computes them from
    [img.width], [img.height]; these are the dimensions of the temporary
    canvas and so of the down-scaled image that becomes [originalImage]. *)
Definition finalSize (imgWidth imgHeight : Z) : num * num :=
  let finalWidth := #imgWidth in
  let finalHeight := #imgHeight in
  if (finalWidth >? MAX_CANVAS_DIMENSION) || (finalHeight >? MAX_CANVAS_DIMENSION)
  then
    let scale := nmin (MAX_CANVAS_DIMENSION / finalWidth)
                      (MAX_CANVAS_DIMENSION / finalHeight) in
    let finalWidth := nfloor (finalWidth * scale) in
    let finalHeight := nfloor (finalHeight * scale) in
    (finalWidth, finalHeight)
  else (finalWidth, finalHeight).

End ImageLoader.

(* ================================================================== *)
(** * Drawing gestures and the annotation input ([AnnotationEditor.tsx]) *)

Module Tool.
Inductive t : Type := select | brush.      (* 'select' | 'brush' *)
Definition eqb (a b : t) : bool :=
  match a, b with
  | select, select | brush, brush => true
  | _, _ => false
  end.
End Tool.

Module DOMRect.
Record t {num : Type} := mk { left : num; top : num; width : num; height : num }.
Arguments t : clear implicits.
End DOMRect.

Module MouseEvent.
Record t {num : Type} := mk { clientX : num; clientY : num }.
Arguments t : clear implicits.
End MouseEvent.

(** The canvas element: its bitmap size and its on-screen box. *)
Module Canvas.
Record t {num : Type} := mk {
  width : num; height : num;             (* canvas.width, canvas.height *)
  rect : DOMRect.t num }.                (* canvas.getBoundingClientRect() *)
Arguments t : clear implicits.
End Canvas.

(** The component's state, grouped as the [useState] declarations are, with
    the two props the handlers read ([annotations], [selectedAnnotationId]);
    the callbacks [onAddAnnotation] and [onSelectAnnotation] write them. *)
Module Editor.
Record t {num : Type} := mk {
  annotations : list (Annotation.t num);
  selectedAnnotationId : option string;
  (* Tool state *)
  activeTool : Tool.t;
  brushSize : num;
  brushOpacity : num;
  (* Drawing state *)
  isDrawing : bool;
  dragStart : option (Point.t num);
  dragEnd : option (Point.t num);
  brushPoints : list (Point.t num);
  pendingStrokes : list (BrushStroke.t num);
  (* Annotation input *)
  showInput : bool;
  pendingHighlight : option (Highlight num);
  inputText : string;
  inputPosition : option (Point.t num);
  pendingColor : option string }.
Arguments t : clear implicits.
End Editor.

Definition annotationColors : list string :=
  [ "rgba(255, 180, 0, 0.25)";
    "rgba(0, 200, 150, 0.25)";
    "rgba(100, 150, 255, 0.25)";
    "rgba(255, 100, 100, 0.25)";
    "rgba(180, 100, 255, 0.25)";
    "rgba(100, 220, 220, 0.25)" ]%string.

(** [annotationColors[annotations.length % annotationColors.length]] *)
Definition paletteColor (n : nat) : string :=
  nth (n mod List.length annotationColors) annotationColors ""%string.

(** Truthiness of [string | null]: null and the empty string are falsy. *)
Definition truthy (s : option string) : bool :=
  match s with
  | Some EmptyString | None => false
  | Some _ => true
  end.

(** [String.prototype.trim] on the white space of the Latin-1 range. *)
Definition isWhiteSpace (c : ascii) : bool :=
  let n := nat_of_ascii c in
  ((9 <=? n) && (n <=? 13) || (n =? 32) || (n =? 160))%nat.

Fixpoint trimStart (s : string) : string :=
  match s with
  | String c rest => if isWhiteSpace c then trimStart rest else s
  | EmptyString => EmptyString
  end.

Fixpoint trimEnd (s : string) : string :=
  match s with
  | String c rest =>
      match trimEnd rest with
      | EmptyString => if isWhiteSpace c then EmptyString else String c EmptyString
      | rest' => String c rest'
      end
  | EmptyString => EmptyString
  end.

Definition trim (s : string) : string := trimEnd (trimStart s).

Section EditorHandlers.
Context {num : Type} {N : JSNumber num}.
Local Open Scope num_scope.

Definition initialEditor : Editor.t num :=
  {| Editor.annotations := [];
     Editor.selectedAnnotationId := None;
     Editor.activeTool := Tool.select;
     Editor.brushSize := #20;
     Editor.brushOpacity := #4 / #10;
     Editor.isDrawing := false;
     Editor.dragStart := None;
     Editor.dragEnd := None;
     Editor.brushPoints := [];
     Editor.pendingStrokes := [];
     Editor.showInput := false;
     Editor.pendingHighlight := None;
     Editor.inputText := ""%string;
     Editor.inputPosition := None;
     Editor.pendingColor := None |}.

Definition getCanvasPos (canvas : Canvas.t num) (e : MouseEvent.t num)
  : Point.t num :=
  let rect := Canvas.rect canvas in
  let scaleX := Canvas.width canvas / DOMRect.width rect in
  let scaleY := Canvas.height canvas / DOMRect.height rect in
  Point.mk ((MouseEvent.clientX e - DOMRect.left rect) * scaleX)
           ((MouseEvent.clientY e - DOMRect.top rect) * scaleY).

(** [container] is [None] when [containerRef.current] is null. *)
Definition constrainPopoverPosition (container : option (DOMRect.t num))
           (pos : Point.t num) : Point.t num :=
  match container with
  | None => pos
  | Some containerRect =>
      let POPOVER_WIDTH := #256 in
      let POPOVER_HEIGHT := #180 in
      let PADDING := #16 in
      let constrainedX := Point.x pos in
      let constrainedY := Point.y pos in
      let constrainedX :=
        if constrainedX + POPOVER_WIDTH >? DOMRect.width containerRect - PADDING
        then DOMRect.width containerRect - POPOVER_WIDTH - PADDING
        else constrainedX in
      let constrainedX := if constrainedX <? PADDING then PADDING
                          else constrainedX in
      let constrainedY :=
        if constrainedY + POPOVER_HEIGHT >? DOMRect.height containerRect - PADDING
        then DOMRect.height containerRect - POPOVER_HEIGHT - PADDING
        else constrainedY in
      let constrainedY := if constrainedY <? PADDING then PADDING
                          else constrainedY in
      Point.mk constrainedX constrainedY
  end.

(** [handleMouseDown]; the canvas exists (the handler is its
    [onMouseDown]). *)
Definition handleMouseDown (canvas : Canvas.t num) (e : MouseEvent.t num)
           (s : Editor.t num) : Editor.t num :=
  if Editor.showInput s && Tool.eqb (Editor.activeTool s) Tool.select then s
  else
    let canvasPos := getCanvasPos canvas e in
    let clickedAnnotation :=
      if (List.length (Editor.pendingStrokes s) =? 0)%nat && negb (Editor.showInput s)
      then findAnnotationAtPoint (Editor.annotations s) canvasPos
      else None in
    match clickedAnnotation with
    | Some ann =>
        {| Editor.annotations := Editor.annotations s;
           Editor.selectedAnnotationId := Some (Annotation.id ann);
           Editor.activeTool := Editor.activeTool s;
           Editor.brushSize := Editor.brushSize s;
           Editor.brushOpacity := Editor.brushOpacity s;
           Editor.isDrawing := Editor.isDrawing s;
           Editor.dragStart := Editor.dragStart s;
           Editor.dragEnd := Editor.dragEnd s;
           Editor.brushPoints := Editor.brushPoints s;
           Editor.pendingStrokes := Editor.pendingStrokes s;
           Editor.showInput := Editor.showInput s;
           Editor.pendingHighlight := Editor.pendingHighlight s;
           Editor.inputText := Editor.inputText s;
           Editor.inputPosition := Editor.inputPosition s;
           Editor.pendingColor := Editor.pendingColor s |}
    | None =>
        let isSelect := Tool.eqb (Editor.activeTool s) Tool.select in
        {| Editor.annotations := Editor.annotations s;
           Editor.selectedAnnotationId := None;
           Editor.activeTool := Editor.activeTool s;
           Editor.brushSize := Editor.brushSize s;
           Editor.brushOpacity := Editor.brushOpacity s;
           Editor.isDrawing := true;
           Editor.dragStart :=
             if isSelect then Some canvasPos else Editor.dragStart s;
           Editor.dragEnd :=
             if isSelect then Some canvasPos else Editor.dragEnd s;
           Editor.brushPoints :=
             if isSelect then Editor.brushPoints s else [canvasPos];
           Editor.pendingStrokes := Editor.pendingStrokes s;
           Editor.showInput := Editor.showInput s;
           Editor.pendingHighlight := Editor.pendingHighlight s;
           Editor.inputText := Editor.inputText s;
           Editor.inputPosition := Editor.inputPosition s;
           Editor.pendingColor :=
             if isSelect then Editor.pendingColor s
             else if (List.length (Editor.pendingStrokes s) =? 0)%nat
                  then Some (paletteColor (List.length (Editor.annotations s)))
                  else Editor.pendingColor s |}
    end.

(** The [pos] of [handleWindowMouseMove]: the pointer in bitmap
    coordinates, clamped to the canvas bounds. *)
Definition windowMousePos (canvas : Canvas.t num) (e : MouseEvent.t num)
  : Point.t num :=
  let rect := Canvas.rect canvas in
  let scaleX := Canvas.width canvas / DOMRect.width rect in
  let scaleY := Canvas.height canvas / DOMRect.height rect in
  let rawX := MouseEvent.clientX e - DOMRect.left rect in
  let rawY := MouseEvent.clientY e - DOMRect.top rect in
  let x := nmax #0 (nmin (Canvas.width canvas) (rawX * scaleX)) in
  let y := nmax #0 (nmin (Canvas.height canvas) (rawY * scaleY)) in
  Point.mk x y.

(** [handleWindowMouseMove]; registered on [window] while [isDrawing]. *)
Definition handleWindowMouseMove (canvas : Canvas.t num) (e : MouseEvent.t num)
           (s : Editor.t num) : Editor.t num :=
  let pos := windowMousePos canvas e in
  let toDragEnd :=
    match Editor.activeTool s, Editor.dragStart s with
    | Tool.select, Some _ => true
    | _, _ => false
    end in
  let toBrush := negb toDragEnd && Tool.eqb (Editor.activeTool s) Tool.brush in
  {| Editor.annotations := Editor.annotations s;
     Editor.selectedAnnotationId := Editor.selectedAnnotationId s;
     Editor.activeTool := Editor.activeTool s;
     Editor.brushSize := Editor.brushSize s;
     Editor.brushOpacity := Editor.brushOpacity s;
     Editor.isDrawing := Editor.isDrawing s;
     Editor.dragStart := Editor.dragStart s;
     Editor.dragEnd := if toDragEnd then Some pos else Editor.dragEnd s;
     Editor.brushPoints :=
       if toBrush then Editor.brushPoints s ++ [pos] else Editor.brushPoints s;
     Editor.pendingStrokes := Editor.pendingStrokes s;
     Editor.showInput := Editor.showInput s;
     Editor.pendingHighlight := Editor.pendingHighlight s;
     Editor.inputText := Editor.inputText s;
     Editor.inputPosition := Editor.inputPosition s;
     Editor.pendingColor := Editor.pendingColor s |}.

(** [handleWindowMouseUp]; [container] is [None] when [containerRef.current]
    is null. *)
Definition handleWindowMouseUp (container : option (DOMRect.t num))
           (e : MouseEvent.t num) (s : Editor.t num) : Editor.t num :=
  let screenPos :=
    match container with
    | Some containerRect =>
        Point.mk (MouseEvent.clientX e - DOMRect.left containerRect)
                 (MouseEvent.clientY e - DOMRect.top containerRect)
    | None => Point.mk #0 #0
    end in
  let nextColor :=
    match Editor.pendingColor s with
    | Some c => if truthy (Some c) then c
                else paletteColor (List.length (Editor.annotations s))
    | None => paletteColor (List.length (Editor.annotations s))
    end in
  (* what the two branches stage: (pendingHighlight, pendingStrokes,
     showInput, inputPosition) *)
  let staged :=
    match Editor.activeTool s, Editor.dragStart s, Editor.dragEnd s with
    | Tool.select, Some dragStart, Some dragEnd =>
        let x := nmin (Point.x dragStart) (Point.x dragEnd) in
        let y := nmin (Point.y dragStart) (Point.y dragEnd) in
        let w := nabs (Point.x dragEnd - Point.x dragStart) in
        let h := nabs (Point.y dragEnd - Point.y dragStart) in
        if (w >? #10) && (h >? #10) then
          let highlight := RectHighlight.mk x y w h nextColor in
          (Some (rect highlight), Editor.pendingStrokes s, true,
           Some (constrainPopoverPosition container screenPos))
        else
          (Editor.pendingHighlight s, Editor.pendingStrokes s,
           Editor.showInput s, Editor.inputPosition s)
    | _, _, _ =>
        if Tool.eqb (Editor.activeTool s) Tool.brush
           && (2 <? List.length (Editor.brushPoints s))%nat
        then
          let newStroke :=
            BrushStroke.mk (Editor.brushPoints s) (Editor.brushSize s) in
          (Editor.pendingHighlight s, Editor.pendingStrokes s ++ [newStroke],
           true,
           if negb (Editor.showInput s)
           then Some (constrainPopoverPosition container screenPos)
           else Editor.inputPosition s)
        else
          (Editor.pendingHighlight s, Editor.pendingStrokes s,
           Editor.showInput s, Editor.inputPosition s)
    end in
  let '(pendingHighlight, pendingStrokes, showInput, inputPosition) := staged in
  {| Editor.annotations := Editor.annotations s;
     Editor.selectedAnnotationId := Editor.selectedAnnotationId s;
     Editor.activeTool := Editor.activeTool s;
     Editor.brushSize := Editor.brushSize s;
     Editor.brushOpacity := Editor.brushOpacity s;
     Editor.isDrawing := false;
     Editor.dragStart := None;
     Editor.dragEnd := None;
     Editor.brushPoints := [];
     Editor.pendingStrokes := pendingStrokes;
     Editor.showInput := showInput;
     Editor.pendingHighlight := pendingHighlight;
     Editor.inputText := Editor.inputText s;
     Editor.inputPosition := inputPosition;
     Editor.pendingColor := Editor.pendingColor s |}.

(** The state after [setPendingHighlight(null)] ... [setInputPosition(null)],
    shared by [handleSaveAnnotation] and [handleDiscard]. *)
Definition clearInput (annotations : list (Annotation.t num)) (s : Editor.t num)
  : Editor.t num :=
  {| Editor.annotations := annotations;
     Editor.selectedAnnotationId := Editor.selectedAnnotationId s;
     Editor.activeTool := Editor.activeTool s;
     Editor.brushSize := Editor.brushSize s;
     Editor.brushOpacity := Editor.brushOpacity s;
     Editor.isDrawing := Editor.isDrawing s;
     Editor.dragStart := Editor.dragStart s;
     Editor.dragEnd := Editor.dragEnd s;
     Editor.brushPoints := Editor.brushPoints s;
     Editor.pendingStrokes := [];
     Editor.showInput := false;
     Editor.pendingHighlight := None;
     Editor.inputText := EmptyString;
     Editor.inputPosition := None;
     Editor.pendingColor := None |}.

(** The highlight [handleSaveAnnotation] commits, if any. *)
Definition stagedHighlight (s : Editor.t num) : option (Highlight num) :=
  match Editor.pendingColor s with
  | Some pendingColor =>
      if (0 <? List.length (Editor.pendingStrokes s))%nat
         && truthy (Some pendingColor)
      then Some (brush (BrushHighlight.mk (Editor.pendingStrokes s)
                                          (Editor.brushOpacity s) pendingColor))
      else Editor.pendingHighlight s
  | None => Editor.pendingHighlight s
  end.

(** [handleSaveAnnotation]; [id] is [Date.now().toString()] and [now] the
    second [Date.now()]. [onAddAnnotation] is the page's
    [handleAddAnnotation]: [prev => [...prev, newAnnotation]]. *)
Definition handleSaveAnnotation (id : string) (now : num) (s : Editor.t num)
  : Editor.t num :=
  match stagedHighlight s with
  | None => s
  | Some highlight =>
      let newAnnotation :=
        {| Annotation.id := id;
           Annotation.text := trim (Editor.inputText s);
           Annotation.highlight := highlight;
           Annotation.color := Highlight_color highlight;
           Annotation.timestamp := now;
           Annotation.replies := [];
           Annotation.completed := false |} in
      clearInput (Editor.annotations s ++ [newAnnotation]) s
  end.

Definition handleDiscard (s : Editor.t num) : Editor.t num :=
  clearInput (Editor.annotations s) s.

End EditorHandlers.

(* ================================================================== *)
(** * The annotation store ([annotations/page.tsx]) *)

Section Store.
Context {num : Type} {N : JSNumber num}.

(** [prev.map(a => a.id === id ? { ...a, completed: true } : a)] *)
Definition markComplete (id : string) (prev : list (Annotation.t num))
  : list (Annotation.t num) :=
  map (fun a =>
         if String.eqb (Annotation.id a) id then
           {| Annotation.id := Annotation.id a;
              Annotation.text := Annotation.text a;
              Annotation.highlight := Annotation.highlight a;
              Annotation.color := Annotation.color a;
              Annotation.timestamp := Annotation.timestamp a;
              Annotation.replies := Annotation.replies a;
              Annotation.completed := true |}
         else a) prev.

(** [prev.map(a => a.id === annotationId
                   ? { ...a, replies: [...a.replies, newReply] } : a)] *)
Definition addReply (annotationId : string) (newReply : Reply.t num)
           (prev : list (Annotation.t num)) : list (Annotation.t num) :=
  map (fun a =>
         if String.eqb (Annotation.id a) annotationId then
           {| Annotation.id := Annotation.id a;
              Annotation.text := Annotation.text a;
              Annotation.highlight := Annotation.highlight a;
              Annotation.color := Annotation.color a;
              Annotation.timestamp := Annotation.timestamp a;
              Annotation.replies := Annotation.replies a ++ [newReply];
              Annotation.completed := Annotation.completed a |}
         else a) prev.

(** The page owns [annotations] and [selectedId]; the editor sees them as
    props. *)
Definition withStore (annotations : list (Annotation.t num))
           (selectedId : option string) (s : Editor.t num) : Editor.t num :=
  {| Editor.annotations := annotations;
     Editor.selectedAnnotationId := selectedId;
     Editor.activeTool := Editor.activeTool s;
     Editor.brushSize := Editor.brushSize s;
     Editor.brushOpacity := Editor.brushOpacity s;
     Editor.isDrawing := Editor.isDrawing s;
     Editor.dragStart := Editor.dragStart s;
     Editor.dragEnd := Editor.dragEnd s;
     Editor.brushPoints := Editor.brushPoints s;
     Editor.pendingStrokes := Editor.pendingStrokes s;
     Editor.showInput := Editor.showInput s;
     Editor.pendingHighlight := Editor.pendingHighlight s;
     Editor.inputText := Editor.inputText s;
     Editor.inputPosition := Editor.inputPosition s;
     Editor.pendingColor := Editor.pendingColor s |}.

Definition handleMarkComplete (id : string) (s : Editor.t num) : Editor.t num :=
  withStore (markComplete id (Editor.annotations s))
            (match Editor.selectedAnnotationId s with
             | Some selectedId =>
                 if String.eqb selectedId id then None else Some selectedId
             | None => None
             end) s.

(** [replyId] is [Date.now().toString()], [now] the second [Date.now()]. *)
Definition handleReply (annotationId text replyId : string) (now : num)
           (s : Editor.t num) : Editor.t num :=
  withStore (addReply annotationId (Reply.mk replyId text now)
                      (Editor.annotations s))
            (Editor.selectedAnnotationId s) s.

Definition handleClearAnnotations (s : Editor.t num) : Editor.t num :=
  withStore [] (Editor.selectedAnnotationId s) s.

(** ** The event loop *)

Inductive Event : Type :=
| MouseDown (canvasRect : DOMRect.t num) (e : MouseEvent.t num)
| MouseMove (canvasRect : DOMRect.t num) (e : MouseEvent.t num)
| MouseUp (container : option (DOMRect.t num)) (e : MouseEvent.t num)
| SaveAnnotation (id : string) (now : num)
| Discard
| InputChange (text : string)
| SetActiveTool (tool : Tool.t)
| SetBrushSize (size : num)
| SetBrushOpacity (opacity : num)
| MarkComplete (id : string)
| AddReply (annotationId text replyId : string) (now : num)
| ClearAnnotations.

Definition setInputText (text : string) (s : Editor.t num) : Editor.t num :=
  {| Editor.annotations := Editor.annotations s;
     Editor.selectedAnnotationId := Editor.selectedAnnotationId s;
     Editor.activeTool := Editor.activeTool s;
     Editor.brushSize := Editor.brushSize s;
     Editor.brushOpacity := Editor.brushOpacity s;
     Editor.isDrawing := Editor.isDrawing s;
     Editor.dragStart := Editor.dragStart s;
     Editor.dragEnd := Editor.dragEnd s;
     Editor.brushPoints := Editor.brushPoints s;
     Editor.pendingStrokes := Editor.pendingStrokes s;
     Editor.showInput := Editor.showInput s;
     Editor.pendingHighlight := Editor.pendingHighlight s;
     Editor.inputText := text;
     Editor.inputPosition := Editor.inputPosition s;
     Editor.pendingColor := Editor.pendingColor s |}.

Definition setTools (tool : Tool.t) (size opacity : num) (s : Editor.t num)
  : Editor.t num :=
  {| Editor.annotations := Editor.annotations s;
     Editor.selectedAnnotationId := Editor.selectedAnnotationId s;
     Editor.activeTool := tool;
     Editor.brushSize := size;
     Editor.brushOpacity := opacity;
     Editor.isDrawing := Editor.isDrawing s;
     Editor.dragStart := Editor.dragStart s;
     Editor.dragEnd := Editor.dragEnd s;
     Editor.brushPoints := Editor.brushPoints s;
     Editor.pendingStrokes := Editor.pendingStrokes s;
     Editor.showInput := Editor.showInput s;
     Editor.pendingHighlight := Editor.pendingHighlight s;
     Editor.inputText := Editor.inputText s;
     Editor.inputPosition := Editor.inputPosition s;
     Editor.pendingColor := Editor.pendingColor s |}.

(** One event on a canvas whose bitmap is [width] x [height], followed by
    a render: the handler of the next event is a closure of the state this
    one left. The window listeners for move and up exist only while
    [isDrawing]. The loop in which events can follow each other without a
    render in between is [Scheduled.run], below. *)
Definition step (width height : num) (s : Editor.t num) (ev : Event)
  : Editor.t num :=
  match ev with
  | MouseDown canvasRect e =>
      handleMouseDown (Canvas.mk width height canvasRect) e s
  | MouseMove canvasRect e =>
      if Editor.isDrawing s
      then handleWindowMouseMove (Canvas.mk width height canvasRect) e s
      else s
  | MouseUp container e =>
      if Editor.isDrawing s then handleWindowMouseUp container e s else s
  | SaveAnnotation id now => handleSaveAnnotation id now s
  | Discard => handleDiscard s
  | InputChange text => setInputText text s
  | SetActiveTool tool =>
      setTools tool (Editor.brushSize s) (Editor.brushOpacity s) s
  | SetBrushSize size =>
      setTools (Editor.activeTool s) size (Editor.brushOpacity s) s
  | SetBrushOpacity opacity =>
      setTools (Editor.activeTool s) (Editor.brushSize s) opacity s
  | MarkComplete id => handleMarkComplete id s
  | AddReply annotationId text replyId now =>
      handleReply annotationId text replyId now s
  | ClearAnnotations => handleClearAnnotations s
  end.

Definition run (width height : num) (s : Editor.t num) (evs : list Event)
  : Editor.t num :=
  fold_left (step width height) evs s.

End Store.

(* ================================================================== *)
(** * Persistence ([annotations/page.tsx], the two storage effects) *)

(** [localStorage] at the key ['annotation-tool-data']: the stored string,
    [None] while the key is absent. Reading is taken to succeed. Writing
    can throw ([QuotaExceededError], storage disabled): [accepts value]
    tells whether the storage takes the value, and [setItem] returns [None]
    when it throws. *)
Definition Storage : Type := option string.
Definition getItem (st : Storage) : option string := st.
Definition setItem (accepts : string -> bool) (value : string) (st : Storage)
  : option Storage :=
  if accepts value then Some (Some value) else None.

(** [JSON.stringify] and [JSON.parse] at the type the page uses them. *)
Module JSON.
Inductive parsed (A : Type) : Type :=
| array (l : list A)       (* Array.isArray(parsed) *)
| other.                   (* any other value *)
Arguments array {A}.
Arguments other {A}.
Record codec (A : Type) : Type := mk {
  stringify : list A -> string;
  parse : string -> option (parsed A) }.   (* None: SyntaxError thrown *)
Arguments mk {A}.
Arguments stringify {A}.
Arguments parse {A}.
End JSON.

Module Page.
Record t {A : Type} := mk { annotations : list A; storage : Storage }.
Arguments t : clear implicits.
End Page.

Section Persistence.
Context {A : Type} (json : JSON.codec A) (accepts : string -> bool).

(** The load effect; [Some l] when it calls [setAnnotations(l)]. *)
Definition loadEffect (st : Storage) : option (list A) :=
  match getItem st with
  | Some stored =>
      if truthy (Some stored) then
        match JSON.parse json stored with
        | Some (JSON.array parsed) => Some parsed
        | Some JSON.other => None
        | None => None              (* caught and logged *)
        end
      else None
  | None => None
  end.

(** The auto-save effect, run with the current [annotations]. *)
Definition autoSaveEffect (annotations : list A) (st : Storage) : Storage :=
  let skip :=
    if (List.length annotations =? 0)%nat then
      match getItem st with
      | Some stored => truthy (Some stored) && negb (String.eqb stored "[]")
      | None => false
      end
    else false in
  if skip then st
  else
    match setItem accepts (JSON.stringify json annotations) st with
    | Some st' => st'
    | None => st                  (* caught and logged *)
    end.

(** Mounting the page: the first render has [annotations = []]; both
    effects run on it, the load effect first; when it set the state, the
    auto-save effect runs again on the loaded list. *)
Definition mount (st : Storage) : Page.t A :=
  let loaded := loadEffect st in
  let st := autoSaveEffect [] st in
  match loaded with
  | Some parsed => Page.mk parsed (autoSaveEffect parsed st)
  | None => Page.mk [] st
  end.

(** Any later [setAnnotations]: the effect runs on the new list. *)
Definition setAnnotations (annotations : list A) (p : Page.t A) : Page.t A :=
  Page.mk annotations (autoSaveEffect annotations (Page.storage p)).


Definition load (st : Storage) : list A := Page.annotations (mount st).

End Persistence.

(* ================================================================== *)
(** * JSON text for binary64 annotations

    A model of the platform's [JSON.stringify] and [JSON.parse], used to run
    the persistence effects on concrete documents. Numbers are printed by
    their exact decimal expansion (the platform prints the shortest
    expansion that reads back the same; both denote the same double). *)

Module MiniJSON.

Unset Elimination Schemes.
Inductive json : Type :=
| JNull
| JBool (b : bool)
| JNumber (n : PrimFloat.float)
| JString (s : string)
| JArray (items : list json)
| JObject (members : list (string * json)).
Set Elimination Schemes.

(** ** Values of the data model as JSON values *)






(** ** Reading a JSON value at the types of the data model *)

Definition bind {X Y : Type} (o : option X) (f : X -> option Y) : option Y :=
  match o with
  | Some x => f x
  | None => None
  end.

Notation "x <- o ;; k" := (bind o (fun x => k))
  (at level 61, o at next level, right associativity).

Fixpoint lookup (key : string) (members : list (string * json)) : option json :=
  match members with
  | [] => None
  | (k, v) :: rest => if String.eqb k key then Some v else lookup key rest
  end.

Definition field (key : string) (j : json) : option json :=
  match j with
  | JObject members => lookup key members
  | _ => None
  end.











(** ** Printing *)

Definition dquote : ascii := "034"%char.
Definition backslash : ascii := "092"%char.

Fixpoint decimalAux (fuel : nat) (z : Z) (acc : string) : string :=
  match fuel with
  | O => acc
  | S fuel' =>
      let acc := String (ascii_of_nat (48 + Z.to_nat (z mod 10))) acc in
      if (z / 10 =? 0)%Z then acc else decimalAux fuel' (z / 10) acc
  end.

(** The decimal digits of a natural number. *)
Definition decimal (z : Z) : string :=
  decimalAux (S (Z.to_nat (Z.log2 z))) z EmptyString.

Fixpoint zeros (n : nat) : string :=
  match n with
  | O => EmptyString
  | S n' => String "0" (zeros n')
  end.

(** [m * 2^e] for [m > 0], exactly: an integer, or [k] fractional digits
    where [2^k] is the denominator in lowest terms. *)
Definition printPositive (m e : Z) : string :=
  if (0 <=? e)%Z then decimal (m * 2 ^ e)
  else
    let t := Z.min (- e) (Z.log2 (Z.land m (- m))) in
    let m := (m / 2 ^ t)%Z in
    let k := (- e - t)%Z in
    if (k =? 0)%Z then decimal m
    else
      let n := (m * 5 ^ k)%Z in
      let fraction := decimal (n mod 10 ^ k) in
      (decimal (n / 10 ^ k) ++ "."
       ++ zeros (Z.to_nat k - String.length fraction) ++ fraction)%string.

(** Non-finite numbers print as [null]; both zeros as [0]. *)
Definition printNumber (n : PrimFloat.float) : string :=
  match FloatOps.Prim2SF n with
  | S754_zero _ => "0"
  | S754_finite s m e =>
      ((if s then "-" else EmptyString) ++ printPositive (Zpos m) e)%string
  | S754_infinity _ | S754_nan => "null"
  end.

Definition hexDigit (n : nat) : ascii :=
  ascii_of_nat (if (n <? 10)%nat then 48 + n else 87 + n).

Definition escapeChar (c : ascii) : string :=
  let n := nat_of_ascii c in
  if Ascii.eqb c dquote then String backslash (String dquote EmptyString)
  else if Ascii.eqb c backslash then String backslash (String backslash EmptyString)
  else if (n <? 32)%nat then
    String backslash
      (String "u" (String "0" (String "0"
         (String (hexDigit (n / 16)) (String (hexDigit (n mod 16)) EmptyString)))))
  else String c EmptyString.

Fixpoint escape (s : string) : string :=
  match s with
  | EmptyString => EmptyString
  | String c rest => (escapeChar c ++ escape rest)%string
  end.

Definition printString (s : string) : string :=
  String dquote (escape s ++ String dquote EmptyString)%string.

Fixpoint print (j : json) : string :=
  match j with
  | JNull => "null"
  | JBool true => "true"
  | JBool false => "false"
  | JNumber n => printNumber n
  | JString s => printString s
  | JArray items =>
      ("["
       ++ (fix printItems (l : list json) : string :=
             match l with
             | [] => EmptyString
             | [x] => print x
             | x :: rest => print x ++ "," ++ printItems rest
             end) items
       ++ "]")%string
  | JObject members =>
      ("{"
       ++ (fix printMembers (l : list (string * json)) : string :=
             match l with
             | [] => EmptyString
             | [(k, v)] => printString k ++ ":" ++ print v
             | (k, v) :: rest =>
                 printString k ++ ":" ++ print v ++ "," ++ printMembers rest
             end) members
       ++ "}")%string
  end.

(** ** Parsing *)

Definition isJSONSpace (c : ascii) : bool :=
  let n := nat_of_ascii c in
  ((n =? 32) || (n =? 9) || (n =? 10) || (n =? 13))%nat.

Fixpoint skipSpace (s : string) : string :=
  match s with
  | String c rest => if isJSONSpace c then skipSpace rest else s
  | EmptyString => s
  end.

Fixpoint stripPrefix (p s : string) : option string :=
  match p with
  | EmptyString => Some s
  | String a p' =>
      match s with
      | String b s' => if Ascii.eqb a b then stripPrefix p' s' else None
      | EmptyString => None
      end
  end.

Definition digitValue (c : ascii) : option Z :=
  let n := nat_of_ascii c in
  if ((48 <=? n) && (n <=? 57))%nat then Some (Z.of_nat (n - 48)) else None.

Definition hexValue (c : ascii) : option nat :=
  let n := nat_of_ascii c in
  if ((48 <=? n) && (n <=? 57))%nat then Some (n - 48)
  else if ((97 <=? n) && (n <=? 102))%nat then Some (n - 87)
  else if ((65 <=? n) && (n <=? 70))%nat then Some (n - 55)
  else None.

(** A run of digits: its value on top of [acc], how many, and the rest. *)
Fixpoint parseDigits (s : string) (acc : Z) (count : nat) : Z * nat * string :=
  match s with
  | String c rest =>
      match digitValue c with
      | Some d => parseDigits rest (10 * acc + d)%Z (S count)
      | None => (acc, count, s)
      end
  | EmptyString => (acc, count, s)
  end.

(** The double nearest to [n * 10^p], for [n >= 0]. *)
Definition decimalToFloat (negative : bool) (n p : Z) : PrimFloat.float :=
  let magnitude :=
    if (n =? 0)%Z then S754_zero false
    else if (0 <=? p)%Z then
      binary_normalize FloatOps.prec FloatOps.emax (n * 10 ^ p) 0 false
    else
      SFdiv FloatOps.prec FloatOps.emax
            (S754_finite false (Z.to_pos n) 0)
            (S754_finite false (Z.to_pos (10 ^ (- p))) 0) in
  FloatOps.SF2Prim (if negative then SFopp magnitude else magnitude).

(** [-? digits (. digits)? ([eE] [+-]? digits)?] *)
Definition parseNumber (s : string) : option (PrimFloat.float * string) :=
  let '(negative, s) :=
    match s with
    | String "-" rest => (true, rest)
    | _ => (false, s)
    end in
  let '(n, count, s) := parseDigits s 0%Z 0 in
  if (count =? 0)%nat then None
  else
    pf <- match s with
          | String "." rest =>
              let '(n', count', rest') := parseDigits rest n 0 in
              if (count' =? 0)%nat then None else Some (n', count', rest')
          | _ => Some (n, 0%nat, s)
          end ;;
    let '(n, fractionDigits, s) := pf in
    pe <- match s with
          | String c rest =>
              if Ascii.eqb c "e" || Ascii.eqb c "E" then
                let '(minus, rest) :=
                  match rest with
                  | String "-" r => (true, r)
                  | String "+" r => (false, r)
                  | _ => (false, rest)
                  end in
                let '(x, count', rest') := parseDigits rest 0%Z 0 in
                if (count' =? 0)%nat then None
                else Some (if minus then (- x)%Z else x, rest')
              else Some (0%Z, s)
          | EmptyString => Some (0%Z, s)
          end ;;
    let '(exponent, s) := pe in
    Some (decimalToFloat negative n (exponent - Z.of_nat fractionDigits), s).

(** The characters after an opening quote, up to the closing one. Escapes
    beyond the Latin-1 range are not read. *)
Fixpoint parseChars (s : string) : option (string * string) :=
  match s with
  | EmptyString => None
  | String c rest =>
      if Ascii.eqb c dquote then Some (EmptyString, rest)
      else if Ascii.eqb c backslash then
        match rest with
        | String e rest' =>
            let simple (c' : ascii) :=
              r <- parseChars rest' ;; Some (String c' (fst r), snd r) in
            if Ascii.eqb e dquote then simple dquote
            else if Ascii.eqb e backslash then simple backslash
            else if Ascii.eqb e "/" then simple "/"%char
            else if Ascii.eqb e "b" then simple "008"%char
            else if Ascii.eqb e "f" then simple "012"%char
            else if Ascii.eqb e "n" then simple "010"%char
            else if Ascii.eqb e "r" then simple "013"%char
            else if Ascii.eqb e "t" then simple "009"%char
            else if Ascii.eqb e "u" then
              match rest' with
              | String h1 (String h2 (String h3 (String h4 rest''))) =>
                  a <- hexValue h1 ;; b <- hexValue h2 ;;
                  c1 <- hexValue h3 ;; c2 <- hexValue h4 ;;
                  if ((a =? 0) && (b =? 0))%nat then
                    r <- parseChars rest'' ;;
                    Some (String (ascii_of_nat (16 * c1 + c2)) (fst r), snd r)
                  else None
              | _ => None
              end
            else None
        | EmptyString => None
        end
      else if (nat_of_ascii c <? 32)%nat then None
      else r <- parseChars rest ;; Some (String c (fst r), snd r)
  end.

(** One value and what follows it; [fuel] bounds the nesting depth. *)
Fixpoint parseValue (fuel : nat) (s : string) : option (json * string) :=
  match fuel with
  | O => None
  | S fuel' =>
      let parseItems :=
        fix parseItems (n : nat) (s : string) (acc : list json) :=
          match n with
          | O => None
          | S n' =>
              r <- parseValue fuel' s ;;
              match skipSpace (snd r) with
              | String "," rest => parseItems n' rest (fst r :: acc)
              | String "]" rest => Some (JArray (rev (fst r :: acc)), rest)
              | _ => None
              end
          end in
      let parseMembers :=
        fix parseMembers (n : nat) (s : string) (acc : list (string * json)) :=
          match n with
          | O => None
          | S n' =>
              match skipSpace s with
              | String c rest =>
                  if Ascii.eqb c dquote then
                    k <- parseChars rest ;;
                    match skipSpace (snd k) with
                    | String ":" rest' =>
                        r <- parseValue fuel' rest' ;;
                        match skipSpace (snd r) with
                        | String "," rest'' =>
                            parseMembers n' rest'' ((fst k, fst r) :: acc)
                        | String "}" rest'' =>
                            Some (JObject (rev ((fst k, fst r) :: acc)), rest'')
                        | _ => None
                        end
                    | _ => None
                    end
                  else None
              | EmptyString => None
              end
          end in
      match skipSpace s with
      | EmptyString => None
      | String c rest as s' =>
          if Ascii.eqb c dquote then
            r <- parseChars rest ;; Some (JString (fst r), snd r)
          else if Ascii.eqb c "[" then
            match skipSpace rest with
            | String "]" rest' => Some (JArray [], rest')
            | _ => parseItems (String.length rest) rest []
            end
          else if Ascii.eqb c "{" then
            match skipSpace rest with
            | String "}" rest' => Some (JObject [], rest')
            | _ => parseMembers (String.length rest) rest []
            end
          else
            match stripPrefix "null" s', stripPrefix "true" s',
                  stripPrefix "false" s' with
            | Some rest', _, _ => Some (JNull, rest')
            | _, Some rest', _ => Some (JBool true, rest')
            | _, _, Some rest' => Some (JBool false, rest')
            | _, _, _ => r <- parseNumber s' ;; Some (JNumber (fst r), snd r)
            end
      end
  end.

(** A whole text: one value and nothing but white space after it. *)
Definition parseText (s : string) : option json :=
  r <- parseValue (String.length s) s ;;
  match skipSpace (snd r) with
  | EmptyString => Some (fst r)
  | _ => None
  end.

(** ** The codec of the page

    The page holds what [JSON.parse] returned: any array is loaded as it
    is, whatever its items ([Array.isArray] is the only test). The store is
    therefore a list of JSON values; a list of annotations is the list of
    their records. *)
Definition stringify (items : list json) : string := print (JArray items).

Definition parse (s : string) : option (JSON.parsed json) :=
  v <- parseText s ;;
  match v with
  | JArray items => Some (JSON.array items)
  | _ => Some JSON.other
  end.

Definition codec : JSON.codec json := JSON.mk stringify parse.



End MiniJSON.

(* ================================================================== *)
(** * The rest of the editor ([AnnotationEditor.tsx]) *)

(** ** Uploading an image ([handleFileUpload]) *)

Module File.
Record t : Type := mk { type : string; size : Z }.   (* file.type, file.size *)
End File.

(** What [handleFileUpload] does besides changing the state. *)
Inductive Upload : Type :=
| NoFile                      (* no file chosen: return *)
| Alert (message : string)    (* alert(message); return *)
| LoadImage (file : File.t).  (* loadImage(file) *)

Definition MAX_FILE_SIZE : Z := 50 * 1024 * 1024.

Section Upload.
Context {num : Type} {N : JSNumber num}.

(** [file] is [e.target.files?.[0]]; [onClearAnnotations] is the page's
    [handleClearAnnotations]. *)
Definition handleFileUpload (file : option File.t) (s : Editor.t num)
  : Editor.t num * Upload :=
  match file with
  | None => (s, NoFile)
  | Some file =>
      if negb (String.prefix "image/" (File.type file)) then
        (s, Alert "Please upload an image file (JPEG, PNG, GIF, etc.)")
      else if (File.size file >? MAX_FILE_SIZE)%Z then
        (s, Alert "Image file is too large. Please use an image smaller than 50MB.")
      else (handleClearAnnotations s, LoadImage file)
  end.

End Upload.

(** ** Drawing ([redrawCanvas]) *)

Section Drawing.
Context {num : Type} {N : JSNumber num}.
Local Open Scope num_scope.

(** [displayWidth], [displayHeight]: the size the canvas is shown at, from
    [container.clientWidth], [container.clientHeight] and the size of
    [originalImage]. *)
Definition displaySize (containerWidth containerHeight imgWidth imgHeight : num)
  : num * num :=
  let imgAspect := imgWidth / imgHeight in
  let containerAspect := containerWidth / containerHeight in
  if imgAspect >? containerAspect
  then (containerWidth, containerWidth / imgAspect)
  else (containerHeight * imgAspect, containerHeight).

(** The [opacity] a saved annotation is drawn with. *)
Definition highlightOpacity (selectedAnnotationId : option string)
           (ann : Annotation.t num) : num :=
  let isSelected :=
    match selectedAnnotationId with
    | Some id => String.eqb id (Annotation.id ann)
    | None => false
    end in
  let opacity :=
    match Annotation.highlight ann with
    | brush b =>
        if isSelected then nmin (BrushHighlight.opacity b + #2 / #10) #1
        else BrushHighlight.opacity b
    | rect _ => if isSelected then #4 / #10 else #25 / #100
    end in
  if truthy selectedAnnotationId && negb isSelected then #8 / #100 else opacity.

(** The calls [drawHighlight(ctx, ann.highlight, opacity)] of the saved
    annotations, in order. *)
Definition savedHighlights (showHighlights : bool)
           (annotations : list (Annotation.t num))
           (selectedAnnotationId : option string) : list (Highlight num * num) :=
  if showHighlights then
    map (fun ann => (Annotation.highlight ann,
                     highlightOpacity selectedAnnotationId ann))
        (filter (fun a => negb (Annotation.completed a)) annotations)
  else [].

End Drawing.

(** ** Keyboard shortcuts and the popover *)

Module Popover.
Record t {num : Type} := mk {
  isDraggingPopover : bool;
  popoverDragOffset : option (Point.t num) }.
Arguments t : clear implicits.
End Popover.

Section Shortcuts.
Context {num : Type} {N : JSNumber num}.
Local Open Scope num_scope.

(** The [keydown] listener on [window]; [onField] when the target is an
    input or a text area. The state is the editor's with
    [brushSettingsVisible]. *)
Definition handleKeyDown (onField : bool) (key : string)
           (st : Editor.t num * bool) : Editor.t num * bool :=
  let '(s, brushSettingsVisible) := st in
  if onField then st
  else
    let size := Editor.brushSize s in
    let size := if String.eqb key "[" then nmax #5 (size - #5) else size in
    let size := if String.eqb key "]" then nmin #100 (size + #5) else size in
    let '(tool, visible) :=
      if String.eqb key "b" || String.eqb key "B" then
        if Tool.eqb (Editor.activeTool s) Tool.brush
        then (Editor.activeTool s, negb brushSettingsVisible)
        else (Tool.brush, true)
      else (Editor.activeTool s, brushSettingsVisible) in
    let '(tool, visible) :=
      if String.eqb key "s" || String.eqb key "S" then (Tool.select, false)
      else (tool, visible) in
    (setTools tool size (Editor.brushOpacity s) s, visible).

Definition setInputPosition (inputPosition : option (Point.t num))
           (s : Editor.t num) : Editor.t num :=
  {| Editor.annotations := Editor.annotations s;
     Editor.selectedAnnotationId := Editor.selectedAnnotationId s;
     Editor.activeTool := Editor.activeTool s;
     Editor.brushSize := Editor.brushSize s;
     Editor.brushOpacity := Editor.brushOpacity s;
     Editor.isDrawing := Editor.isDrawing s;
     Editor.dragStart := Editor.dragStart s;
     Editor.dragEnd := Editor.dragEnd s;
     Editor.brushPoints := Editor.brushPoints s;
     Editor.pendingStrokes := Editor.pendingStrokes s;
     Editor.showInput := Editor.showInput s;
     Editor.pendingHighlight := Editor.pendingHighlight s;
     Editor.inputText := Editor.inputText s;
     Editor.inputPosition := inputPosition;
     Editor.pendingColor := Editor.pendingColor s |}.

(** [handlePopoverMouseDown]; [onControl] when the target is inside a text
    area or a button. *)
Definition handlePopoverMouseDown (onControl : bool) (e : MouseEvent.t num)
           (s : Editor.t num) (p : Popover.t num) : Popover.t num :=
  if onControl then p
  else
    Popover.mk true
      match Editor.inputPosition s with
      | Some inputPosition =>
          Some (Point.mk (MouseEvent.clientX e - Point.x inputPosition)
                         (MouseEvent.clientY e - Point.y inputPosition))
      | None => Popover.popoverDragOffset p
      end.

(** [handlePopoverMouseMove]; [container] is [None] when
    [containerRef.current] is null. *)
Definition handlePopoverMouseMove (container : option (DOMRect.t num))
           (e : MouseEvent.t num) (p : Popover.t num) (s : Editor.t num)
  : Editor.t num :=
  match Popover.isDraggingPopover p, Popover.popoverDragOffset p, container with
  | true, Some popoverDragOffset, Some containerRect =>
      let newX := MouseEvent.clientX e - Point.x popoverDragOffset
                  - DOMRect.left containerRect in
      let newY := MouseEvent.clientY e - Point.y popoverDragOffset
                  - DOMRect.top containerRect in
      setInputPosition
        (Some (constrainPopoverPosition container (Point.mk newX newY))) s
  | _, _, _ => s
  end.

Definition handlePopoverMouseUp (p : Popover.t num) : Popover.t num :=
  Popover.mk false None.

End Shortcuts.

(* ================================================================== *)
(** * The chat of the selected annotation ([annotations/page.tsx],
      [AnnotationChat.tsx]) *)

(** The bounding box of a brush highlight is accumulated from [Infinity] and
    [-Infinity], and the position is computed from it whether or not a point
    was met. A number of the page is therefore a number of [num] or one of
    the three values that arise from the two literals; the operations follow
    IEEE 754 on them (the operands of [num] being numbers). *)
Module Ext.

Inductive t (num : Type) : Type :=
| Finite (v : num)
| PosInfinity
| NegInfinity
| NaN.
Arguments Finite {num}.
Arguments PosInfinity {num}.
Arguments NegInfinity {num}.
Arguments NaN {num}.

Section Operations.
Context {num : Type} {N : JSNumber num}.
Local Open Scope num_scope.

(** [a * s] *)
Definition mul (a : t num) (s : num) : t num :=
  match a with
  | Finite v => Finite (v * s)
  | PosInfinity =>
      if s >? #0 then PosInfinity else if s <? #0 then NegInfinity else NaN
  | NegInfinity =>
      if s >? #0 then NegInfinity else if s <? #0 then PosInfinity else NaN
  | NaN => NaN
  end.

(** [a + b] and [a - b] *)
Definition add (a : t num) (b : num) : t num :=
  match a with
  | Finite v => Finite (v + b)
  | _ => a
  end.

Definition sub (a : t num) (b : num) : t num :=
  match a with
  | Finite v => Finite (v - b)
  | _ => a
  end.

(** [b - a] *)
Definition rsub (b : num) (a : t num) : t num :=
  match a with
  | Finite v => Finite (b - v)
  | PosInfinity => NegInfinity
  | NegInfinity => PosInfinity
  | NaN => NaN
  end.

(** [a < b] and [a > b] *)
Definition ltb (a : t num) (b : num) : bool :=
  match a with
  | Finite v => v <? b
  | NegInfinity => true
  | PosInfinity | NaN => false
  end.

Definition gtb (a : t num) (b : num) : bool :=
  match a with
  | Finite v => v >? b
  | PosInfinity => true
  | NegInfinity | NaN => false
  end.

(** [v < a] and [v > a] *)
Definition below (v : num) (a : t num) : bool :=
  match a with
  | Finite w => v <? w
  | PosInfinity => true
  | NegInfinity | NaN => false
  end.

Definition above (v : num) (a : t num) : bool :=
  match a with
  | Finite w => v >? w
  | NegInfinity => true
  | PosInfinity | NaN => false
  end.

(** [Math.min(a, b)] and [Math.max(b, a)] *)
Definition min (a : t num) (b : num) : t num :=
  match a with
  | Finite v => Finite (nmin v b)
  | PosInfinity => Finite b
  | NegInfinity => NegInfinity
  | NaN => NaN
  end.

Definition max (b : num) (a : t num) : t num :=
  match a with
  | Finite v => Finite (nmax b v)
  | PosInfinity => PosInfinity
  | NegInfinity => Finite b
  | NaN => NaN
  end.

End Operations.
End Ext.

(** [minX], [maxX], [minY], [maxY] of the position effect. *)
Module Box.
Record t {num : Type} := mk {
  minX : Ext.t num; maxX : Ext.t num; minY : Ext.t num; maxY : Ext.t num }.
Arguments t : clear implicits.
End Box.

(** What the position effect reads from the DOM: the canvas inside
    [editorRef.current] and the box of [editorRef.current]. *)
Module ChatLayout.
Record t {num : Type} := mk {
  canvas : Canvas.t num;
  containerRect : DOMRect.t num }.
Arguments t : clear implicits.
End ChatLayout.

(** The page's state about the chat. [customChatPositions] is a plain
    object: the field holds its own properties, which
    [{ ...prev, [id]: position }] sets and [delete] removes. Reading a key
    that is no own property finds the property of that name on
    [Object.prototype], when there is one. [chatPosition] holds what the
    effect set: a position, or such an inherited value. *)
Module Chat.
Inductive value {num : Type} : Type :=
| Position (position : Point.t (Ext.t num))
| Inherited (key : string).
Arguments value : clear implicits.
Record t {num : Type} := mk {
  selectedId : option string;
  chatPosition : option (value num);
  customChatPositions : string -> option (Point.t (Ext.t num)) }.
Arguments t : clear implicits.
End Chat.

Section ChatPosition.
Context {num : Type} {N : JSNumber num}.
Local Open Scope num_scope.

(** [annotations.find(a => a.id === selectedId && !a.completed)] *)
Definition selectedAnnotation (annotations : list (Annotation.t num))
           (selectedId : option string) : option (Annotation.t num) :=
  find (fun a =>
          match selectedId with
          | Some id => String.eqb (Annotation.id a) id
          | None => false
          end && negb (Annotation.completed a)) annotations.

Definition activeAnnotations (annotations : list (Annotation.t num))
  : list (Annotation.t num) :=
  filter (fun a => negb (Annotation.completed a)) annotations.

(** The property names of [Object.prototype]; the value of each is a
    function or an object, hence truthy. *)
Definition objectPrototypeKeys : list string :=
  [ "constructor"; "hasOwnProperty"; "isPrototypeOf"; "propertyIsEnumerable";
    "toLocaleString"; "toString"; "valueOf"; "__proto__";
    "__defineGetter__"; "__defineSetter__";
    "__lookupGetter__"; "__lookupSetter__" ]%string.

Definition inheritedKey (key : string) : bool :=
  existsb (String.eqb key) objectPrototypeKeys.

(** [customChatPositions[key]] *)
Definition readChatPosition (c : Chat.t num) (key : string)
  : option (Chat.value num) :=
  match Chat.customChatPositions c key with
  | Some position => Some (Chat.Position position)
  | None => if inheritedKey key then Some (Chat.Inherited key) else None
  end.

(** [position.x] and [position.y] as the chat window reads them: of an
    inherited value they are [undefined], [NaN] in arithmetic. *)
Definition positionProp (v : Chat.value num) : Point.t (Ext.t num) :=
  match v with
  | Chat.Position position => position
  | Chat.Inherited _ => Point.mk Ext.NaN Ext.NaN
  end.

(** [{ ...prev, [id]: position }] *)
Definition handleChatPositionChange (id : string)
           (position : Point.t (Ext.t num)) (c : Chat.t num) : Chat.t num :=
  Chat.mk (Chat.selectedId c) (Chat.chatPosition c)
          (fun key => if String.eqb key id then Some position
                      else Chat.customChatPositions c key).

(** [delete newPositions[id]] and [setSelectedId(null)]; the timeout the
    handler sets is [reselect]. *)
Definition handleResetChatPosition (id : string) (c : Chat.t num) : Chat.t num :=
  Chat.mk None (Chat.chatPosition c)
          (fun key => if String.eqb key id then None
                      else Chat.customChatPositions c key).

Definition reselect (id : string) (c : Chat.t num) : Chat.t num :=
  Chat.mk (Some id) (Chat.chatPosition c) (Chat.customChatPositions c).

(** The body of the loop over the points of a stroke. *)
Definition growBox (halfSize : num) (box : Box.t num) (p : Point.t num)
  : Box.t num :=
  let minX := if Ext.below (Point.x p - halfSize) (Box.minX box)
              then Ext.Finite (Point.x p - halfSize) else Box.minX box in
  let maxX := if Ext.above (Point.x p + halfSize) (Box.maxX box)
              then Ext.Finite (Point.x p + halfSize) else Box.maxX box in
  let minY := if Ext.below (Point.y p - halfSize) (Box.minY box)
              then Ext.Finite (Point.y p - halfSize) else Box.minY box in
  let maxY := if Ext.above (Point.y p + halfSize) (Box.maxY box)
              then Ext.Finite (Point.y p + halfSize) else Box.maxY box in
  Box.mk minX maxX minY maxY.

Definition strokeBox (box : Box.t num) (stroke : BrushStroke.t num) : Box.t num :=
  let halfSize := BrushStroke.brushSize stroke / #2 in
  fold_left (growBox halfSize) (BrushStroke.points stroke) box.

Definition highlightBox (highlight : Highlight num) : Box.t num :=
  match highlight with
  | rect r =>
      Box.mk (Ext.Finite (RectHighlight.x r))
             (Ext.Finite (RectHighlight.x r + RectHighlight.width r))
             (Ext.Finite (RectHighlight.y r))
             (Ext.Finite (RectHighlight.y r + RectHighlight.height r))
  | brush b =>
      fold_left strokeBox (BrushHighlight.strokes b)
                (Box.mk Ext.PosInfinity Ext.NegInfinity
                        Ext.PosInfinity Ext.NegInfinity)
  end.

(** The position computed for a highlight: to the right of it, to its left
    when that does not fit, at the height of its top. *)
Definition initialChatPosition (dom : ChatLayout.t num) (highlight : Highlight num)
  : Point.t (Ext.t num) :=
  let canvas := ChatLayout.canvas dom in
  let rect := Canvas.rect canvas in
  let containerRect := ChatLayout.containerRect dom in
  let scaleX := DOMRect.width rect / Canvas.width canvas in
  let scaleY := DOMRect.height rect / Canvas.height canvas in
  let box := highlightBox highlight in
  let canvasOffsetX := DOMRect.left rect - DOMRect.left containerRect in
  let canvasOffsetY := DOMRect.top rect - DOMRect.top containerRect in
  let screenMaxX := Ext.add (Ext.mul (Box.maxX box) scaleX) canvasOffsetX in
  let screenMinX := Ext.add (Ext.mul (Box.minX box) scaleX) canvasOffsetX in
  let screenMinY := Ext.add (Ext.mul (Box.minY box) scaleY) canvasOffsetY in
  let CHAT_WIDTH := #320 in
  let GAP := #20 in
  let finalX := Ext.add screenMaxX GAP in
  let finalX :=
    if Ext.gtb (Ext.add finalX CHAT_WIDTH) (DOMRect.width containerRect)
    then Ext.sub (Ext.sub screenMinX CHAT_WIDTH) GAP
    else finalX in
  let finalX := if Ext.ltb finalX #20 then Ext.Finite #20 else finalX in
  let finalY := screenMinY in
  let finalY :=
    Ext.max #20 (Ext.min finalY (DOMRect.height containerRect - #300)) in
  Point.mk finalX finalY.

(** The position effect: the new [chatPosition]. [dom] is [None] when
    [editorRef.current] is null or holds no canvas; the state is then left
    as it is. *)
Definition chatPositionEffect (dom : option (ChatLayout.t num))
           (annotations : list (Annotation.t num)) (c : Chat.t num)
  : option (Chat.value num) :=
  match selectedAnnotation annotations (Chat.selectedId c) with
  | Some selected =>
      match readChatPosition c (Annotation.id selected) with
      | Some custom => Some custom
      | None =>
          match dom with
          | Some dom =>
              Some (Chat.Position
                      (initialChatPosition dom (Annotation.highlight selected)))
          | None => Chat.chatPosition c
          end
      end
  | None => None
  end.

(** The effect as a step of the page's state. *)
Definition runChatPositionEffect (dom : option (ChatLayout.t num))
           (annotations : list (Annotation.t num)) (c : Chat.t num) : Chat.t num :=
  Chat.mk (Chat.selectedId c) (chatPositionEffect dom annotations c)
          (Chat.customChatPositions c).

End ChatPosition.

(** ** The chat window ([AnnotationChat.tsx]) *)

Module AnnotationChat.

Record t {num : Type} := mk {
  replyText : string;
  isDragging : bool;
  dragOffset : Point.t (Ext.t num) }.
Arguments t : clear implicits.

Section Handlers.
Context {num : Type} {N : JSNumber num}.
Local Open Scope num_scope.

(** [onButton] when the target is inside a button. *)
Definition handleMouseDown (onButton : bool) (position : Point.t (Ext.t num))
           (e : MouseEvent.t num) (c : t num) : t num :=
  if onButton then c
  else mk (replyText c) true
          (Point.mk (Ext.rsub (MouseEvent.clientX e) (Point.x position))
                    (Ext.rsub (MouseEvent.clientY e) (Point.y position))).

(** The argument of [onPositionChange], if it is called. *)
Definition handleMouseMove (e : MouseEvent.t num) (c : t num)
  : option (Point.t (Ext.t num)) :=
  if isDragging c
  then Some (Point.mk (Ext.rsub (MouseEvent.clientX e) (Point.x (dragOffset c)))
                      (Ext.rsub (MouseEvent.clientY e) (Point.y (dragOffset c))))
  else None.

Definition handleMouseUp (c : t num) : t num :=
  mk (replyText c) false (dragOffset c).

(** [handleSendReply] on the page's store; [replyId] and [now] are the
    page's [Date.now().toString()] and [Date.now()]. *)
Definition handleSendReply (annotationId replyId : string) (now : num)
           (st : Editor.t num * t num) : Editor.t num * t num :=
  let '(s, c) := st in
  if negb (truthy (Some (trim (replyText c)))) then st
  else (handleReply annotationId (replyText c) replyId now s,
        mk EmptyString (isDragging c) (dragOffset c)).

End Handlers.
End AnnotationChat.

(* ================================================================== *)
(** * Renders and the handlers' closures ([AnnotationEditor.tsx])

    A handler reads the state of the render that created it: the canvas's
    [onMouseDown] and the listeners the effect registers on [window] are
    closures of the last render, and a state setter only schedules its
    update for the next one. [closure] is the state the handler reads,
    [next] the state with the scheduled updates applied, which the next
    render shows; a setter called with a function ([prev => ...]) reads
    [next]. *)

Module Scheduled.

Section Loop.
Context {num : Type} {N : JSNumber num}.
Local Open Scope num_scope.

(** ** The state setters *)

Definition withDrawing (isDrawing : bool) (dragStart dragEnd : option (Point.t num))
           (brushPoints : list (Point.t num)) (s : Editor.t num) : Editor.t num :=
  {| Editor.annotations := Editor.annotations s;
     Editor.selectedAnnotationId := Editor.selectedAnnotationId s;
     Editor.activeTool := Editor.activeTool s;
     Editor.brushSize := Editor.brushSize s;
     Editor.brushOpacity := Editor.brushOpacity s;
     Editor.isDrawing := isDrawing;
     Editor.dragStart := dragStart;
     Editor.dragEnd := dragEnd;
     Editor.brushPoints := brushPoints;
     Editor.pendingStrokes := Editor.pendingStrokes s;
     Editor.showInput := Editor.showInput s;
     Editor.pendingHighlight := Editor.pendingHighlight s;
     Editor.inputText := Editor.inputText s;
     Editor.inputPosition := Editor.inputPosition s;
     Editor.pendingColor := Editor.pendingColor s |}.

Definition withPending (pendingStrokes : list (BrushStroke.t num))
           (showInput : bool) (pendingHighlight : option (Highlight num))
           (pendingColor : option string) (s : Editor.t num) : Editor.t num :=
  {| Editor.annotations := Editor.annotations s;
     Editor.selectedAnnotationId := Editor.selectedAnnotationId s;
     Editor.activeTool := Editor.activeTool s;
     Editor.brushSize := Editor.brushSize s;
     Editor.brushOpacity := Editor.brushOpacity s;
     Editor.isDrawing := Editor.isDrawing s;
     Editor.dragStart := Editor.dragStart s;
     Editor.dragEnd := Editor.dragEnd s;
     Editor.brushPoints := Editor.brushPoints s;
     Editor.pendingStrokes := pendingStrokes;
     Editor.showInput := showInput;
     Editor.pendingHighlight := pendingHighlight;
     Editor.inputText := Editor.inputText s;
     Editor.inputPosition := Editor.inputPosition s;
     Editor.pendingColor := pendingColor |}.

Definition setIsDrawing (isDrawing : bool) (s : Editor.t num) : Editor.t num :=
  withDrawing isDrawing (Editor.dragStart s) (Editor.dragEnd s)
              (Editor.brushPoints s) s.

Definition setDragStart (dragStart : option (Point.t num)) (s : Editor.t num)
  : Editor.t num :=
  withDrawing (Editor.isDrawing s) dragStart (Editor.dragEnd s)
              (Editor.brushPoints s) s.

Definition setDragEnd (dragEnd : option (Point.t num)) (s : Editor.t num)
  : Editor.t num :=
  withDrawing (Editor.isDrawing s) (Editor.dragStart s) dragEnd
              (Editor.brushPoints s) s.

(** [setBrushPoints(prev => update(prev))]; a value is [fun _ => value]. *)
Definition setBrushPoints (update : list (Point.t num) -> list (Point.t num))
           (s : Editor.t num) : Editor.t num :=
  withDrawing (Editor.isDrawing s) (Editor.dragStart s) (Editor.dragEnd s)
              (update (Editor.brushPoints s)) s.

Definition setPendingStrokes
           (update : list (BrushStroke.t num) -> list (BrushStroke.t num))
           (s : Editor.t num) : Editor.t num :=
  withPending (update (Editor.pendingStrokes s)) (Editor.showInput s)
              (Editor.pendingHighlight s) (Editor.pendingColor s) s.

Definition setShowInput (showInput : bool) (s : Editor.t num) : Editor.t num :=
  withPending (Editor.pendingStrokes s) showInput
              (Editor.pendingHighlight s) (Editor.pendingColor s) s.

Definition setPendingHighlight (pendingHighlight : option (Highlight num))
           (s : Editor.t num) : Editor.t num :=
  withPending (Editor.pendingStrokes s) (Editor.showInput s)
              pendingHighlight (Editor.pendingColor s) s.

Definition setPendingColor (pendingColor : option string) (s : Editor.t num)
  : Editor.t num :=
  withPending (Editor.pendingStrokes s) (Editor.showInput s)
              (Editor.pendingHighlight s) pendingColor s.

(** The page's [setAnnotations(prev => update(prev))] and [setSelectedId]. *)
Definition setAnnotations
           (update : list (Annotation.t num) -> list (Annotation.t num))
           (s : Editor.t num) : Editor.t num :=
  withStore (update (Editor.annotations s)) (Editor.selectedAnnotationId s) s.

Definition setSelectedId (selectedId : option string) (s : Editor.t num)
  : Editor.t num :=
  withStore (Editor.annotations s) selectedId s.

(** ** The handlers, reading [closure] and scheduling on [next] *)

Definition handleMouseDown (canvas : Canvas.t num) (e : MouseEvent.t num)
           (closure next : Editor.t num) : Editor.t num :=
  if Editor.showInput closure && Tool.eqb (Editor.activeTool closure) Tool.select
  then next
  else
    let canvasPos := getCanvasPos canvas e in
    let clickedAnnotation :=
      if (List.length (Editor.pendingStrokes closure) =? 0)%nat
         && negb (Editor.showInput closure)
      then findAnnotationAtPoint (Editor.annotations closure) canvasPos
      else None in
    match clickedAnnotation with
    | Some ann => setSelectedId (Some (Annotation.id ann)) next
    | None =>
        let next := setIsDrawing true next in
        let next := setSelectedId None next in
        match Editor.activeTool closure with
        | Tool.select =>
            let next := setDragStart (Some canvasPos) next in
            setDragEnd (Some canvasPos) next
        | Tool.brush =>
            let next := setBrushPoints (fun _ => [canvasPos]) next in
            if (List.length (Editor.pendingStrokes closure) =? 0)%nat
            then setPendingColor
                   (Some (paletteColor (List.length (Editor.annotations closure))))
                   next
            else next
        end
    end.

Definition handleWindowMouseMove (canvas : Canvas.t num) (e : MouseEvent.t num)
           (closure next : Editor.t num) : Editor.t num :=
  let pos := windowMousePos canvas e in
  match Editor.activeTool closure, Editor.dragStart closure with
  | Tool.select, Some _ => setDragEnd (Some pos) next
  | Tool.select, None => next
  | Tool.brush, _ => setBrushPoints (fun prev => prev ++ [pos]) next
  end.

Definition handleWindowMouseUp (container : option (DOMRect.t num))
           (e : MouseEvent.t num) (closure next : Editor.t num) : Editor.t num :=
  let next := setIsDrawing false next in
  let screenPos :=
    match container with
    | Some containerRect =>
        Point.mk (MouseEvent.clientX e - DOMRect.left containerRect)
                 (MouseEvent.clientY e - DOMRect.top containerRect)
    | None => Point.mk #0 #0
    end in
  let nextColor :=
    match Editor.pendingColor closure with
    | Some c => if truthy (Some c) then c
                else paletteColor (List.length (Editor.annotations closure))
    | None => paletteColor (List.length (Editor.annotations closure))
    end in
  let next :=
    match Editor.activeTool closure, Editor.dragStart closure,
          Editor.dragEnd closure with
    | Tool.select, Some dragStart, Some dragEnd =>
        let x := nmin (Point.x dragStart) (Point.x dragEnd) in
        let y := nmin (Point.y dragStart) (Point.y dragEnd) in
        let w := nabs (Point.x dragEnd - Point.x dragStart) in
        let h := nabs (Point.y dragEnd - Point.y dragStart) in
        if (w >? #10) && (h >? #10) then
          let highlight := RectHighlight.mk x y w h nextColor in
          let next := setPendingHighlight (Some (rect highlight)) next in
          let next := setShowInput true next in
          setInputPosition
            (Some (constrainPopoverPosition container screenPos)) next
        else next
    | _, _, _ =>
        if Tool.eqb (Editor.activeTool closure) Tool.brush
           && (2 <? List.length (Editor.brushPoints closure))%nat
        then
          let newStroke :=
            BrushStroke.mk (Editor.brushPoints closure)
                           (Editor.brushSize closure) in
          let next := setPendingStrokes (fun prev => prev ++ [newStroke]) next in
          if negb (Editor.showInput closure) then
            let next := setShowInput true next in
            setInputPosition
              (Some (constrainPopoverPosition container screenPos)) next
          else next
        else next
    end in
  let next := setDragStart None next in
  let next := setDragEnd None next in
  setBrushPoints (fun _ => []) next.

Definition handleSaveAnnotation (id : string) (now : num)
           (closure next : Editor.t num) : Editor.t num :=
  match stagedHighlight closure with
  | None => next
  | Some highlight =>
      let newAnnotation :=
        {| Annotation.id := id;
           Annotation.text := trim (Editor.inputText closure);
           Annotation.highlight := highlight;
           Annotation.color := Highlight_color highlight;
           Annotation.timestamp := now;
           Annotation.replies := [];
           Annotation.completed := false |} in
      clearInput (Editor.annotations next ++ [newAnnotation]) next
  end.

Definition handleMarkComplete (id : string) (closure next : Editor.t num)
  : Editor.t num :=
  let next := setAnnotations (markComplete id) next in
  match Editor.selectedAnnotationId closure with
  | Some selectedId =>
      if String.eqb selectedId id then setSelectedId None next else next
  | None => next
  end.

Definition handleReply (annotationId text replyId : string) (now : num)
           (next : Editor.t num) : Editor.t num :=
  setAnnotations (addReply annotationId (Reply.mk replyId text now)) next.

(** ** The loop: events and renders *)

Record t : Type := mk {
  rendered : Editor.t num;          (* what the handlers' closures hold *)
  scheduled : Editor.t num }.       (* what the next render shows *)

Inductive Turn : Type :=
| Dispatch (ev : Event (num := num))
| Render.

(** One event, handled by the closures of the last render; the listeners
    on [window] exist when that render had [isDrawing]. *)
Definition dispatch (width height : num) (closure next : Editor.t num)
           (ev : Event (num := num)) : Editor.t num :=
  match ev with
  | MouseDown canvasRect e =>
      handleMouseDown (Canvas.mk width height canvasRect) e closure next
  | MouseMove canvasRect e =>
      if Editor.isDrawing closure
      then handleWindowMouseMove (Canvas.mk width height canvasRect) e
                                 closure next
      else next
  | MouseUp container e =>
      if Editor.isDrawing closure
      then handleWindowMouseUp container e closure next
      else next
  | SaveAnnotation id now => handleSaveAnnotation id now closure next
  | Discard => handleDiscard next
  | InputChange text => setInputText text next
  | SetActiveTool tool =>
      setTools tool (Editor.brushSize next) (Editor.brushOpacity next) next
  | SetBrushSize size =>
      setTools (Editor.activeTool next) size (Editor.brushOpacity next) next
  | SetBrushOpacity opacity =>
      setTools (Editor.activeTool next) (Editor.brushSize next) opacity next
  | MarkComplete id => handleMarkComplete id closure next
  | AddReply annotationId text replyId now =>
      handleReply annotationId text replyId now next
  | ClearAnnotations => handleClearAnnotations next
  end.

Definition step (width height : num) (st : t) (turn : Turn) : t :=
  match turn with
  | Dispatch ev =>
      mk (rendered st) (dispatch width height (rendered st) (scheduled st) ev)
  | Render => mk (scheduled st) (scheduled st)
  end.

Definition run (width height : num) (st : t) (turns : list Turn) : t :=
  fold_left (step width height) turns st.

(** The page as mounted, and the loop in which a render follows every
    event. *)
Definition start (s : Editor.t num) : t := mk s s.

Definition renderedAfterEach (evs : list (Event (num := num))) : list Turn :=
  flat_map (fun ev => [Dispatch ev; Render]) evs.

End Loop.

Arguments t : clear implicits.
Arguments Turn num : clear implicits.

End Scheduled.


(* ================================================================== *)
(** * Specification-level notions *)

Section HitSpec.
Context {num : Type} {N : JSNumber num}.

(** Section 4.1: a highlight "passes the corresponding test" at a point:
    rectangle containment, or nearness to any stroke of a brush highlight. *)
Definition hits (point : Point.t num) (a : Annotation.t num) : bool :=
  match Annotation.highlight a with
  | rect r => isPointInRect point r
  | brush b => existsb (isPointNearStroke point) (BrushHighlight.strokes b)
  end.

Definition active (a : Annotation.t num) : bool := negb (Annotation.completed a).

End HitSpec.

Section GestureSpec.
Context {num : Type} {N : JSNumber num}.
Local Open Scope num_scope.

(** What a gesture's end leaves alone when it stages nothing. *)
Definition nothingStaged (s s' : Editor.t num) : Prop :=
  Editor.pendingHighlight s' = Editor.pendingHighlight s
  /\ Editor.pendingStrokes s' = Editor.pendingStrokes s
  /\ Editor.showInput s' = Editor.showInput s
  /\ Editor.inputPosition s' = Editor.inputPosition s
  /\ Editor.pendingColor s' = Editor.pendingColor s
  /\ Editor.brushOpacity s' = Editor.brushOpacity s
  /\ Editor.annotations s' = Editor.annotations s.

Definition dragCleared (s' : Editor.t num) : Prop :=
  Editor.isDrawing s' = false
  /\ Editor.dragStart s' = None
  /\ Editor.dragEnd s' = None
  /\ Editor.brushPoints s' = [].

(** A degenerate gesture, its size judged by the numbers' own [<=]. *)
Definition degenerateGesture (s : Editor.t num) : Prop :=
  (Editor.activeTool s = Tool.select /\
   exists dragStart dragEnd,
     Editor.dragStart s = Some dragStart /\ Editor.dragEnd s = Some dragEnd /\
     ((nabs (Point.x dragEnd - Point.x dragStart) <=? #10) = true \/
      (nabs (Point.y dragEnd - Point.y dragStart) <=? #10) = true))
  \/ (Editor.activeTool s = Tool.brush /\
      (List.length (Editor.brushPoints s) <= 2)%nat).

(** What the end of a gesture that stages nothing amounts to. *)
Definition discarded (s s' : Editor.t num) : Prop :=
  nothingStaged s s'
  /\ stagedHighlight s' = stagedHighlight s
  /\ dragCleared s'
  /\ (stagedHighlight s = None ->
      forall id now,
        Editor.annotations (handleSaveAnnotation id now s')
        = Editor.annotations s).

End GestureSpec.

(** ** Coordinates kept by the handlers *)

Definition whenSome {X : Type} (P : X -> Prop) (o : option X) : Prop :=
  match o with
  | Some x => P x
  | None => True
  end.

Section CoordinateSpec.
Context {num : Type} {N : JSNumber num}.
Variable pointOk : Point.t num -> Prop.
Variable rectOk : RectHighlight.t num -> Prop.

Definition strokeOk (s : BrushStroke.t num) : Prop :=
  Forall pointOk (BrushStroke.points s).

Definition highlightOk (h : Highlight num) : Prop :=
  match h with
  | rect r => rectOk r
  | brush b => Forall strokeOk (BrushHighlight.strokes b)
  end.

(** Every coordinate the editor holds, committed or in progress. *)
Definition editorOk (s : Editor.t num) : Prop :=
  Forall (fun a => highlightOk (Annotation.highlight a)) (Editor.annotations s)
  /\ whenSome pointOk (Editor.dragStart s)
  /\ whenSome pointOk (Editor.dragEnd s)
  /\ Forall pointOk (Editor.brushPoints s)
  /\ Forall strokeOk (Editor.pendingStrokes s)
  /\ whenSome highlightOk (Editor.pendingHighlight s).

(** The points an event brings in: the first point of a gesture, taken by
    [getCanvasPos], and the point of a move, taken by [windowMousePos]. *)
Definition eventOk (width height : num) (ev : Event (num := num)) : Prop :=
  match ev with
  | MouseDown canvasRect e =>
      pointOk (getCanvasPos (Canvas.mk width height canvasRect) e)
  | MouseMove canvasRect e =>
      pointOk (windowMousePos (Canvas.mk width height canvasRect) e)
  | _ => True
  end.

Definition turnOk (width height : num) (turn : Scheduled.Turn num) : Prop :=
  match turn with
  | Scheduled.Dispatch ev => eventOk width height ev
  | Scheduled.Render => True
  end.

End CoordinateSpec.

Section IdealSpec.
Local Open Scope R_scope.

(** Section 4.1 over the reals: the distance from a point to a segment by
    projection and clamping, the Euclidean distance when the end points
    coincide. *)
Definition euclidean (p q : Point.t R) : R :=
  sqrt ((Point.x p - Point.x q) ^ 2 + (Point.y p - Point.y q) ^ 2).

Definition clamp (lo hi v : R) : R := Rmax lo (Rmin hi v).

Definition pointOnSegment (a b : Point.t R) (t : R) : Point.t R :=
  Point.mk (Point.x a + t * (Point.x b - Point.x a))
           (Point.y a + t * (Point.y b - Point.y a)).

Definition Point_eq_dec (a b : Point.t R) : {a = b} + {a <> b}.
Proof.
  destruct a as [ax ay], b as [bx by'].
  destruct (Req_dec_T ax bx) as [Hx | Hx];
    [destruct (Req_dec_T ay by') as [Hy | Hy] |].
  - left; subst; reflexivity.
  - right; intros H; inversion H; contradiction.
  - right; intros H; inversion H; contradiction.
Defined.

Definition segmentDistance (p a b : Point.t R) : R :=
  if Point_eq_dec a b then euclidean p a
  else
    let t := ((Point.x p - Point.x a) * (Point.x b - Point.x a)
              + (Point.y p - Point.y a) * (Point.y b - Point.y a))
             / ((Point.x b - Point.x a) ^ 2 + (Point.y b - Point.y a) ^ 2) in
    euclidean p (pointOnSegment a b (clamp 0 1 t)).

(** Section 4.3, debounced settle: the scale clamped to [1, 3]; the pan reset
    to the origin at scale 1 and otherwise clamped into the bounds recomputed
    at the settled scale. *)
Definition settleSpec (dom : option (Layout.t R)) (t : Transform.t R)
  : Transform.t R :=
  let scale := clamp 1 3 (Transform.scale t) in
  let bounds := getBounds (N := Ideal.number) dom scale in
  if Req_dec_T scale 1 then Transform.mk 0 0 scale
  else Transform.mk
         (clamp (Bounds.minX bounds) (Bounds.maxX bounds) (Transform.x t))
         (clamp (Bounds.minY bounds) (Bounds.maxY bounds) (Transform.y t))
         scale.

(** Section 4.3, elastic resistance on one axis with bounds [lo] and [hi]:
    [pos'] is the pan after a raw delta [delta] from [pos]. *)
Definition elasticStep (lo hi pos delta pos' : R) : Prop :=
  (hi < pos -> 0 < delta ->
   pos' = pos + delta * Rmax 0 (1 - (pos - hi) / 200))
  /\ (pos < lo -> delta < 0 ->
      pos' = pos + delta * Rmax 0 (1 - (lo - pos) / 200))
  /\ (lo <= pos <= hi \/ (hi < pos /\ delta <= 0) \/ (pos < lo /\ 0 <= delta) ->
      pos' = pos + delta)
  /\ (pos = hi + 200 -> 0 < delta -> pos' = pos)
  /\ (pos = lo - 200 -> delta < 0 -> pos' = pos).

(** ** Lying within the bitmap *)

Definition inBitmap (width height : R) (p : Point.t R) : Prop :=
  0 <= Point.x p <= width /\ 0 <= Point.y p <= height.

(** A rectangle by its corners [(x, y)] and [(x + width, y + height)]. *)
Definition cornersInBitmap (width height : R) (r : RectHighlight.t R) : Prop :=
  inBitmap width height (Point.mk (RectHighlight.x r) (RectHighlight.y r))
  /\ inBitmap width height
       (Point.mk (RectHighlight.x r + RectHighlight.width r)
                 (RectHighlight.y r + RectHighlight.height r)).

Definition strokeInBitmap (width height : R) (s : BrushStroke.t R) : Prop :=
  strokeOk (inBitmap width height) s.

(** A rectangle by its corners, a brush highlight by every point of every
    stroke. *)
Definition highlightInBitmap (width height : R) (h : Highlight R) : Prop :=
  highlightOk (inBitmap width height) (cornersInBitmap width height) h.

(** Every coordinate the editor holds, committed or in progress. *)
Definition editorInBitmap (width height : R) (s : Editor.t R) : Prop :=
  editorOk (inBitmap width height) (cornersInBitmap width height) s.

(** The pointer lies on the canvas's box, which is not empty: from the
    left and top edges up to, not including, the right and bottom ones. *)
Definition onCanvas (canvasRect : DOMRect.t R) (e : MouseEvent.t R) : Prop :=
  0 < DOMRect.width canvasRect /\ 0 < DOMRect.height canvasRect
  /\ DOMRect.left canvasRect <= MouseEvent.clientX e
     < DOMRect.left canvasRect + DOMRect.width canvasRect
  /\ DOMRect.top canvasRect <= MouseEvent.clientY e
     < DOMRect.top canvasRect + DOMRect.height canvasRect.

(** A gesture the specification calls degenerate: a rectangle drag of at
    most 10 px in width or in height, or a brush gesture of at most two
    points. *)
Definition degenerate (s : Editor.t R) : Prop :=
  (Editor.activeTool s = Tool.select /\
   exists dragStart dragEnd,
     Editor.dragStart s = Some dragStart /\ Editor.dragEnd s = Some dragEnd /\
     (Rabs (Point.x dragEnd - Point.x dragStart) <= 10 \/
      Rabs (Point.y dragEnd - Point.y dragStart) <= 10))
  \/ (Editor.activeTool s = Tool.brush /\
      (List.length (Editor.brushPoints s) <= 2)%nat).

End IdealSpec.

(** ** Gestures that start within the bitmap *)

Section StartSpec.
Local Open Scope R_scope.

(** The first point of a gesture, which [getCanvasPos] computes without
    clamping, lies within the bitmap. *)
Definition startsInBitmap (width height : R) (ev : Event (num := R)) : Prop :=
  match ev with
  | MouseDown canvasRect e =>
      inBitmap width height
        (getCanvasPos (N := Ideal.number) (Canvas.mk width height canvasRect) e)
  | _ => True
  end.

Definition turnStartsInBitmap (width height : R) (turn : Scheduled.Turn R)
  : Prop :=
  match turn with
  | Scheduled.Dispatch ev => startsInBitmap width height ev
  | Scheduled.Render => True
  end.

End StartSpec.

(** ** Lying within the bitmap, by the comparisons of binary64 *)

Section Binary64Spec.

Definition within64 (size v : PrimFloat.float) : Prop :=
  PrimFloat.leb (Binary64.of_Z 0) v = true /\ PrimFloat.leb v size = true.

Definition inBitmap64 (width height : PrimFloat.float)
           (p : Point.t PrimFloat.float) : Prop :=
  within64 width (Point.x p) /\ within64 height (Point.y p).

(** A rectangle by its corner [(x, y)], the least of the coordinates of the
    two ends of the drag; the far corner is a sum, which is rounded. *)
Definition cornerInBitmap64 (width height : PrimFloat.float)
           (r : RectHighlight.t PrimFloat.float) : Prop :=
  inBitmap64 width height (Point.mk (RectHighlight.x r) (RectHighlight.y r)).

Definition highlightInBitmap64 (width height : PrimFloat.float)
           (h : Highlight PrimFloat.float) : Prop :=
  highlightOk (inBitmap64 width height) (cornerInBitmap64 width height) h.

Definition editorInBitmap64 (width height : PrimFloat.float)
           (s : Editor.t PrimFloat.float) : Prop :=
  editorOk (inBitmap64 width height) (cornerInBitmap64 width height) s.

(** The first point of a gesture lies within the bitmap, and the scaled
    coordinates of a move are numbers. *)
Definition clamps64 (width height : PrimFloat.float)
           (ev : Event (num := PrimFloat.float)) : Prop :=
  match ev with
  | MouseDown canvasRect e =>
      inBitmap64 width height
        (getCanvasPos (N := Binary64.number)
                      (Canvas.mk width height canvasRect) e)
  | MouseMove canvasRect e =>
      PrimFloat.is_nan
        (PrimFloat.mul
           (PrimFloat.sub (MouseEvent.clientX e) (DOMRect.left canvasRect))
           (PrimFloat.div width (DOMRect.width canvasRect))) = false
      /\ PrimFloat.is_nan
           (PrimFloat.mul
              (PrimFloat.sub (MouseEvent.clientY e) (DOMRect.top canvasRect))
              (PrimFloat.div height (DOMRect.height canvasRect))) = false
  | _ => True
  end.

Definition turnClamps64 (width height : PrimFloat.float)
           (turn : Scheduled.Turn PrimFloat.float) : Prop :=
  match turn with
  | Scheduled.Dispatch ev => clamps64 width height ev
  | Scheduled.Render => True
  end.

End Binary64Spec.


(** ** Round trips through the persisted text *)



(* ================================================================== *)
(** * Sample inputs *)

Section Samples.
Context {num : Type} {N : JSNumber num}.
Local Open Scope num_scope.

(** The scenario of the specification: a rectangle dragged from (10, 10) to
    (100, 80) on a 500 x 400 image shown at its own size, the note
    "check this", Save. *)
Definition fullSizeRect : DOMRect.t num := DOMRect.mk #0 #0 #500 #400.

Definition rectScenario : list (Event (num := num)) :=
  [ MouseDown fullSizeRect (MouseEvent.mk #10 #10);
    MouseMove fullSizeRect (MouseEvent.mk #60 #40);
    MouseMove fullSizeRect (MouseEvent.mk #100 #80);
    MouseUp (Some fullSizeRect) (MouseEvent.mk #100 #80);
    InputChange "check this";
    SaveAnnotation "1700000000000" #1700000000000 ].

Definition rectAnnotation : Annotation.t num :=
  {| Annotation.id := "1700000000000";
     Annotation.text := "check this";
     Annotation.highlight :=
       rect (RectHighlight.mk #10 #10 #90 #70 "rgba(255, 180, 0, 0.25)");
     Annotation.color := "rgba(255, 180, 0, 0.25)";
     Annotation.timestamp := #1700000000000;
     Annotation.replies := [];
     Annotation.completed := false |}.

(** A second rectangle over the first, created later. *)
Definition overlappingAnnotation : Annotation.t num :=
  {| Annotation.id := "1700000005000";
     Annotation.text := "and this";
     Annotation.highlight :=
       rect (RectHighlight.mk #50 #40 #100 #100 "rgba(0, 200, 150, 0.25)");
     Annotation.color := "rgba(0, 200, 150, 0.25)";
     Annotation.timestamp := #1700000005000;
     Annotation.replies := [];
     Annotation.completed := false |}.

(** A rectangle drag 5 px wide and 50 px high, about to be released. *)
Definition narrowDrag : Editor.t num :=
  {| Editor.annotations := [];
     Editor.selectedAnnotationId := None;
     Editor.activeTool := Tool.select;
     Editor.brushSize := #20;
     Editor.brushOpacity := #4 / #10;
     Editor.isDrawing := true;
     Editor.dragStart := Some (Point.mk #10 #10);
     Editor.dragEnd := Some (Point.mk #15 #60);
     Editor.brushPoints := [];
     Editor.pendingStrokes := [];
     Editor.showInput := false;
     Editor.pendingHighlight := None;
     Editor.inputText := EmptyString;
     Editor.inputPosition := None;
     Editor.pendingColor := None |}.


(** A 1600 x 900 bitmap shown 800 x 450 in a container of 800 x 600. *)
Definition wideLayout : Layout.t num :=
  Layout.mk #800 #600 (Some #800) (Some #450) #1600 #900.

End Samples.



(* ================================================================== *)
(** * Further specification-level notions *)

Section CommittedSpec.
Context {num : Type} {N : JSNumber num}.
Local Open Scope num_scope.

(** A highlight that is worth a note: a rectangle wider and higher than
    10 px, or a brush highlight of at least one stroke, every stroke of at
    least three points. *)
Definition substantial (h : Highlight num) : Prop :=
  match h with
  | rect r =>
      (RectHighlight.width r >? #10) = true
      /\ (RectHighlight.height r >? #10) = true
  | brush b =>
      BrushHighlight.strokes b <> []
      /\ Forall (fun stroke => (2 < List.length (BrushStroke.points stroke))%nat)
                (BrushHighlight.strokes b)
  end.

(** The annotation carries the colour of its highlight. *)
Definition coloured (a : Annotation.t num) : Prop :=
  Annotation.color a = Highlight_color (Annotation.highlight a).

(** What the editor holds is substantial, committed or staged. *)
Definition editorSubstantial (s : Editor.t num) : Prop :=
  Forall (fun a => substantial (Annotation.highlight a)) (Editor.annotations s)
  /\ whenSome substantial (Editor.pendingHighlight s)
  /\ Forall (fun stroke => (2 < List.length (BrushStroke.points stroke))%nat)
            (Editor.pendingStrokes s).

(** The annotation [handleSaveAnnotation] builds from a staged highlight. *)
Definition newAnnotation (id : string) (now : num) (s : Editor.t num)
           (highlight : Highlight num) : Annotation.t num :=
  {| Annotation.id := id;
     Annotation.text := trim (Editor.inputText s);
     Annotation.highlight := highlight;
     Annotation.color := Highlight_color highlight;
     Annotation.timestamp := now;
     Annotation.replies := [];
     Annotation.completed := false |}.

End CommittedSpec.

Section IdealChatSpec.
Local Open Scope R_scope.

(** The points a brush highlight is made of, each with half the size of its
    stroke. *)
Definition inflatedPoints (strokes : list (BrushStroke.t R))
  : list (Point.t R * R) :=
  flat_map (fun stroke =>
              map (fun p => (p, BrushStroke.brushSize stroke / 2))
                  (BrushStroke.points stroke)) strokes.

(** The least box around the squares of side [2 * h] centred at the points
    of [l]: it holds them all and each of its sides touches one. *)
Definition boundingBox (l : list (Point.t R * R)) (minX maxX minY maxY : R)
  : Prop :=
  (forall q h, In (q, h) l ->
     minX <= Point.x q - h /\ Point.x q + h <= maxX
     /\ minY <= Point.y q - h /\ Point.y q + h <= maxY)
  /\ (exists q h, In (q, h) l /\ minX = Point.x q - h)
  /\ (exists q h, In (q, h) l /\ maxX = Point.x q + h)
  /\ (exists q h, In (q, h) l /\ minY = Point.y q - h)
  /\ (exists q h, In (q, h) l /\ maxY = Point.y q + h).

(** The accumulators after the points of [l]: untouched when there is none,
    their bounding box otherwise. *)
Definition boxOf (l : list (Point.t R * R)) (box : Box.t R) : Prop :=
  match l with
  | [] => box = Box.mk Ext.PosInfinity Ext.NegInfinity
                       Ext.PosInfinity Ext.NegInfinity
  | _ :: _ =>
      exists minX maxX minY maxY,
        box = Box.mk (Ext.Finite minX) (Ext.Finite maxX)
                     (Ext.Finite minY) (Ext.Finite maxY)
        /\ boundingBox l minX maxX minY maxY
  end.

(** The canvas is shown and its bitmap is not empty. *)
Definition canvasShown (dom : ChatLayout.t R) : Prop :=
  0 < DOMRect.width (Canvas.rect (ChatLayout.canvas dom))
  /\ 0 < DOMRect.height (Canvas.rect (ChatLayout.canvas dom))
  /\ 0 < Canvas.width (ChatLayout.canvas dom)
  /\ 0 < Canvas.height (ChatLayout.canvas dom).

(** A sequence of key presses, none in a text field. *)
Definition pressKeys (keys : list string) (st : Editor.t R * bool)
  : Editor.t R * bool :=
  fold_left (fun st key => handleKeyDown (N := Ideal.number) false key st)
            keys st.

End IdealChatSpec.

(** A text of white space only. *)
Fixpoint blank (s : string) : bool :=
  match s with
  | EmptyString => true
  | String c rest => isWhiteSpace c && blank rest
  end.

(** ** Further sample inputs *)

Section MoreSamples.
Context {num : Type} {N : JSNumber num}.
Local Open Scope num_scope.

(** The rectangle of the scenario staged, its note typed, before Save. *)
Definition rectStaged : Editor.t num :=
  {| Editor.annotations := [];
     Editor.selectedAnnotationId := None;
     Editor.activeTool := Tool.select;
     Editor.brushSize := #20;
     Editor.brushOpacity := #4 / #10;
     Editor.isDrawing := false;
     Editor.dragStart := None;
     Editor.dragEnd := None;
     Editor.brushPoints := [];
     Editor.pendingStrokes := [];
     Editor.showInput := true;
     Editor.pendingHighlight :=
       Some (rect (RectHighlight.mk #10 #10 #90 #70 "rgba(255, 180, 0, 0.25)"));
     Editor.inputText := "check this";
     Editor.inputPosition := Some (Point.mk #100 #80);
     Editor.pendingColor := None |}.

(** A brush highlight of one stroke of three points, 20 px wide. *)
Definition brushSample : BrushHighlight.t num :=
  BrushHighlight.mk
    [BrushStroke.mk [Point.mk #30 #40; Point.mk #60 #45; Point.mk #90 #35] #20]
    (#4 / #10) "rgba(0, 200, 150, 0.25)".

(** The 500 x 400 canvas shown at its own size, 100 px from the left of a
    container of 800 x 600. *)
Definition chatLayout : ChatLayout.t num :=
  ChatLayout.mk (Canvas.mk #500 #400 (DOMRect.mk #100 #0 #500 #400))
                (DOMRect.mk #0 #0 #800 #600).

(** The page with the annotation of the scenario selected. *)
Definition rectSelected : Chat.t num :=
  Chat.mk (Some "1700000000000"%string) None (fun _ => None).

(** An annotation loaded with the id ["constructor"], selected. *)
Definition constructorAnnotation : Annotation.t num :=
  {| Annotation.id := "constructor";
     Annotation.text := "check this";
     Annotation.highlight :=
       rect (RectHighlight.mk #10 #10 #90 #70 "rgba(255, 180, 0, 0.25)");
     Annotation.color := "rgba(255, 180, 0, 0.25)";
     Annotation.timestamp := #1700000000000;
     Annotation.replies := [];
     Annotation.completed := false |}.

Definition constructorSelected : Chat.t num :=
  Chat.mk (Some "constructor"%string) None (fun _ => None).

End MoreSamples.

Section ScheduledSamples.
Context {num : Type} {N : JSNumber num}.
Local Open Scope num_scope.

(** A drag from (10, 10) out to (100, 80) and back to (12, 12), released
    there before the render of the last move. *)
Definition staleRelease : list (Scheduled.Turn num) :=
  [ Scheduled.Dispatch (MouseDown fullSizeRect (MouseEvent.mk #10 #10));
    Scheduled.Render;
    Scheduled.Dispatch (MouseMove fullSizeRect (MouseEvent.mk #100 #80));
    Scheduled.Render;
    Scheduled.Dispatch (MouseMove fullSizeRect (MouseEvent.mk #12 #12));
    Scheduled.Dispatch (MouseUp (Some fullSizeRect) (MouseEvent.mk #12 #12));
    Scheduled.Render ].

(** The same drag, released after the render of the last move. *)
Definition renderedRelease : list (Scheduled.Turn num) :=
  [ Scheduled.Dispatch (MouseDown fullSizeRect (MouseEvent.mk #10 #10));
    Scheduled.Render;
    Scheduled.Dispatch (MouseMove fullSizeRect (MouseEvent.mk #100 #80));
    Scheduled.Render;
    Scheduled.Dispatch (MouseMove fullSizeRect (MouseEvent.mk #12 #12));
    Scheduled.Render;
    Scheduled.Dispatch (MouseUp (Some fullSizeRect) (MouseEvent.mk #12 #12));
    Scheduled.Render ].

(** The scenario of the specification with the [mousedown] one pixel to
    the left of the canvas's box. *)
Definition outsideScenario : list (Event (num := num)) :=
  [ MouseDown fullSizeRect (MouseEvent.mk #(-1) #10);
    MouseMove fullSizeRect (MouseEvent.mk #60 #40);
    MouseMove fullSizeRect (MouseEvent.mk #100 #80);
    MouseUp (Some fullSizeRect) (MouseEvent.mk #100 #80);
    InputChange "check this";
    SaveAnnotation "1700000000000" #1700000000000 ].

End ScheduledSamples.


Unset Implicit Arguments.

(* ================================================================== *)
(** * Reasoning over the reals *)

Section IdealComparisons.
Local Open Scope R_scope.

Lemma ideal_ltb_true (x y : R) : Ideal.ltb x y = true <-> x < y.
Proof. unfold Ideal.ltb; destruct (Rlt_dec x y); split; intros; try lra; congruence. Qed.

Lemma ideal_ltb_false (x y : R) : Ideal.ltb x y = false <-> y <= x.
Proof. unfold Ideal.ltb; destruct (Rlt_dec x y); split; intros; try lra; congruence. Qed.

Lemma ideal_leb_true (x y : R) : Ideal.leb x y = true <-> x <= y.
Proof. unfold Ideal.leb; destruct (Rle_dec x y); split; intros; try lra; congruence. Qed.

Lemma ideal_leb_false (x y : R) : Ideal.leb x y = false <-> y < x.
Proof. unfold Ideal.leb; destruct (Rle_dec x y); split; intros; try lra; congruence. Qed.

Lemma ideal_eqb_true (x y : R) : Ideal.eqb x y = true <-> x = y.
Proof. unfold Ideal.eqb; destruct (Req_dec_T x y); split; intros; try lra; congruence. Qed.

Lemma ideal_eqb_false (x y : R) : Ideal.eqb x y = false <-> x <> y.
Proof. unfold Ideal.eqb; destruct (Req_dec_T x y); split; intros; try lra; congruence. Qed.

Lemma clamp_between (lo hi v : R) : lo <= hi -> lo <= clamp lo hi v <= hi.
Proof.
  intros H; unfold clamp, Rmax, Rmin.
  destruct (Rle_dec hi v); destruct (Rle_dec lo _); lra.
Qed.

End IdealComparisons.

(** Reads the interface at the reals. *)
Ltac ideal :=
  cbn [num_of_Z nadd nsub nmul ndiv nneg nsqrt nabs nfloor nmax nmin
       nltb nleb neqb Ideal.number] in *.

(** [t] holds no comparison: it can be decided first. *)
Ltac no_comparison t :=
  lazymatch t with
  | context [Ideal.ltb _ _] => fail
  | context [Ideal.leb _ _] => fail
  | context [Ideal.eqb _ _] => fail
  | _ => idtac
  end.

(** Decides the comparisons of a goal, innermost first, one case per
    outcome. *)
Ltac ideal_cases :=
  repeat (match goal with
    | |- context [Ideal.ltb ?x ?y] =>
        no_comparison x; no_comparison y;
        let H := fresh "Hlt" in
        destruct (Ideal.ltb x y) eqn:H;
        [apply ideal_ltb_true in H | apply ideal_ltb_false in H]
    | |- context [Ideal.leb ?x ?y] =>
        no_comparison x; no_comparison y;
        let H := fresh "Hle" in
        destruct (Ideal.leb x y) eqn:H;
        [apply ideal_leb_true in H | apply ideal_leb_false in H]
    | |- context [Ideal.eqb ?x ?y] =>
        no_comparison x; no_comparison y;
        let H := fresh "Heq" in
        destruct (Ideal.eqb x y) eqn:H;
        [apply ideal_eqb_true in H | apply ideal_eqb_false in H]
    end; cbn [andb orb negb]).

(* ================================================================== *)
(** * Renders and closures *)

Ltac editor_fields :=
  cbn [Editor.annotations Editor.selectedAnnotationId Editor.activeTool
       Editor.brushSize Editor.brushOpacity Editor.isDrawing Editor.dragStart
       Editor.dragEnd Editor.brushPoints Editor.pendingStrokes
       Editor.showInput Editor.pendingHighlight Editor.inputText
       Editor.inputPosition Editor.pendingColor] in *.

(** The setters of the scheduled state, computed innermost first. *)
Ltac scheduled_setters :=
  cbv beta iota zeta delta
      [Scheduled.setIsDrawing Scheduled.setDragStart Scheduled.setDragEnd
       Scheduled.setBrushPoints Scheduled.setPendingStrokes
       Scheduled.setShowInput Scheduled.setPendingHighlight
       Scheduled.setPendingColor Scheduled.setAnnotations
       Scheduled.setSelectedId Scheduled.withDrawing Scheduled.withPending
       setInputPosition withStore
       Editor.annotations Editor.selectedAnnotationId Editor.activeTool
       Editor.brushSize Editor.brushOpacity Editor.isDrawing Editor.dragStart
       Editor.dragEnd Editor.brushPoints Editor.pendingStrokes
       Editor.showInput Editor.pendingHighlight Editor.inputText
       Editor.inputPosition Editor.pendingColor].

Section ScheduledLoop.
Context {num : Type} {N : JSNumber num}.

(** A handler run right after a render reads the state it schedules on:
    it is the handler of the loop in which a render follows every event. *)
Lemma scheduled_dispatch_rendered (width height : num) (s : Editor.t num)
      (ev : Event) :
  Scheduled.dispatch width height s s ev = step width height s ev.
Proof.
  destruct s as [an sel tool bs bo dr ds de bp ps si ph it ip pc];
    destruct ev; cbn [Scheduled.dispatch step]; try reflexivity;
    editor_fields.
  - unfold Scheduled.handleMouseDown, handleMouseDown; scheduled_setters.
    destruct (si && Tool.eqb tool Tool.select); [reflexivity |].
    match goal with
    | |- context [match ?c with Some _ => _ | None => _ end] => destruct c
    end; [reflexivity |].
    destruct tool; cbn [Tool.eqb]; [reflexivity |].
    destruct (List.length ps =? 0)%nat; reflexivity.
  - destruct dr; [| reflexivity].
    unfold Scheduled.handleWindowMouseMove, handleWindowMouseMove;
      scheduled_setters.
    destruct tool, ds; reflexivity.
  - destruct dr; [| reflexivity].
    unfold Scheduled.handleWindowMouseUp, handleWindowMouseUp;
      scheduled_setters.
    destruct tool; [destruct ds as [ds |]; [destruct de as [de |] |] |];
      cbn [Tool.eqb andb].
    + destruct ((nabs (Point.x de - Point.x ds) >? #10)
                && (nabs (Point.y de - Point.y ds) >? #10))%num; reflexivity.
    + reflexivity.
    + reflexivity.
    + destruct (2 <? List.length bp)%nat; [| reflexivity].
      destruct si; reflexivity.
  - unfold Scheduled.handleMarkComplete, handleMarkComplete;
      scheduled_setters.
    destruct sel as [selectedId |]; [| reflexivity].
    destruct (String.eqb selectedId id); reflexivity.
Qed.

Lemma scheduled_run_rendered (width height : num) (evs : list Event)
      (s : Editor.t num) :
  Scheduled.run width height (Scheduled.start s)
                (Scheduled.renderedAfterEach evs)
  = Scheduled.start (run width height s evs).
Proof.
  revert s; induction evs as [| ev evs IH]; intros s; [reflexivity |].
  unfold Scheduled.run, Scheduled.renderedAfterEach in *;
    cbn [flat_map app fold_left Scheduled.step Scheduled.start
         Scheduled.rendered Scheduled.scheduled run].
  rewrite scheduled_dispatch_rendered; apply IH.
Qed.

End ScheduledLoop.

(* ================================================================== *)
(** * Hit testing *)

Section HitTesting.
Context {num : Type} {N : JSNumber num}.
Local Open Scope num_scope.

(** The segment loop finds a hit exactly when some pair of consecutive
    points is within the threshold. *)
Lemma nearSegments_iff (point : Point.t num) (threshold : num)
      (points : list (Point.t num)) :
  nearSegments point threshold points = true <->
  exists i p1 p2,
    nth_error points i = Some p1 /\ nth_error points (S i) = Some p2 /\
    (distanceToLineSegment point p1 p2 <=? threshold) = true.
Proof.
  induction points as [| p1 [| p2 rest] IH].
  - simpl; split; [discriminate |].
    intros (i & a & b & Ha & _); destruct i; discriminate.
  - simpl; split; [discriminate |].
    intros (i & a & b & _ & Hb & _); destruct i as [| [| i]]; discriminate.
  - change (nearSegments point threshold (p1 :: p2 :: rest))
      with (if distanceToLineSegment point p1 p2 <=? threshold then true
            else nearSegments point threshold (p2 :: rest)).
    destruct (distanceToLineSegment point p1 p2 <=? threshold) eqn:Hd.
    + split; [intros _ | reflexivity].
      exists 0%nat, p1, p2; auto.
    + rewrite IH; split.
      * intros (i & a & b & Ha & Hb & Hab); exists (S i), a, b; auto.
      * intros (i & a & b & Ha & Hb & Hab); destruct i as [| i].
        -- simpl in Ha, Hb; inversion Ha; inversion Hb; subst; congruence.
        -- exists i, a, b; auto.
Qed.

Lemma nearAnyStroke_existsb (point : Point.t num)
      (strokes : list (BrushStroke.t num)) :
  nearAnyStroke point strokes = existsb (isPointNearStroke point) strokes.
Proof.
  induction strokes as [| s rest IH]; simpl; [reflexivity |].
  destruct (isPointNearStroke point s); simpl; auto.
Qed.

Lemma firstHit_find (point : Point.t num) (l : list (Annotation.t num)) :
  firstHit point l = find (hits point) l.
Proof.
  induction l as [| a rest IH]; simpl; [reflexivity |].
  unfold hits at 1; destruct (Annotation.highlight a) as [r | b].
  - destruct (isPointInRect point r); auto.
  - rewrite nearAnyStroke_existsb.
    destruct (existsb _ _); auto.
Qed.

End HitTesting.

(** ** Searching a list from its end *)

(** The first match of a reversed list is the last match of the list. *)
Lemma find_rev_Some {X : Type} (f : X -> bool) (l : list X) (x : X) :
  find f (rev l) = Some x <->
  exists before after,
    l = before ++ x :: after /\ f x = true /\
    forall y, In y after -> f y = false.
Proof.
  induction l as [| h t IH] using rev_ind.
  - simpl; split; [discriminate |].
    intros (b & a & H & _); destruct b; discriminate.
  - rewrite rev_app_distr; simpl.
    destruct (f h) eqn:Hh.
    + split.
      * intros H; inversion H; subst.
        exists t, []; repeat split; auto. intros y [].
      * intros (b & a & Hl & Hx & Ha).
        destruct a as [| a0 a' _] using rev_ind.
        -- apply app_inj_tail in Hl; destruct Hl; subst; reflexivity.
        -- rewrite app_comm_cons, app_assoc in Hl.
           apply app_inj_tail in Hl; destruct Hl as [_ ->].
           rewrite Ha in Hh; [discriminate |].
           apply in_or_app; right; left; reflexivity.
    + rewrite IH; split.
      * intros (b & a & Hl & Hx & Ha).
        exists b, (a ++ [h]); subst; repeat split; auto.
        -- rewrite <- app_assoc; reflexivity.
        -- intros y Hy; apply in_app_or in Hy.
           destruct Hy as [Hy | [<- | []]]; auto.
      * intros (b & a & Hl & Hx & Ha).
        destruct a as [| a0 a' _] using rev_ind.
        -- apply app_inj_tail in Hl; destruct Hl; subst; congruence.
        -- rewrite app_comm_cons, app_assoc in Hl.
           apply app_inj_tail in Hl; destruct Hl as [-> _].
           exists b, a'; repeat split; auto.
           intros y Hy; apply Ha, in_or_app; left; exact Hy.
Qed.

Lemma find_none_iff {X : Type} (f : X -> bool) (l : list X) :
  find f l = None <-> forall y, In y l -> f y = false.
Proof.
  split; [apply find_none |].
  induction l as [| h t IH]; simpl; [reflexivity |].
  intros H; rewrite (H h) by auto; apply IH; auto.
Qed.

(** Where the last element of [filter f l] satisfying nothing after it
    stands in [l]. *)
Lemma filter_app_cons_inv {X : Type} (f : X -> bool) (l : list X) (x : X)
      (before after : list X) :
  filter f l = before ++ x :: after ->
  exists before' after',
    l = before' ++ x :: after' /\ f x = true /\ filter f after' = after.
Proof.
  revert before; induction l as [| h t IH]; intros before H; simpl in H.
  - destruct before; discriminate.
  - destruct (f h) eqn:Hh.
    + destruct before as [| b0 before]; simpl in H; injection H as Hh0 Ht.
      * subst h; exists [], t; auto.
      * destruct (IH _ Ht) as (b' & a' & -> & Hx & Ha).
        exists (h :: b'), a'; auto.
    + destruct (IH _ H) as (b' & a' & -> & Hx & Ha).
      exists (h :: b'), a'; auto.
Qed.

Section FindAnnotation.
Context {num : Type} {N : JSNumber num}.

Lemma findAnnotationAtPoint_find (annotations : list (Annotation.t num))
      (point : Point.t num) :
  findAnnotationAtPoint annotations point
  = find (hits point) (rev (filter active annotations)).
Proof. unfold findAnnotationAtPoint; apply firstHit_find. Qed.

Lemma findAnnotationAtPoint_Some (annotations : list (Annotation.t num))
      (point : Point.t num) (a : Annotation.t num) :
  findAnnotationAtPoint annotations point = Some a <->
  exists before after,
    annotations = before ++ a :: after /\
    Annotation.completed a = false /\ hits point a = true /\
    forall b, In b after -> Annotation.completed b = false ->
              hits point b = false.
Proof.
  rewrite findAnnotationAtPoint_find, find_rev_Some; split.
  - intros (fb & fa & Hf & Hx & Hafter).
    apply filter_app_cons_inv in Hf as (b' & a' & -> & Hact & Ha').
    exists b', a'; repeat split; auto.
    + unfold active in Hact; destruct (Annotation.completed a); auto; discriminate.
    + intros b Hb Hc; apply Hafter; subst fa.
      apply filter_In; split; auto. unfold active; rewrite Hc; reflexivity.
  - intros (b' & a' & -> & Hc & Hx & Hafter).
    exists (filter active b'), (filter active a'); repeat split; auto.
    + rewrite filter_app; simpl. unfold active at 2; rewrite Hc; reflexivity.
    + intros y Hy; apply filter_In in Hy; destruct Hy as [Hy Hact].
      apply Hafter; auto.
      unfold active in Hact; destruct (Annotation.completed y); auto; discriminate.
Qed.

Lemma findAnnotationAtPoint_None (annotations : list (Annotation.t num))
      (point : Point.t num) :
  findAnnotationAtPoint annotations point = None <->
  forall a, In a annotations -> Annotation.completed a = false ->
            hits point a = false.
Proof.
  rewrite findAnnotationAtPoint_find, find_none_iff; split.
  - intros H a Ha Hc; apply H. rewrite <- in_rev; apply filter_In; split; auto.
    unfold active; rewrite Hc; reflexivity.
  - intros H a Ha. rewrite <- in_rev in Ha; apply filter_In in Ha.
    destruct Ha as [Ha Hact]; apply H; auto.
    unfold active in Hact; destruct (Annotation.completed a); auto; discriminate.
Qed.

(** C1. [findAnnotationAtPoint] searches the non-completed annotations in
    reverse creation order for the first whose highlight passes its test
    (rectangle containment, or nearness to any stroke of a brush highlight):
    it returns [a] exactly when [a] is a non-completed annotation that
    passes and no non-completed annotation created after it does; it
    returns none exactly when no non-completed annotation passes; and of two
    overlapping non-completed highlights that both contain the point it
    returns the more recently created one. *)
Theorem findAnnotationAtPoint_spec (annotations : list (Annotation.t num))
        (point : Point.t num) :
  findAnnotationAtPoint annotations point
  = find (hits point)
         (rev (filter (fun a => negb (Annotation.completed a)) annotations))
  /\ (forall a,
        findAnnotationAtPoint annotations point = Some a <->
        exists before after,
          annotations = before ++ a :: after /\
          Annotation.completed a = false /\ hits point a = true /\
          forall b, In b after -> Annotation.completed b = false ->
                    hits point b = false)
  /\ (findAnnotationAtPoint annotations point = None <->
      forall a, In a annotations -> Annotation.completed a = false ->
                hits point a = false)
  /\ (forall older newer,
        annotations = [older; newer] ->
        Annotation.completed older = false ->
        Annotation.completed newer = false ->
        hits point older = true -> hits point newer = true ->
        findAnnotationAtPoint annotations point = Some newer).
Proof.
  split; [apply findAnnotationAtPoint_find |].
  split; [intros a; apply findAnnotationAtPoint_Some |].
  split; [apply findAnnotationAtPoint_None |].
  intros older newer -> Ho Hn Hho Hhn.
  apply findAnnotationAtPoint_Some.
  exists [older], []; repeat split; auto. intros b [].
Qed.

End FindAnnotation.

(* ================================================================== *)
(** * Hit testing over the reals *)

Section IdealGeometry.
Local Open Scope R_scope.

Lemma sum_squares_zero (u v : R) : u * u + v * v = 0 -> u = 0 /\ v = 0.
Proof. intros H; split; nra. Qed.

(** The code's distance is the projection-and-clamp distance of the
    specification. *)
Lemma distanceToLineSegment_ideal (p a b : Point.t R) :
  distanceToLineSegment (N := Ideal.number) p a b = segmentDistance p a b.
Proof.
  unfold distanceToLineSegment, segmentDistance, euclidean, pointOnSegment,
    clamp, sq.
  destruct p as [px py], a as [ax ay], b as [bx by']; ideal; cbn [Point.x Point.y].
  ideal_cases.
  - apply sum_squares_zero in Heq; destruct Heq as [Hx Hy].
    assert (bx = ax) by lra; assert (by' = ay) by lra; subst bx by'.
    destruct (Point_eq_dec _ _) as [_ | Hne]; [| contradiction Hne; reflexivity].
    f_equal; ring.
  - destruct (Point_eq_dec _ _) as [He | _].
    + inversion He; subst; exfalso; apply Heq; ring.
    + cbn [Point.x Point.y].
      replace ((bx - ax) ^ 2 + (by' - ay) ^ 2)
        with ((bx - ax) * (bx - ax) + (by' - ay) * (by' - ay)) by ring.
      f_equal; ring.
Qed.

Lemma isPointInRect_ideal (p : Point.t R) (r : RectHighlight.t R) :
  isPointInRect (N := Ideal.number) p r = true <->
  RectHighlight.x r <= Point.x p <= RectHighlight.x r + RectHighlight.width r /\
  RectHighlight.y r <= Point.y p <= RectHighlight.y r + RectHighlight.height r.
Proof.
  unfold isPointInRect; ideal.
  rewrite !andb_true_iff, !ideal_leb_true; tauto.
Qed.

(** The projection-and-clamp distance is the least distance from the point
    to a point of the segment, and it is attained. *)
Lemma quad_least (u v dx dy t0 c t : R) :
  0 < dx * dx + dy * dy ->
  t0 * (dx * dx + dy * dy) = u * dx + v * dy ->
  c = clamp 0 1 t0 -> 0 <= t <= 1 ->
  (u - c * dx) ^ 2 + (v - c * dy) ^ 2 <= (u - t * dx) ^ 2 + (v - t * dy) ^ 2.
Proof.
  intros HL Ht0 Hc Ht.
  assert (Hdiff : (u - t * dx) ^ 2 + (v - t * dy) ^ 2
                  - ((u - c * dx) ^ 2 + (v - c * dy) ^ 2)
                  = (t - c) * ((t + c) * (dx * dx + dy * dy)
                               - 2 * (u * dx + v * dy))) by ring.
  rewrite <- Ht0 in Hdiff.
  assert (Hpos : 0 <= (t - c) * (t + c - 2 * t0)).
  { subst c; unfold clamp, Rmax, Rmin.
    destruct (Rle_dec 1 t0); destruct (Rle_dec 0 _); try nra.
    replace ((t - t0) * (t + t0 - 2 * t0)) with (Rsqr (t - t0))
      by (unfold Rsqr; ring).
    apply Rle_0_sqr. }
  assert (Hprod : 0 <= (dx * dx + dy * dy) * ((t - c) * (t + c - 2 * t0)))
    by (apply Rmult_le_pos; lra).
  lra.
Qed.

Lemma segmentDistance_least (p a b : Point.t R) (t : R) :
  0 <= t <= 1 -> segmentDistance p a b <= euclidean p (pointOnSegment a b t).
Proof.
  intros Ht; unfold segmentDistance.
  destruct (Point_eq_dec a b) as [<- | Hne].
  - unfold euclidean, pointOnSegment; cbn [Point.x Point.y].
    apply Req_le; f_equal; ring.
  - unfold euclidean, pointOnSegment; cbn [Point.x Point.y].
    destruct p as [px py], a as [ax ay], b as [bx by']; cbn [Point.x Point.y] in *.
    set (dx := bx - ax); set (dy := by' - ay).
    assert (HL : 0 < dx * dx + dy * dy).
    { destruct (Req_dec dx 0) as [Hx | Hx]; destruct (Req_dec dy 0) as [Hy | Hy];
        try nra.
      exfalso; apply Hne; unfold dx, dy in *; f_equal; lra. }
    apply sqrt_le_1_alt.
    replace (px - (ax + clamp 0 1 (((px - ax) * dx + (py - ay) * dy) / (dx ^ 2 + dy ^ 2)) * dx))
      with ((px - ax) - clamp 0 1 (((px - ax) * dx + (py - ay) * dy) / (dx ^ 2 + dy ^ 2)) * dx) by ring.
    replace (py - (ay + clamp 0 1 (((px - ax) * dx + (py - ay) * dy) / (dx ^ 2 + dy ^ 2)) * dy))
      with ((py - ay) - clamp 0 1 (((px - ax) * dx + (py - ay) * dy) / (dx ^ 2 + dy ^ 2)) * dy) by ring.
    replace (px - (ax + t * dx)) with ((px - ax) - t * dx) by ring.
    replace (py - (ay + t * dy)) with ((py - ay) - t * dy) by ring.
    eapply quad_least; [exact HL | | reflexivity | exact Ht].
    replace (dx ^ 2 + dy ^ 2) with (dx * dx + dy * dy) by ring.
    field; lra.
Qed.

Lemma segmentDistance_attained (p a b : Point.t R) :
  exists t, 0 <= t <= 1 /\ segmentDistance p a b = euclidean p (pointOnSegment a b t).
Proof.
  unfold segmentDistance; destruct (Point_eq_dec a b) as [<- | Hne].
  - exists 0; split; [lra |].
    unfold euclidean, pointOnSegment; cbn [Point.x Point.y]; f_equal; ring.
  - eexists; split; [| reflexivity].
    apply clamp_between; lra.
Qed.

(** C7, amended. On any numbers, binary64 included, [isPointNearStroke]
    holds exactly when some pair of consecutive points of the stroke is
    such that the distance to their segment, as [distanceToLineSegment]
    computes it in those numbers, passes the test against
    [brushSize / 2 + 5] computed likewise. Over the reals the distance
    computed is the projection-and-clamp distance (the Euclidean distance
    to the point when the segment's end points coincide), so that the test
    is the one of exact geometry. A stroke of fewer than two points has no
    segment and is never near. *)
Theorem isPointNearStroke_computed :
  (forall (num : Type) (N : JSNumber num)
          (p : Point.t num) (stroke : BrushStroke.t num),
     isPointNearStroke p stroke = true <->
     exists i a b,
       nth_error (BrushStroke.points stroke) i = Some a /\
       nth_error (BrushStroke.points stroke) (S i) = Some b /\
       (distanceToLineSegment p a b
        <=? BrushStroke.brushSize stroke / #2 + #5)%num = true)
  /\ (forall p a b : Point.t R,
        distanceToLineSegment (N := Ideal.number) p a b = segmentDistance p a b)
  /\ (forall (p : Point.t R) (stroke : BrushStroke.t R),
        isPointNearStroke (N := Ideal.number) p stroke = true <->
        exists i a b,
          nth_error (BrushStroke.points stroke) i = Some a /\
          nth_error (BrushStroke.points stroke) (S i) = Some b /\
          segmentDistance p a b <= BrushStroke.brushSize stroke / 2 + 5).
Proof.
  split; [| split].
  - intros num N p stroke; unfold isPointNearStroke; apply nearSegments_iff.
  - exact distanceToLineSegment_ideal.
  - intros p stroke; unfold isPointNearStroke; rewrite nearSegments_iff.
    split; intros (i & a & b & Ha & Hb & Hd); exists i, a, b;
      repeat split; auto.
    + rewrite <- distanceToLineSegment_ideal.
      revert Hd; ideal; intros Hd; apply ideal_leb_true in Hd; exact Hd.
    + rewrite <- distanceToLineSegment_ideal in Hd.
      ideal; apply ideal_leb_true; exact Hd.
Qed.

(** C7 as stated fails on binary64 numbers: the point (20, 9) is at
    distance exactly 15 from the segment from (0, 0) to (10, 24), which is
    the threshold of a stroke 20 px wide, and [isPointNearStroke] is
    false there; the distance computed exceeds 15 by rounding. *)
Lemma isPointNearStroke_at_threshold :
  let f := Binary64.of_Z in
  let stroke :=
    BrushStroke.mk [Point.mk (f 0%Z) (f 0%Z); Point.mk (f 10%Z) (f 24%Z)]
                   (f 20%Z) in
  isPointNearStroke (N := Binary64.number) (Point.mk (f 20%Z) (f 9%Z)) stroke
  = false
  /\ PrimFloat.ltb (f 15%Z)
       (distanceToLineSegment (N := Binary64.number)
          (Point.mk (f 20%Z) (f 9%Z))
          (Point.mk (f 0%Z) (f 0%Z)) (Point.mk (f 10%Z) (f 24%Z))) = true
  /\ PrimFloat.add (PrimFloat.div (f 20%Z) (f 2%Z)) (f 5%Z) = f 15%Z
  /\ nth_error [Point.mk 0 0; Point.mk 10 24] 0 = Some (Point.mk 0 0)
  /\ nth_error [Point.mk 0 0; Point.mk 10 24] 1 = Some (Point.mk 10 24)
  /\ segmentDistance (Point.mk 20 9) (Point.mk 0 0) (Point.mk 10 24) = 15
  /\ 15 <= 20 / 2 + 5.
Proof.
  cbv zeta; split; [vm_compute; reflexivity |].
  split; [vm_compute; reflexivity |].
  split; [vm_compute; reflexivity |].
  split; [reflexivity |]; split; [reflexivity |]; split; [| lra].
  unfold segmentDistance.
  destruct (Point_eq_dec _ _) as [He | _]; [inversion He; lra |].
  cbn [Point.x Point.y].
  replace (((20 - 0) * (10 - 0) + (9 - 0) * (24 - 0))
           / ((10 - 0) ^ 2 + (24 - 0) ^ 2)) with (8 / 13) by (field; lra).
  assert (Hc : clamp 0 1 (8 / 13) = 8 / 13).
  { unfold clamp, Rmax, Rmin.
    destruct (Rle_dec 1 (8 / 13)); [lra |].
    destruct (Rle_dec 0 (8 / 13)); lra. }
  rewrite Hc; unfold euclidean, pointOnSegment; cbn [Point.x Point.y].
  replace ((20 - (0 + 8 / 13 * (10 - 0))) ^ 2
           + (9 - (0 + 8 / 13 * (24 - 0))) ^ 2)
    with (15 * 15) by field.
  apply sqrt_square; lra.
Qed.

End IdealGeometry.

(* ================================================================== *)
(** * The annotation store *)

Section StoreProperties.
Context {num : Type} {N : JSNumber num}.

Lemma markComplete_length (id : string) (l : list (Annotation.t num)) :
  List.length (markComplete id l) = List.length l.
Proof. apply length_map. Qed.

Lemma markComplete_idempotent (id : string) (l : list (Annotation.t num)) :
  markComplete id (markComplete id l) = markComplete id l.
Proof.
  unfold markComplete; rewrite map_map; apply map_ext; intros a.
  destruct (String.eqb (Annotation.id a) id) eqn:Ha; simpl; rewrite Ha;
    reflexivity.
Qed.

Lemma markComplete_absent (id : string) (l : list (Annotation.t num)) :
  (forall a, In a l -> Annotation.id a <> id) -> markComplete id l = l.
Proof.
  intros H; unfold markComplete.
  rewrite <- (map_id l) at 2; apply map_ext_in; intros a Ha.
  destruct (String.eqb_spec (Annotation.id a) id) as [He | _]; [| reflexivity].
  exfalso; exact (H a Ha He).
Qed.

(** C8. [markComplete id] keeps the length and the order of the list; at
    every position the annotation keeps its id, text, highlight, colour,
    timestamp and replies; it is completed afterwards when its id is [id] and
    is the very same annotation otherwise; marking twice is marking once; and
    a list with no annotation of that id is returned as it is. *)
Theorem markComplete_frame (id : string) (l : list (Annotation.t num)) :
  List.length (markComplete id l) = List.length l
  /\ (forall i a,
        nth_error l i = Some a ->
        exists a',
          nth_error (markComplete id l) i = Some a' /\
          Annotation.id a' = Annotation.id a /\
          Annotation.text a' = Annotation.text a /\
          Annotation.highlight a' = Annotation.highlight a /\
          Annotation.color a' = Annotation.color a /\
          Annotation.timestamp a' = Annotation.timestamp a /\
          Annotation.replies a' = Annotation.replies a /\
          (Annotation.id a = id -> Annotation.completed a' = true) /\
          (Annotation.id a <> id -> a' = a))
  /\ markComplete id (markComplete id l) = markComplete id l
  /\ ((forall a, In a l -> Annotation.id a <> id) -> markComplete id l = l).
Proof.
  split; [apply markComplete_length |].
  split; [| split; [apply markComplete_idempotent | apply markComplete_absent]].
  intros i a Ha; unfold markComplete.
  rewrite nth_error_map, Ha; simpl.
  destruct (String.eqb_spec (Annotation.id a) id) as [He | Hne].
  - eexists; split; [reflexivity |]; simpl.
    repeat split; auto; intros Hn; contradiction.
  - exists a; repeat split; auto; intros He; contradiction.
Qed.

End StoreProperties.

(* ================================================================== *)
(** * Viewport transform over the reals *)

Section IdealViewport.
Local Open Scope R_scope.

(** The pan bounds are symmetric about the origin. *)
Lemma getBounds_symmetric (dom : option (Layout.t R)) (scale : R) :
  let b := getBounds (N := Ideal.number) dom scale in
  Bounds.minX b = - Bounds.maxX b /\ 0 <= Bounds.maxX b /\
  Bounds.minY b = - Bounds.maxY b /\ 0 <= Bounds.maxY b.
Proof.
  unfold getBounds; destruct dom as [d |]; ideal; cbn [Bounds.minX Bounds.maxX
    Bounds.minY Bounds.maxY].
  - repeat split; try reflexivity; apply Rmax_l.
  - repeat split; lra.
Qed.

(** C3. The settle step equals the specification's: the scale is the input
    scale clamped to [1, 3]; at settled scale 1 the pan is (0, 0) whatever
    it was; otherwise the pan is the input pan clamped into the bounds
    recomputed at the settled scale. *)
Theorem settle_spec (dom : option (Layout.t R)) (t : Transform.t R) :
  let t' := settle (N := Ideal.number) dom t in
  let bounds := getBounds (N := Ideal.number) dom (Transform.scale t') in
  t' = settleSpec dom t
  /\ Transform.scale t' = clamp 1 3 (Transform.scale t)
  /\ 1 <= Transform.scale t' <= 3
  /\ (Transform.scale t' = 1 -> Transform.x t' = 0 /\ Transform.y t' = 0)
  /\ (Transform.scale t' <> 1 ->
      Transform.x t'
      = clamp (Bounds.minX bounds) (Bounds.maxX bounds) (Transform.x t) /\
      Transform.y t'
      = clamp (Bounds.minY bounds) (Bounds.maxY bounds) (Transform.y t) /\
      Bounds.minX bounds <= Transform.x t' <= Bounds.maxX bounds /\
      Bounds.minY bounds <= Transform.y t' <= Bounds.maxY bounds).
Proof.
  assert (Hscale : forall s : R,
             (if Ideal.ltb 3 (if Ideal.ltb s 1 then 1 else s) then 3
              else if Ideal.ltb s 1 then 1 else s) = clamp 1 3 s).
  { intros s; unfold clamp, Rmax, Rmin.
    destruct (Rle_dec 3 s); destruct (Rle_dec 1 _); ideal_cases; lra. }
  assert (Hpan : forall lo hi v : R, lo <= hi ->
             (if Ideal.ltb hi (if Ideal.ltb v lo then lo else v) then hi
              else if Ideal.ltb v lo then lo else v) = clamp lo hi v).
  { intros lo hi v Hle; unfold clamp, Rmax, Rmin.
    destruct (Rle_dec hi v); destruct (Rle_dec lo _); ideal_cases; lra. }
  assert (Heq : settle (N := Ideal.number) dom t = settleSpec dom t).
  { unfold settle, settleSpec; ideal.
    rewrite Hscale.
    set (s := clamp 1 3 (Transform.scale t)).
    destruct (getBounds_symmetric dom s) as (Hx & Hx0 & Hy & Hy0).
    unfold Ideal.eqb; destruct (Req_dec_T s 1); [reflexivity |].
    rewrite !Hpan by lra; reflexivity. }
  intros t' bounds; subst t' bounds; rewrite Heq.
  split; [reflexivity |].
  unfold settleSpec.
  set (s := clamp 1 3 (Transform.scale t)).
  destruct (getBounds_symmetric dom s) as (Hx & Hx0 & Hy & Hy0).
  assert (Hs : 1 <= s <= 3) by (apply clamp_between; lra).
  destruct (Req_dec_T s 1) as [Hs1 | Hs1]; cbn [Transform.scale Transform.x Transform.y].
  - repeat split; try lra; intros Hne; contradiction.
  - repeat split; try lra; try (intros; contradiction);
      apply clamp_between; lra.
Qed.

(** At an overshoot of exactly 200 the resistance factor is 0. *)
Ltac elastic_zero :=
  match goal with
  | |- context [Rmax 0 ?z] =>
      replace z with 0 by lra; rewrite Rmax_left by lra; lra
  end.

(** C4. One pan step, axis by axis: beyond a bound and pushed further
    outward, the applied delta is the raw delta times
    [max(0, 1 - overshoot / 200)], which is nothing at an overshoot of
    exactly 200; within the bounds, or moving back toward them, the raw
    delta is applied as it is. The scale is untouched. *)
Theorem wheelPan_elastic (dom : option (Layout.t R)) (e : WheelEvent.t R)
        (t : Transform.t R) :
  let t' := wheelPan (N := Ideal.number) dom e t in
  let bounds := getBounds (N := Ideal.number) dom (Transform.scale t) in
  elasticStep (Bounds.minX bounds) (Bounds.maxX bounds)
              (Transform.x t) (- WheelEvent.deltaX e) (Transform.x t')
  /\ elasticStep (Bounds.minY bounds) (Bounds.maxY bounds)
                 (Transform.y t) (- WheelEvent.deltaY e) (Transform.y t')
  /\ Transform.scale t' = Transform.scale t.
Proof.
  intros t' bounds; subst t' bounds.
  unfold wheelPan, MAX_OVERSHOOT.
  pose proof (getBounds_symmetric dom (Transform.scale t)) as Hb; cbv zeta in Hb.
  revert Hb; generalize (getBounds (N := Ideal.number) dom (Transform.scale t)).
  intros [minX maxX minY maxY] (Hx & Hx0 & Hy & Hy0).
  ideal; cbn [Transform.x Transform.y Transform.scale
              Bounds.minX Bounds.maxX Bounds.minY Bounds.maxY] in *.
  split; [| split; [| reflexivity]]; unfold elasticStep.
  - ideal_cases; repeat split; intros; try lra; subst; elastic_zero.
  - ideal_cases; repeat split; intros; try lra; subst; elastic_zero.
Qed.

End IdealViewport.

(* ================================================================== *)
(** * The end of a gesture *)

Section GestureEnd.
Context {num : Type} {N : JSNumber num}.
Local Open Scope num_scope.

(** The one fact about the numbers the handler's test relies on. *)
Hypothesis le_not_lt : forall a b : num, (a <=? b) = true -> (b <? a) = false.

Lemma handleWindowMouseUp_dragCleared (container : option (DOMRect.t num))
      (e : MouseEvent.t num) (s : Editor.t num) :
  dragCleared (handleWindowMouseUp container e s).
Proof.
  unfold handleWindowMouseUp, dragCleared.
  destruct (match Editor.activeTool s with Tool.select => _ | Tool.brush => _ end)
    as [[[ph ps] si] ip]; cbn; auto.
Qed.

Lemma degenerateGesture_discarded (container : option (DOMRect.t num))
      (e : MouseEvent.t num) (s : Editor.t num) :
  degenerateGesture s -> discarded s (handleWindowMouseUp container e s).
Proof.
  intros Hdeg; set (s' := handleWindowMouseUp container e s).
  assert (Hns : nothingStaged s s').
  { subst s'; unfold handleWindowMouseUp, nothingStaged.
    destruct Hdeg as [(Htool & ds & de & Hds & Hde & Hsmall) | (Htool & Hlen)].
    - rewrite Htool, Hds, Hde.
      assert (Hcond : (nabs (Point.x de - Point.x ds) >? #10)
                      && (nabs (Point.y de - Point.y ds) >? #10) = false).
      { apply andb_false_iff; destruct Hsmall as [Hw | Hh];
          [left | right]; apply le_not_lt; assumption. }
      rewrite Hcond; cbn; repeat split; reflexivity.
    - rewrite Htool.
      assert (Hcond : (2 <? List.length (Editor.brushPoints s))%nat = false)
        by (apply Nat.ltb_ge; exact Hlen).
      destruct (Editor.dragStart s), (Editor.dragEnd s);
        cbn [Tool.eqb andb]; rewrite Hcond; cbn; repeat split; reflexivity. }
  assert (Hst : stagedHighlight s' = stagedHighlight s).
  { destruct Hns as (Hph & Hps & _ & _ & Hpc & Hbo & _).
    unfold stagedHighlight; rewrite Hph, Hps, Hpc, Hbo; reflexivity. }
  split; [exact Hns |]; split; [exact Hst |];
    split; [apply handleWindowMouseUp_dragCleared |].
  intros Hnone id now; unfold handleSaveAnnotation.
  rewrite Hst, Hnone; apply Hns.
Qed.

End GestureEnd.

Section IdealGestures.
Local Open Scope R_scope.

(** The release handler on a state that is degenerate (a rectangle drag of
    at most 10 px in width or in height, a brush gesture of at most two
    points) stages nothing: the pending highlight, the pending strokes and
    the input are as before, no annotation is added, and a save right after
    commits nothing unless something was staged before. The handler returns
    a state (it raises nothing) whose drag state is cleared. The state is
    the one the handler's closure holds, that of the last render. *)
Theorem degenerate_gesture_discarded (container : option (DOMRect.t R))
        (e : MouseEvent.t R) (s : Editor.t R) :
  degenerate s ->
  let s' := handleWindowMouseUp (N := Ideal.number) container e s in
  nothingStaged s s'
  /\ stagedHighlight s' = stagedHighlight s
  /\ dragCleared s'
  /\ (stagedHighlight s = None ->
      forall id now,
        Editor.annotations (handleSaveAnnotation id now s')
        = Editor.annotations s).
Proof.
  intros Hdeg s'; subst s'.
  apply (degenerateGesture_discarded (N := Ideal.number)).
  - intros a b Hle; ideal.
    apply ideal_ltb_false; apply ideal_leb_true in Hle; exact Hle.
  - destruct Hdeg as [(Htool & ds & de & Hds & Hde & Hsmall) | Hbrush];
      [left | right; exact Hbrush].
    split; [exact Htool |]; exists ds, de; repeat split; auto.
    ideal; destruct Hsmall as [H | H]; [left | right];
      apply ideal_leb_true; exact H.
Qed.

End IdealGestures.

(* ================================================================== *)
(** * Coordinates kept by the handlers *)

Section CoordinateInvariant.
Context {num : Type} {N : JSNumber num}.
Variable pointOk : Point.t num -> Prop.
Variable rectOk : RectHighlight.t num -> Prop.
Local Open Scope num_scope.

(** The rectangle a drag stages is good when its two ends are. *)
Hypothesis dragged_rect_ok :
  forall (dragStart dragEnd : Point.t num) (color : string),
    pointOk dragStart -> pointOk dragEnd ->
    rectOk (RectHighlight.mk
              (nmin (Point.x dragStart) (Point.x dragEnd))
              (nmin (Point.y dragStart) (Point.y dragEnd))
              (nabs (Point.x dragEnd - Point.x dragStart))
              (nabs (Point.y dragEnd - Point.y dragStart)) color).

Local Abbreviation ok := (editorOk pointOk rectOk).

Ltac setter_ok :=
  unfold editorOk in *; scheduled_setters;
  repeat match goal with
         | H : _ /\ _ |- _ => destruct H
         end;
  repeat split; assumption.

Lemma setIsDrawing_ok (isDrawing : bool) (s : Editor.t num) :
  ok s -> ok (Scheduled.setIsDrawing isDrawing s).
Proof. intros Hs; setter_ok. Qed.

Lemma setDragStart_ok (dragStart : option (Point.t num)) (s : Editor.t num) :
  whenSome pointOk dragStart -> ok s -> ok (Scheduled.setDragStart dragStart s).
Proof. intros Hv Hs; setter_ok. Qed.

Lemma setDragEnd_ok (dragEnd : option (Point.t num)) (s : Editor.t num) :
  whenSome pointOk dragEnd -> ok s -> ok (Scheduled.setDragEnd dragEnd s).
Proof. intros Hv Hs; setter_ok. Qed.

Lemma setBrushPoints_ok (update : list (Point.t num) -> list (Point.t num))
      (s : Editor.t num) :
  Forall pointOk (update (Editor.brushPoints s)) ->
  ok s -> ok (Scheduled.setBrushPoints update s).
Proof. intros Hv Hs; setter_ok. Qed.

Lemma setPendingStrokes_ok
      (update : list (BrushStroke.t num) -> list (BrushStroke.t num))
      (s : Editor.t num) :
  Forall (strokeOk pointOk) (update (Editor.pendingStrokes s)) ->
  ok s -> ok (Scheduled.setPendingStrokes update s).
Proof. intros Hv Hs; setter_ok. Qed.

Lemma setShowInput_ok (showInput : bool) (s : Editor.t num) :
  ok s -> ok (Scheduled.setShowInput showInput s).
Proof. intros Hs; setter_ok. Qed.

Lemma setPendingHighlight_ok (pendingHighlight : option (Highlight num))
      (s : Editor.t num) :
  whenSome (highlightOk pointOk rectOk) pendingHighlight ->
  ok s -> ok (Scheduled.setPendingHighlight pendingHighlight s).
Proof. intros Hv Hs; setter_ok. Qed.

Lemma setPendingColor_ok (pendingColor : option string) (s : Editor.t num) :
  ok s -> ok (Scheduled.setPendingColor pendingColor s).
Proof. intros Hs; setter_ok. Qed.

Lemma setInputPosition_ok (inputPosition : option (Point.t num))
      (s : Editor.t num) :
  ok s -> ok (setInputPosition inputPosition s).
Proof. intros Hs; setter_ok. Qed.

Lemma setSelectedId_ok (selectedId : option string) (s : Editor.t num) :
  ok s -> ok (Scheduled.setSelectedId selectedId s).
Proof. intros Hs; setter_ok. Qed.

Lemma setAnnotations_ok
      (update : list (Annotation.t num) -> list (Annotation.t num))
      (s : Editor.t num) :
  Forall (fun a => highlightOk pointOk rectOk (Annotation.highlight a))
         (update (Editor.annotations s)) ->
  ok s -> ok (Scheduled.setAnnotations update s).
Proof. intros Hv Hs; setter_ok. Qed.

Lemma clearInput_ok (annotations : list (Annotation.t num)) (s : Editor.t num) :
  Forall (fun a => highlightOk pointOk rectOk (Annotation.highlight a))
         annotations ->
  ok s -> ok (clearInput annotations s).
Proof.
  intros Hnew (Ha & Hds & Hde & Hbp & Hps & Hph).
  unfold clearInput, editorOk; editor_fields.
  repeat split; auto; exact I.
Qed.

Lemma stagedHighlight_ok (s : Editor.t num) (h : Highlight num) :
  ok s -> stagedHighlight s = Some h -> highlightOk pointOk rectOk h.
Proof.
  intros (Ha & Hds & Hde & Hbp & Hps & Hph); unfold stagedHighlight.
  destruct (Editor.pendingColor s) as [c |].
  - destruct ((0 <? List.length (Editor.pendingStrokes s))%nat && truthy (Some c)).
    + intros H; injection H as <-; exact Hps.
    + intros H; rewrite H in Hph; exact Hph.
  - intros H; rewrite H in Hph; exact Hph.
Qed.

Lemma markComplete_ok (id : string) (l : list (Annotation.t num)) :
  Forall (fun a => highlightOk pointOk rectOk (Annotation.highlight a)) l ->
  Forall (fun a => highlightOk pointOk rectOk (Annotation.highlight a))
         (markComplete id l).
Proof.
  intros H; unfold markComplete; apply Forall_map.
  eapply Forall_impl; [| exact H]; intros a Ha.
  destruct (String.eqb (Annotation.id a) id); exact Ha.
Qed.

Lemma addReply_ok (id : string) (r : Reply.t num) (l : list (Annotation.t num)) :
  Forall (fun a => highlightOk pointOk rectOk (Annotation.highlight a)) l ->
  Forall (fun a => highlightOk pointOk rectOk (Annotation.highlight a))
         (addReply id r l).
Proof.
  intros H; unfold addReply; apply Forall_map.
  eapply Forall_impl; [| exact H]; intros a Ha.
  destruct (String.eqb (Annotation.id a) id); exact Ha.
Qed.

(** The handlers keep the coordinates of the scheduled state, whatever
    render their closure is of. *)
Lemma scheduled_handleMouseDown_ok (canvas : Canvas.t num)
      (e : MouseEvent.t num) (closure next : Editor.t num) :
  pointOk (getCanvasPos canvas e) -> ok next ->
  ok (Scheduled.handleMouseDown canvas e closure next).
Proof.
  intros Hpos Hn; unfold Scheduled.handleMouseDown.
  destruct (Editor.showInput closure && _); [exact Hn |].
  match goal with
  | |- context [match ?c with Some _ => _ | None => _ end] =>
      destruct c as [ann |]
  end; [apply setSelectedId_ok; exact Hn |].
  cbv zeta.
  assert (H1 : ok (Scheduled.setSelectedId None
                     (Scheduled.setIsDrawing true next)))
    by (apply setSelectedId_ok, setIsDrawing_ok; exact Hn).
  destruct (Editor.activeTool closure).
  - apply setDragEnd_ok; [exact Hpos |].
    apply setDragStart_ok; [exact Hpos | exact H1].
  - assert (H2 : ok (Scheduled.setBrushPoints
                       (fun _ => [getCanvasPos canvas e])
                       (Scheduled.setSelectedId None
                          (Scheduled.setIsDrawing true next)))).
    { apply setBrushPoints_ok; [| exact H1].
      apply Forall_cons; [exact Hpos | apply Forall_nil]. }
    destruct (List.length (Editor.pendingStrokes closure) =? 0)%nat;
      [| exact H2].
    apply setPendingColor_ok; exact H2.
Qed.

Lemma scheduled_handleWindowMouseMove_ok (canvas : Canvas.t num)
      (e : MouseEvent.t num) (closure next : Editor.t num) :
  pointOk (windowMousePos canvas e) -> ok next ->
  ok (Scheduled.handleWindowMouseMove canvas e closure next).
Proof.
  intros Hpos Hn; unfold Scheduled.handleWindowMouseMove; cbv zeta.
  destruct (Editor.activeTool closure);
    [destruct (Editor.dragStart closure); [| exact Hn] |].
  - apply setDragEnd_ok; [exact Hpos | exact Hn].
  - apply setBrushPoints_ok; [| exact Hn].
    apply Forall_app; split; [apply Hn |].
    apply Forall_cons; [exact Hpos | apply Forall_nil].
Qed.

Lemma drag_cleared_ok (s : Editor.t num) :
  ok s ->
  ok (Scheduled.setBrushPoints (fun _ => [])
        (Scheduled.setDragEnd None (Scheduled.setDragStart None s))).
Proof.
  intros Hs.
  apply setBrushPoints_ok; [apply Forall_nil |].
  apply setDragEnd_ok; [exact I |].
  apply setDragStart_ok; [exact I | exact Hs].
Qed.

Lemma scheduled_handleWindowMouseUp_ok (container : option (DOMRect.t num))
      (e : MouseEvent.t num) (closure next : Editor.t num) :
  ok closure -> ok next ->
  ok (Scheduled.handleWindowMouseUp container e closure next).
Proof.
  intros (_ & Hds & Hde & Hbp & _ & _) Hn.
  assert (H0 : ok (Scheduled.setIsDrawing false next))
    by (apply setIsDrawing_ok; exact Hn).
  unfold Scheduled.handleWindowMouseUp; cbv zeta.
  apply drag_cleared_ok.
  assert (Hbrush :
    forall position,
    ok (if Tool.eqb (Editor.activeTool closure) Tool.brush
           && (2 <? List.length (Editor.brushPoints closure))%nat
        then
          if negb (Editor.showInput closure)
          then setInputPosition position
                 (Scheduled.setShowInput true
                    (Scheduled.setPendingStrokes
                       (fun prev =>
                          prev ++ [BrushStroke.mk (Editor.brushPoints closure)
                                                  (Editor.brushSize closure)])
                       (Scheduled.setIsDrawing false next)))
          else Scheduled.setPendingStrokes
                 (fun prev =>
                    prev ++ [BrushStroke.mk (Editor.brushPoints closure)
                                            (Editor.brushSize closure)])
                 (Scheduled.setIsDrawing false next)
        else Scheduled.setIsDrawing false next)).
  { intros position; destruct (Tool.eqb _ _ && _); [| exact H0].
    assert (H1 : ok (Scheduled.setPendingStrokes
                       (fun prev =>
                          prev ++ [BrushStroke.mk (Editor.brushPoints closure)
                                                  (Editor.brushSize closure)])
                       (Scheduled.setIsDrawing false next))).
    { apply setPendingStrokes_ok; [| exact H0].
      apply Forall_app; split; [apply H0 |].
      apply Forall_cons; [exact Hbp | apply Forall_nil]. }
    destruct (negb (Editor.showInput closure)); [| exact H1].
    apply setInputPosition_ok, setShowInput_ok; exact H1. }
  destruct (Editor.activeTool closure) eqn:Htool;
    [destruct (Editor.dragStart closure) as [ds |] eqn:Hs;
     [destruct (Editor.dragEnd closure) as [de |] eqn:He |] |];
    try apply Hbrush.
  destruct ((_ >? #10) && (_ >? #10)); [| exact H0].
  apply setInputPosition_ok, setShowInput_ok, setPendingHighlight_ok;
    [| exact H0].
  cbn [whenSome highlightOk]; apply dragged_rect_ok; assumption.
Qed.

Lemma scheduled_handleSaveAnnotation_ok (id : string) (now : num)
      (closure next : Editor.t num) :
  ok closure -> ok next ->
  ok (Scheduled.handleSaveAnnotation id now closure next).
Proof.
  intros Hc Hn; unfold Scheduled.handleSaveAnnotation.
  destruct (stagedHighlight closure) as [h |] eqn:Hh; [| exact Hn].
  apply clearInput_ok; [| exact Hn].
  apply Forall_app; split; [apply Hn |].
  apply Forall_cons; [| apply Forall_nil].
  cbn [Annotation.highlight]; exact (stagedHighlight_ok closure h Hc Hh).
Qed.

Lemma scheduled_dispatch_ok (width height : num) (closure next : Editor.t num)
      (ev : Event) :
  eventOk pointOk width height ev -> ok closure -> ok next ->
  ok (Scheduled.dispatch width height closure next ev).
Proof.
  intros Hev Hc Hn; destruct ev; cbn [Scheduled.dispatch eventOk] in *.
  - apply scheduled_handleMouseDown_ok; assumption.
  - destruct (Editor.isDrawing closure); [| exact Hn].
    apply scheduled_handleWindowMouseMove_ok; assumption.
  - destruct (Editor.isDrawing closure); [| exact Hn].
    apply scheduled_handleWindowMouseUp_ok; assumption.
  - apply scheduled_handleSaveAnnotation_ok; assumption.
  - apply clearInput_ok; [apply Hn | exact Hn].
  - exact Hn.
  - exact Hn.
  - exact Hn.
  - exact Hn.
  - unfold Scheduled.handleMarkComplete; cbv zeta.
    assert (H1 : ok (Scheduled.setAnnotations (markComplete id) next))
      by (apply setAnnotations_ok; [apply markComplete_ok; apply Hn | exact Hn]).
    destruct (Editor.selectedAnnotationId closure) as [selectedId |];
      [| exact H1].
    destruct (String.eqb selectedId id); [| exact H1].
    apply setSelectedId_ok; exact H1.
  - apply setAnnotations_ok; [apply addReply_ok; apply Hn | exact Hn].
  - apply (setAnnotations_ok (fun _ => [])); [apply Forall_nil | exact Hn].
Qed.

Lemma scheduled_run_ok (width height : num) (turns : list (Scheduled.Turn num))
      (st : Scheduled.t num) :
  Forall (turnOk pointOk width height) turns ->
  ok (Scheduled.rendered st) -> ok (Scheduled.scheduled st) ->
  ok (Scheduled.rendered (Scheduled.run width height st turns))
  /\ ok (Scheduled.scheduled (Scheduled.run width height st turns)).
Proof.
  revert st; induction turns as [| turn turns IH]; intros st Hturns Hr Hs;
    [split; assumption |].
  inversion Hturns as [| ? ? Hturn Hrest]; subst.
  unfold Scheduled.run; cbn [fold_left]; apply IH; [exact Hrest | |];
    destruct turn as [ev |];
    cbn [Scheduled.step Scheduled.rendered Scheduled.scheduled];
    try assumption.
  apply scheduled_dispatch_ok; assumption.
Qed.

Lemma initialEditor_ok : ok initialEditor.
Proof.
  unfold editorOk, initialEditor; editor_fields.
  repeat split; auto; exact I.
Qed.

End CoordinateInvariant.

(* ================================================================== *)
(** * Committed coordinates lie within the bitmap *)

Section IdealBitmap.
Local Open Scope R_scope.
Variables width height : R.
Hypothesis width_nonneg : 0 <= width.
Hypothesis height_nonneg : 0 <= height.

Lemma scaled_in_range (d w size : R) :
  0 < w -> 0 <= d <= w -> 0 <= size -> 0 <= d * (size / w) <= size.
Proof.
  intros Hw Hd Hs; unfold Rdiv.
  assert (Hk : 0 < / w) by (apply Rinv_0_lt_compat; exact Hw).
  assert (Hkw : / w * w = 1) by (apply Rinv_l; lra).
  set (k := / w) in *.
  assert (H1 : 0 <= d * k) by nra.
  assert (H2 : d * k <= 1) by nra.
  split; nra.
Qed.

Lemma getCanvasPos_inBitmap (canvasRect : DOMRect.t R) (e : MouseEvent.t R) :
  onCanvas canvasRect e ->
  inBitmap width height
    (getCanvasPos (N := Ideal.number) (Canvas.mk width height canvasRect) e).
Proof.
  intros (Hw & Hh & Hx & Hy).
  unfold getCanvasPos, inBitmap; ideal; cbn [Canvas.rect Canvas.width
    Canvas.height Point.x Point.y].
  split; apply scaled_in_range; auto; lra.
Qed.

Lemma windowMousePos_inBitmap (canvasRect : DOMRect.t R) (e : MouseEvent.t R) :
  inBitmap width height
    (windowMousePos (N := Ideal.number) (Canvas.mk width height canvasRect) e).
Proof.
  unfold windowMousePos, inBitmap; ideal; cbn [Canvas.rect Canvas.width
    Canvas.height Point.x Point.y].
  split; apply (clamp_between 0 _ _); assumption.
Qed.

Lemma rect_corners (a b : R) : Rmin a b + Rabs (b - a) = Rmax a b.
Proof.
  unfold Rmin, Rmax, Rabs.
  destruct (Rle_dec a b); destruct (Rcase_abs (b - a)); lra.
Qed.

Lemma dragged_rect_inBitmap (dragStart dragEnd : Point.t R) (color : string) :
  inBitmap width height dragStart -> inBitmap width height dragEnd ->
  cornersInBitmap width height
    (RectHighlight.mk
       (Rmin (Point.x dragStart) (Point.x dragEnd))
       (Rmin (Point.y dragStart) (Point.y dragEnd))
       (Rabs (Point.x dragEnd - Point.x dragStart))
       (Rabs (Point.y dragEnd - Point.y dragStart)) color).
Proof.
  intros [Hsx Hsy] [Hex Hey]; unfold cornersInBitmap, inBitmap;
    cbn [RectHighlight.x RectHighlight.y RectHighlight.width
         RectHighlight.height Point.x Point.y].
  rewrite !rect_corners.
  repeat split;
    try (apply Rmin_glb; lra); try (apply Rmax_lub; lra);
    try (eapply Rle_trans; [apply Rmin_l | lra]);
    try (eapply Rle_trans; [| apply Rmax_l]; lra).
Qed.

Lemma startsInBitmap_eventOk (ev : Event) :
  startsInBitmap width height ev ->
  eventOk (N := Ideal.number) (inBitmap width height) width height ev.
Proof.
  destruct ev; cbn [startsInBitmap eventOk]; auto.
  intros _; apply windowMousePos_inBitmap.
Qed.

(** The coordinates of the state rendered and of the state scheduled stay
    within the bitmap, whatever the order of events and renders. *)
Lemma scheduled_run_inBitmap (turns : list (Scheduled.Turn R))
      (st : Scheduled.t R) :
  Forall (turnStartsInBitmap width height) turns ->
  editorInBitmap width height (Scheduled.rendered st) ->
  editorInBitmap width height (Scheduled.scheduled st) ->
  editorInBitmap width height
    (Scheduled.rendered
       (Scheduled.run (N := Ideal.number) width height st turns))
  /\ editorInBitmap width height
       (Scheduled.scheduled
          (Scheduled.run (N := Ideal.number) width height st turns)).
Proof.
  intros Hturns; unfold editorInBitmap.
  apply (scheduled_run_ok (N := Ideal.number)).
  - intros dragStart dragEnd color; apply dragged_rect_inBitmap.
  - eapply Forall_impl; [| exact Hturns].
    intros [ev |]; cbn [turnStartsInBitmap turnOk]; [| auto].
    apply startsInBitmap_eventOk.
Qed.

Lemma initialEditor_inBitmap :
  editorInBitmap width height (initialEditor (N := Ideal.number)).
Proof. apply initialEditor_ok. Qed.

End IdealBitmap.


(* ================================================================== *)
(** * Comparisons of binary64 numbers *)

Section Binary64Order.

Lemma SFcompare_swap (x y : spec_float) :
  SFcompare y x = option_map CompOpp (SFcompare x y).
Proof.
  destruct x as [sx | sx | | sx mx ex], y as [sy | sy | | sy my ey];
    try destruct sx; try destruct sy; try reflexivity; cbn;
    rewrite (Z.compare_antisym ex ey);
    destruct (ex ?= ey)%Z; cbn; try reflexivity;
    pose proof (Pos.compare_cont_antisym mx my Eq) as H; cbn in H;
    rewrite <- H; reflexivity.
Qed.

Lemma SFcompare_refl (x : spec_float) :
  x <> S754_nan -> SFcompare x x = Some Eq.
Proof.
  destruct x as [s | s | | s m e]; try destruct s; intros H; try reflexivity;
    try (contradiction H; reflexivity); cbn;
    rewrite Z.compare_refl, Pos.compare_cont_refl; reflexivity.
Qed.

Lemma SFcompare_total (x y : spec_float) :
  x <> S754_nan -> y <> S754_nan -> exists c, SFcompare x y = Some c.
Proof.
  destruct x as [sx | sx | | sx mx ex], y as [sy | sy | | sy my ey];
    intros Hx Hy; try (contradiction Hx; reflexivity);
    try (contradiction Hy; reflexivity); cbn; eexists; reflexivity.
Qed.

Lemma SFltb_trans (x y z : spec_float) :
  SFltb x y = true -> SFltb y z = true -> SFltb x z = true.
Proof.
  unfold SFltb.
  destruct x as [sx | sx | | sx mx ex], y as [sy | sy | | sy my ey],
           z as [sz | sz | | sz mz ez];
    try destruct sx; try destruct sy; try destruct sz; cbn;
    try reflexivity; try discriminate;
    change (PosDef.Pos.compare_cont Eq) with Pos.compare;
    repeat match goal with
      | |- context [(?a ?= ?b)%Z] => destruct (Z.compare_spec a b)
      | |- context [(?a ?= ?b)%positive] => destruct (Pos.compare_spec a b)
      end; cbn; try reflexivity; try discriminate; intros; try lia.
Qed.

Lemma is_nan_Prim2SF (x : PrimFloat.float) :
  PrimFloat.is_nan x = false <-> FloatOps.Prim2SF x <> S754_nan.
Proof.
  unfold PrimFloat.is_nan; rewrite FloatAxioms.eqb_spec; unfold SFeqb.
  split.
  - intros H Hn; rewrite Hn in H; discriminate.
  - intros H; rewrite (SFcompare_refl _ H); reflexivity.
Qed.

Lemma leb_not_ltb (x y : PrimFloat.float) :
  PrimFloat.leb x y = true -> PrimFloat.ltb y x = false.
Proof.
  rewrite FloatAxioms.leb_spec, FloatAxioms.ltb_spec; unfold SFleb, SFltb.
  rewrite (SFcompare_swap (FloatOps.Prim2SF x) (FloatOps.Prim2SF y)).
  destruct (SFcompare _ _) as [[| |] |]; cbn; congruence.
Qed.

Lemma not_ltb_leb (x y : PrimFloat.float) :
  PrimFloat.is_nan x = false -> PrimFloat.is_nan y = false ->
  PrimFloat.ltb x y = false -> PrimFloat.leb y x = true.
Proof.
  rewrite !is_nan_Prim2SF; intros Hx Hy.
  rewrite FloatAxioms.leb_spec, FloatAxioms.ltb_spec; unfold SFleb, SFltb.
  rewrite (SFcompare_swap (FloatOps.Prim2SF x) (FloatOps.Prim2SF y)).
  destruct (SFcompare_total _ _ Hx Hy) as [c ->]; destruct c; cbn; congruence.
Qed.

Lemma ltb_leb (x y : PrimFloat.float) :
  PrimFloat.ltb x y = true -> PrimFloat.leb x y = true.
Proof.
  rewrite FloatAxioms.leb_spec, FloatAxioms.ltb_spec; unfold SFleb, SFltb.
  destruct (SFcompare _ _) as [[| |] |]; congruence.
Qed.

Lemma ltb_trans (x y z : PrimFloat.float) :
  PrimFloat.ltb x y = true -> PrimFloat.ltb y z = true ->
  PrimFloat.ltb x z = true.
Proof. rewrite !FloatAxioms.ltb_spec; apply SFltb_trans. Qed.

Lemma leb_refl (x : PrimFloat.float) :
  PrimFloat.is_nan x = false -> PrimFloat.leb x x = true.
Proof.
  rewrite is_nan_Prim2SF, FloatAxioms.leb_spec; unfold SFleb; intros H.
  rewrite (SFcompare_refl _ H); reflexivity.
Qed.

Lemma leb_not_nan (x y : PrimFloat.float) :
  PrimFloat.leb x y = true ->
  PrimFloat.is_nan x = false /\ PrimFloat.is_nan y = false.
Proof.
  rewrite !is_nan_Prim2SF, FloatAxioms.leb_spec; unfold SFleb.
  destruct (FloatOps.Prim2SF x), (FloatOps.Prim2SF y); cbn;
    try discriminate; intros _; split; discriminate.
Qed.

End Binary64Order.

(* ================================================================== *)
(** * The claims about comparisons, on binary64 numbers

    The theorems over the reals that rest on comparisons alone hold of the
    binary64 code as well, NaN set aside. *)

Section Binary64Companions.
#[local] Existing Instance Binary64.number.
Local Open Scope Z_scope.

(** The release handler on a degenerate state, as over the reals. *)
Lemma small_gesture_discarded_binary64
      (container : option (DOMRect.t PrimFloat.float))
      (e : MouseEvent.t PrimFloat.float) (s : Editor.t PrimFloat.float) :
  degenerateGesture s -> discarded s (handleWindowMouseUp container e s).
Proof. apply degenerateGesture_discarded; exact leb_not_ltb. Qed.

(** The settled scale, as C3 has it over the reals: within [1, 3], the
    nearest bound when outside, the scale itself when inside; and at a
    settled scale of 1 the pan is the origin. *)
Lemma settle_scale_binary64 (dom : option (Layout.t PrimFloat.float))
      (t : Transform.t PrimFloat.float) :
  PrimFloat.is_nan (Transform.scale t) = false ->
  let one := Binary64.of_Z 1 in
  let three := Binary64.of_Z 3 in
  let t' := settle dom t in
  PrimFloat.leb one (Transform.scale t') = true
  /\ PrimFloat.leb (Transform.scale t') three = true
  /\ (PrimFloat.ltb (Transform.scale t) one = true ->
      Transform.scale t' = one)
  /\ (PrimFloat.ltb three (Transform.scale t) = true ->
      Transform.scale t' = three)
  /\ (PrimFloat.leb one (Transform.scale t) = true ->
      PrimFloat.leb (Transform.scale t) three = true ->
      Transform.scale t' = Transform.scale t)
  /\ (PrimFloat.eqb (Transform.scale t') one = true ->
      Transform.x t' = Binary64.of_Z 0 /\ Transform.y t' = Binary64.of_Z 0).
Proof.
  intros Hnan one three t'.
  assert (Hscale :
    Transform.scale t'
    = (let s1 := if PrimFloat.ltb (Transform.scale t) one then one
                 else Transform.scale t in
       if PrimFloat.ltb three s1 then three else s1)).
  { subst t'; unfold settle; cbn [nltb neqb num_of_Z Binary64.number].
    destruct (PrimFloat.eqb _ _); reflexivity. }
  assert (H31 : PrimFloat.ltb three one = false) by (vm_compute; reflexivity).
  assert (H11 : PrimFloat.leb one one = true) by (vm_compute; reflexivity).
  assert (H13 : PrimFloat.leb one three = true) by (vm_compute; reflexivity).
  assert (H33 : PrimFloat.leb three three = true) by (vm_compute; reflexivity).
  assert (Hn1 : PrimFloat.is_nan one = false) by (vm_compute; reflexivity).
  assert (Hn3 : PrimFloat.is_nan three = false) by (vm_compute; reflexivity).
  assert (Hexcl : PrimFloat.ltb three (Transform.scale t) = true ->
                  PrimFloat.ltb (Transform.scale t) one = false).
  { intros H3; destruct (PrimFloat.ltb (Transform.scale t) one) eqn:H1;
      [| reflexivity].
    rewrite (ltb_trans _ _ _ H3 H1) in H31; discriminate. }
  cbv zeta in Hscale.
  split; [| split; [| split; [| split; [| split]]]].
  - rewrite Hscale.
    destruct (PrimFloat.ltb (Transform.scale t) one) eqn:H1;
      [rewrite H31; exact H11 |].
    destruct (PrimFloat.ltb three (Transform.scale t)) eqn:H3; [exact H13 |].
    apply not_ltb_leb; assumption.
  - rewrite Hscale.
    destruct (PrimFloat.ltb (Transform.scale t) one) eqn:H1;
      [rewrite H31; exact H13 |].
    destruct (PrimFloat.ltb three (Transform.scale t)) eqn:H3; [exact H33 |].
    apply not_ltb_leb; assumption.
  - intros H1; rewrite Hscale, H1, H31; reflexivity.
  - intros H3; rewrite Hscale, (Hexcl H3), H3; reflexivity.
  - intros H1 H3; rewrite Hscale, (leb_not_ltb _ _ H1), (leb_not_ltb _ _ H3);
      reflexivity.
  - subst t'; unfold settle; cbn [nltb neqb num_of_Z Binary64.number].
    match goal with
    | |- context [if PrimFloat.eqb ?a ?b then _ else _] =>
        destruct (PrimFloat.eqb a b) eqn:Hc
    end; cbn [Transform.scale Transform.x Transform.y]; intros Heq;
      [split; reflexivity |].
    subst one; rewrite Hc in Heq; discriminate.
Qed.

(** The point a pointer move appends, as over the reals: within the
    bitmap, when the bitmap's sizes are not negative and the pointer's
    scaled coordinates are numbers. *)
Lemma clamped_coordinate_binary64 (size v : PrimFloat.float) :
  PrimFloat.leb (Binary64.of_Z 0) size = true ->
  PrimFloat.is_nan v = false ->
  let c := Binary64.max (Binary64.of_Z 0) (Binary64.min size v) in
  PrimFloat.leb (Binary64.of_Z 0) c = true /\ PrimFloat.leb c size = true.
Proof.
  intros Hsize Hv.
  destruct (leb_not_nan _ _ Hsize) as [Hn0 Hns].
  assert (H00 : PrimFloat.leb (Binary64.of_Z 0) (Binary64.of_Z 0) = true)
    by (vm_compute; reflexivity).
  assert (Hsign : PrimFloat.get_sign (Binary64.of_Z 0) = false)
    by (vm_compute; reflexivity).
  assert (Hmin : PrimFloat.is_nan (Binary64.min size v) = false
                 /\ PrimFloat.leb (Binary64.min size v) size = true).
  { unfold Binary64.min; rewrite Hns, Hv; cbn [orb].
    destruct (PrimFloat.ltb size v) eqn:H1; [split; [exact Hns | apply leb_refl; exact Hns] |].
    destruct (PrimFloat.ltb v size) eqn:H2; [split; [exact Hv | apply ltb_leb; exact H2] |].
    destruct (PrimFloat.get_sign size);
      [split; [exact Hns | apply leb_refl; exact Hns] |].
    split; [exact Hv | apply not_ltb_leb; assumption]. }
  destruct Hmin as [Hnm Hle]; set (m := Binary64.min size v) in *.
  intros c; subst c; unfold Binary64.max; rewrite Hn0, Hnm; cbn [orb].
  destruct (PrimFloat.ltb (Binary64.of_Z 0) m) eqn:H1;
    [split; [apply ltb_leb; exact H1 | exact Hle] |].
  destruct (PrimFloat.ltb m (Binary64.of_Z 0)) eqn:H2;
    [split; [exact H00 | exact Hsize] |].
  rewrite Hsign; split; [exact H00 | exact Hsize].
Qed.

Lemma windowMousePos_binary64 (canvas : Canvas.t PrimFloat.float)
      (e : MouseEvent.t PrimFloat.float) :
  let rect := Canvas.rect canvas in
  let scaledX :=
    PrimFloat.mul (PrimFloat.sub (MouseEvent.clientX e) (DOMRect.left rect))
                  (PrimFloat.div (Canvas.width canvas) (DOMRect.width rect)) in
  let scaledY :=
    PrimFloat.mul (PrimFloat.sub (MouseEvent.clientY e) (DOMRect.top rect))
                  (PrimFloat.div (Canvas.height canvas) (DOMRect.height rect)) in
  PrimFloat.leb (Binary64.of_Z 0) (Canvas.width canvas) = true ->
  PrimFloat.leb (Binary64.of_Z 0) (Canvas.height canvas) = true ->
  PrimFloat.is_nan scaledX = false -> PrimFloat.is_nan scaledY = false ->
  let pos := windowMousePos canvas e in
  (PrimFloat.leb (Binary64.of_Z 0) (Point.x pos) = true
   /\ PrimFloat.leb (Point.x pos) (Canvas.width canvas) = true)
  /\ (PrimFloat.leb (Binary64.of_Z 0) (Point.y pos) = true
      /\ PrimFloat.leb (Point.y pos) (Canvas.height canvas) = true).
Proof.
  intros rect scaledX scaledY Hw Hh Hx Hy pos; subst pos.
  unfold windowMousePos; cbn [Point.x Point.y].
  split; [exact (clamped_coordinate_binary64 _ _ Hw Hx)
         | exact (clamped_coordinate_binary64 _ _ Hh Hy)].
Qed.

(** The corner [(x, y)] of the rectangle a drag stages is the least of the
    coordinates of its two ends. *)
Lemma min_within64 (size a b : PrimFloat.float) :
  within64 size a -> within64 size b -> within64 size (Binary64.min a b).
Proof.
  intros [Ha0 Has] [Hb0 Hbs].
  destruct (leb_not_nan _ _ Ha0) as [_ Hna].
  destruct (leb_not_nan _ _ Hb0) as [_ Hnb].
  unfold Binary64.min; rewrite Hna, Hnb; cbn [orb].
  destruct (PrimFloat.ltb a b); [split; assumption |].
  destruct (PrimFloat.ltb b a); [split; assumption |].
  destruct (PrimFloat.get_sign a); split; assumption.
Qed.

Lemma clamps64_eventOk (width height : PrimFloat.float) (ev : Event) :
  PrimFloat.leb (Binary64.of_Z 0) width = true ->
  PrimFloat.leb (Binary64.of_Z 0) height = true ->
  clamps64 width height ev ->
  eventOk (inBitmap64 width height) width height ev.
Proof.
  intros Hw Hh; destruct ev; cbn [clamps64 eventOk]; auto.
  intros [Hx Hy].
  destruct (windowMousePos_binary64 (Canvas.mk width height canvasRect) e
              Hw Hh Hx Hy) as [[H1 H2] [H3 H4]].
  repeat split; assumption.
Qed.

(** On binary64 numbers the coordinates that comparisons alone decide stay
    within the bitmap, whatever the order of events and renders: the points
    of the drag and of every stroke, and the corner [(x, y)] of every
    rectangle. *)
Lemma scheduled_run_inBitmap64 (width height : PrimFloat.float)
      (turns : list (Scheduled.Turn PrimFloat.float))
      (st : Scheduled.t PrimFloat.float) :
  PrimFloat.leb (Binary64.of_Z 0) width = true ->
  PrimFloat.leb (Binary64.of_Z 0) height = true ->
  Forall (turnClamps64 width height) turns ->
  editorInBitmap64 width height (Scheduled.rendered st) ->
  editorInBitmap64 width height (Scheduled.scheduled st) ->
  editorInBitmap64 width height
    (Scheduled.rendered (Scheduled.run width height st turns))
  /\ editorInBitmap64 width height
       (Scheduled.scheduled (Scheduled.run width height st turns)).
Proof.
  intros Hw Hh Hturns; unfold editorInBitmap64.
  apply (scheduled_run_ok (N := Binary64.number)).
  - intros dragStart dragEnd color [Hsx Hsy] [Hex Hey].
    unfold cornerInBitmap64, inBitmap64;
      cbn [RectHighlight.x RectHighlight.y Point.x Point.y nmin
           Binary64.number].
    split; apply min_within64; assumption.
  - eapply Forall_impl; [| exact Hturns].
    intros [ev |]; cbn [turnClamps64 turnOk]; [| auto].
    apply clamps64_eventOk; assumption.
Qed.

End Binary64Companions.

(* ================================================================== *)
(** * Committed highlights lie within the bitmap *)

Section BitmapInvariant.
Local Open Scope R_scope.

(** C10, amended. On a bitmap of [width] by [height]: the point a pointer
    move appends to a drag is clamped to [0, width] x [0, height]. The
    first point of a gesture is taken by [getCanvasPos] without a clamp; it
    lies within the bitmap when the pointer is on the canvas's box at the
    [mousedown]. Provided the first point of every gesture lies within the
    bitmap, every highlight committed to the store lies within the bitmap,
    a rectangle by its corners [(x, y)] and [(x + width, y + height)], a
    brush highlight by every point of every stroke, whatever the order of
    events and renders; this holds from the initial state, and from any
    state whose coordinates lie within the bitmap (a store loaded from
    persistence, say), of the state rendered and of the state scheduled.
    So far in exact arithmetic. On binary64 numbers, by the code's own
    comparisons: the point of a move is clamped unless a scaled coordinate
    is [NaN]; and provided the first points lie within the bitmap and no
    scaled coordinate of a move is [NaN], every point of every committed
    brush stroke and the corner [(x, y)] of every committed rectangle lie
    within the bitmap. *)
Theorem committed_highlights_inBitmap (width height : R)
        (turns : list (Scheduled.Turn R)) :
  0 <= width -> 0 <= height ->
  Forall (turnStartsInBitmap width height) turns ->
  (forall canvasRect e,
     inBitmap width height
       (windowMousePos (N := Ideal.number)
          (Canvas.mk width height canvasRect) e))
  /\ (forall canvasRect e,
        onCanvas canvasRect e ->
        startsInBitmap width height (MouseDown canvasRect e))
  /\ Forall (fun a => highlightInBitmap width height (Annotation.highlight a))
            (Editor.annotations
               (Scheduled.scheduled
                  (Scheduled.run (N := Ideal.number) width height
                     (Scheduled.start (initialEditor (N := Ideal.number)))
                     turns)))
  /\ (forall s,
        editorInBitmap width height s ->
        editorInBitmap width height
          (Scheduled.rendered
             (Scheduled.run (N := Ideal.number) width height
                            (Scheduled.start s) turns))
        /\ editorInBitmap width height
             (Scheduled.scheduled
                (Scheduled.run (N := Ideal.number) width height
                               (Scheduled.start s) turns)))
  /\ (forall (canvas : Canvas.t PrimFloat.float) e,
        let rect := Canvas.rect canvas in
        PrimFloat.leb (Binary64.of_Z 0) (Canvas.width canvas) = true ->
        PrimFloat.leb (Binary64.of_Z 0) (Canvas.height canvas) = true ->
        PrimFloat.is_nan
          (PrimFloat.mul
             (PrimFloat.sub (MouseEvent.clientX e) (DOMRect.left rect))
             (PrimFloat.div (Canvas.width canvas) (DOMRect.width rect)))
        = false ->
        PrimFloat.is_nan
          (PrimFloat.mul
             (PrimFloat.sub (MouseEvent.clientY e) (DOMRect.top rect))
             (PrimFloat.div (Canvas.height canvas) (DOMRect.height rect)))
        = false ->
        inBitmap64 (Canvas.width canvas) (Canvas.height canvas)
                   (windowMousePos (N := Binary64.number) canvas e))
  /\ (forall (width64 height64 : PrimFloat.float)
             (turns64 : list (Scheduled.Turn PrimFloat.float)),
        PrimFloat.leb (Binary64.of_Z 0) width64 = true ->
        PrimFloat.leb (Binary64.of_Z 0) height64 = true ->
        Forall (turnClamps64 width64 height64) turns64 ->
        Forall (fun a =>
                  highlightInBitmap64 width64 height64 (Annotation.highlight a))
               (Editor.annotations
                  (Scheduled.scheduled
                     (Scheduled.run (N := Binary64.number) width64 height64
                        (Scheduled.start (initialEditor (N := Binary64.number)))
                        turns64)))
        /\ forall s,
             editorInBitmap64 width64 height64 s ->
             editorInBitmap64 width64 height64
               (Scheduled.rendered
                  (Scheduled.run (N := Binary64.number) width64 height64
                                 (Scheduled.start s) turns64))
             /\ editorInBitmap64 width64 height64
                  (Scheduled.scheduled
                     (Scheduled.run (N := Binary64.number) width64 height64
                                    (Scheduled.start s) turns64))).
Proof.
  intros Hw Hh Hturns; split; [| split; [| split; [| split; [| split]]]].
  - intros canvasRect e; apply windowMousePos_inBitmap; assumption.
  - intros canvasRect e He; cbn [startsInBitmap].
    apply getCanvasPos_inBitmap; assumption.
  - apply (scheduled_run_inBitmap width height Hw Hh turns
             (Scheduled.start initialEditor) Hturns);
      apply initialEditor_inBitmap.
  - intros s Hs.
    apply (scheduled_run_inBitmap width height Hw Hh turns
             (Scheduled.start s) Hturns); exact Hs.
  - intros canvas e rect H0w H0h Hx Hy.
    destruct (windowMousePos_binary64 canvas e H0w H0h Hx Hy)
      as [[H1 H2] [H3 H4]].
    repeat split; assumption.
  - intros width64 height64 turns64 H0w H0h Hturns64; split.
    + apply (scheduled_run_inBitmap64 width64 height64 turns64
               (Scheduled.start initialEditor) H0w H0h Hturns64);
        apply (initialEditor_ok (N := Binary64.number)).
    + intros s Hs.
      apply (scheduled_run_inBitmap64 width64 height64 turns64
               (Scheduled.start s) H0w H0h Hturns64); exact Hs.
Qed.

End BitmapInvariant.

(* ================================================================== *)
(** * The editor on binary64 numbers *)

Section Binary64Runs.
#[local] Existing Instance Binary64.number.
Local Open Scope Z_scope.

(** The scenario of the specification, run: the store holds exactly the
    rectangle {x: 10, y: 10, width: 90, height: 70} with the note, not
    completed, without replies. *)
Example rectScenario_run :
  Editor.annotations
    (run (Binary64.of_Z 500) (Binary64.of_Z 400) initialEditor rectScenario)
  = [rectAnnotation].
Proof. vm_compute. reflexivity. Qed.

(** Of two overlapping rectangles, the later one is found at a point of
    both; the earlier one where only it lies; none elsewhere; and the
    earlier one again once the later one is completed. *)
Example findAnnotationAtPoint_run :
  let store := [rectAnnotation; overlappingAnnotation] in
  let at_ x y := Point.mk (Binary64.of_Z x) (Binary64.of_Z y) in
  findAnnotationAtPoint store (at_ 60 50)%Z = Some overlappingAnnotation
  /\ findAnnotationAtPoint store (at_ 20 20)%Z = Some rectAnnotation
  /\ findAnnotationAtPoint store (at_ 400 300)%Z = None
  /\ findAnnotationAtPoint (markComplete "1700000005000" store) (at_ 60 50)%Z
     = Some rectAnnotation.
Proof. vm_compute. repeat split; reflexivity. Qed.

(** Releasing the narrow drag stages nothing and clears the drag. *)
Example narrowDrag_run :
  let s' := handleWindowMouseUp None
              (MouseEvent.mk (Binary64.of_Z 15) (Binary64.of_Z 60)) narrowDrag in
  Editor.pendingHighlight s' = None /\ Editor.showInput s' = false
  /\ Editor.isDrawing s' = false /\ Editor.dragStart s' = None
  /\ Editor.dragEnd s' = None.
Proof. vm_compute. repeat split; reflexivity. Qed.

(** C5, the code on a drag that ends next to its start. The pointer goes
    down at (10, 10), moves out to (100, 80) and back to (12, 12), and is
    released there before the render of the last move: the listener that
    handles the release is the closure of the render before, in which the
    drag ends at (100, 80). The gesture is 2 px wide and 2 px high, yet the
    rectangle {x: 10, y: 10, width: 90, height: 70} is staged, the input is
    shown, and Save commits the rectangle. Released after the render of the
    last move, the same gesture stages nothing. Either way the release
    clears the drag state. *)
Theorem stale_release_stages_rectangle :
  let f := Binary64.of_Z in
  let loop := Scheduled.run (f 500) (f 400) in
  let dragged := loop (Scheduled.start initialEditor) (firstn 5 staleRelease) in
  let released := loop (Scheduled.start initialEditor) staleRelease in
  let saved :=
    loop released
         [ Scheduled.Dispatch (SaveAnnotation "1700000000000" (f 1700000000000));
           Scheduled.Render ] in
  let rendered := loop (Scheduled.start initialEditor) renderedRelease in
  (Editor.dragStart (Scheduled.scheduled dragged) = Some (Point.mk (f 10) (f 10))
   /\ Editor.dragEnd (Scheduled.scheduled dragged) = Some (Point.mk (f 12) (f 12))
   /\ Editor.dragEnd (Scheduled.rendered dragged) = Some (Point.mk (f 100) (f 80)))
  /\ (Editor.pendingHighlight (Scheduled.rendered released)
      = Some (rect (RectHighlight.mk (f 10) (f 10) (f 90) (f 70)
                                     "rgba(255, 180, 0, 0.25)"))
      /\ Editor.showInput (Scheduled.rendered released) = true
      /\ dragCleared (Scheduled.rendered released))
  /\ map (@Annotation.highlight _) (Editor.annotations (Scheduled.rendered saved))
     = [rect (RectHighlight.mk (f 10) (f 10) (f 90) (f 70)
                               "rgba(255, 180, 0, 0.25)")]
  /\ (Editor.pendingHighlight (Scheduled.rendered rendered) = None
      /\ Editor.showInput (Scheduled.rendered rendered) = false
      /\ dragCleared (Scheduled.rendered rendered)).
Proof. vm_compute. repeat split; reflexivity. Qed.

(** C10 as stated fails: the first point of a gesture is not clamped. With
    the [mousedown] of the scenario one pixel to the left of the canvas's
    box, the rectangle committed has [x = -1], outside the bitmap; so it is
    in the loop in which a render follows every event. *)
Lemma first_point_is_not_clamped :
  let f := Binary64.of_Z in
  let outside :=
    [rect (RectHighlight.mk (f (-1)) (f 10) (f 101) (f 70)
                            "rgba(255, 180, 0, 0.25)")] in
  map (@Annotation.highlight _)
      (Editor.annotations (run (f 500) (f 400) initialEditor outsideScenario))
  = outside
  /\ map (@Annotation.highlight _)
         (Editor.annotations
            (Scheduled.rendered
               (Scheduled.run (f 500) (f 400) (Scheduled.start initialEditor)
                              (Scheduled.renderedAfterEach outsideScenario))))
     = outside
  /\ PrimFloat.ltb (f (-1)) (f 0) = true.
Proof. vm_compute. repeat split; reflexivity. Qed.

(** [Math.floor], [Math.max] and [Math.min] at the corners of their
    definitions: -2.5, -0.25 and 0.25 floored; signed zeros; NaN. *)
Example builtins_run :
  let q := fun a b => PrimFloat.div (Binary64.of_Z a) (Binary64.of_Z b) in
  Binary64.floor (q (-5) 2)%Z = Binary64.of_Z (-3)
  /\ Binary64.floor (q (-1) 4)%Z = Binary64.of_Z (-1)
  /\ Binary64.floor (q 1 4)%Z = PrimFloat.zero
  /\ Binary64.floor (Binary64.of_Z 7) = Binary64.of_Z 7
  /\ Binary64.max PrimFloat.neg_zero PrimFloat.zero = PrimFloat.zero
  /\ Binary64.min PrimFloat.zero PrimFloat.neg_zero = PrimFloat.neg_zero
  /\ Binary64.max (Binary64.of_Z 1) PrimFloat.nan = PrimFloat.nan
  /\ Binary64.min (Binary64.of_Z 1) (Binary64.of_Z 2) = Binary64.of_Z 1.
Proof. vm_compute. repeat split; reflexivity. Qed.

(** Settling: a scale of 0.7 snaps to 1 and centres the image; a scale of 4
    snaps to 3 and the pan is clamped into the bounds at scale 3, which are
    800 and 375 on the wide layout. *)
Example settle_run :
  let f := Binary64.of_Z in
  settle (Some wideLayout)
         (Transform.mk (f 120) (f (-40)) (PrimFloat.div (f 7) (f 10)))
  = Transform.mk (f 0) (f 0) (f 1)
  /\ settle (Some wideLayout) (Transform.mk (f 5000) (f (-5000)) (f 4))
     = Transform.mk (f 800) (f (-375)) (f 3)
  /\ settle (Some wideLayout) (Transform.mk (f 100) (f (-20)) (f 2))
     = Transform.mk (f 100) (f (-20)) (f 2).
Proof. vm_compute. repeat split; reflexivity. Qed.

(** Panning at scale 1 on the wide layout (bounds 0): 200 px past the bound
    a further outward delta moves nothing; 100 px past it moves half; back
    toward the bound it moves in full. *)
Example wheelPan_run :
  let f := Binary64.of_Z in
  let wheel dx := WheelEvent.mk (f dx) (f 0) false false in
  Transform.x (wheelPan (Some wideLayout) (wheel (-30))
                        (Transform.mk (f 200) (f 0) (f 1))) = f 200
  /\ Transform.x (wheelPan (Some wideLayout) (wheel (-30))
                           (Transform.mk (f 100) (f 0) (f 1))) = f 115
  /\ Transform.x (wheelPan (Some wideLayout) (wheel 30)
                           (Transform.mk (f 200) (f 0) (f 1))) = f 170.
Proof. vm_compute. repeat split; reflexivity. Qed.

End Binary64Runs.

(* ================================================================== *)
(** * Image loader *)

Section ImageLoaderRuns.
#[local] Existing Instance Binary64.number.

(** Images within the limit keep their size; 12000 x 8000 is scaled to
    8192 x 5461. *)
Example finalSize_run :
  finalSize 4000 3000 = (Binary64.of_Z 4000, Binary64.of_Z 3000)
  /\ finalSize 8192 8192 = (Binary64.of_Z 8192, Binary64.of_Z 8192)
  /\ finalSize 12000 8000 = (Binary64.of_Z 8192, Binary64.of_Z 5461).
Proof. vm_compute. repeat split; reflexivity. Qed.

(** C9, the code at a 12544 x 8000 image. In binary64 the scale factor
    [8192 / 12544] is [5882252574524729 * 2^-53], just below 32/49; its
    product with 12544 is short of 8192 by more than half the spacing of the
    doubles there, so it rounds to the double below 8192,
    [(2^53 - 1) * 2^-40]; [Math.floor] then makes the larger dimension 8191,
    one pixel less than the maximum the specification asks for. *)
Theorem finalSize_12544_falls_short :
  finalSize 12544 8000 = (Binary64.of_Z 8191, Binary64.of_Z 5224)
  /\ FloatOps.Prim2SF (PrimFloat.div (Binary64.of_Z 8192) (Binary64.of_Z 12544))
     = S754_finite false 5882252574524729 (-53)
  /\ (5882252574524729 * 12544 < 8192 * 2 ^ 53)%Z
  /\ FloatOps.Prim2SF
       (PrimFloat.mul (Binary64.of_Z 12544)
          (PrimFloat.div (Binary64.of_Z 8192) (Binary64.of_Z 12544)))
     = S754_finite false (2 ^ 53 - 1) (-40)
  /\ PrimFloat.ltb
       (PrimFloat.mul (Binary64.of_Z 12544)
          (PrimFloat.div (Binary64.of_Z 8192) (Binary64.of_Z 12544)))
       (Binary64.of_Z 8192) = true.
Proof. vm_compute. repeat split; reflexivity. Qed.

End ImageLoaderRuns.

Section ImageLoaderIdeal.
Local Open Scope R_scope.

(** In exact arithmetic the same computation reaches the maximum: the larger
    dimension becomes 8192 and the other one is within a pixel of its exact
    scaled value; an image within the limit keeps its size. *)
Lemma finalSize_ideal (w h : Z) :
  (0 < w)%Z -> (0 < h)%Z ->
  let size := finalSize (N := Ideal.number) w h in
  ((w <= 8192)%Z /\ (h <= 8192)%Z -> size = (IZR w, IZR h))
  /\ ((8192 < w)%Z \/ (8192 < h)%Z ->
      let s := 8192 / IZR (Z.max w h) in
      Rmax (fst size) (snd size) = 8192
      /\ IZR w * s - 1 < fst size <= IZR w * s
      /\ IZR h * s - 1 < snd size <= IZR h * s).
Proof.
  intros Hw Hh size; subst size.
  assert (HwR : 0 < IZR w) by (apply IZR_lt; exact Hw).
  assert (HhR : 0 < IZR h) by (apply IZR_lt; exact Hh).
  unfold finalSize, MAX_CANVAS_DIMENSION; ideal.
  split.
  - intros [Hw' Hh'].
    apply IZR_le in Hw', Hh'.
    ideal_cases; try lra; reflexivity.
  - intros Hbig.
    assert (Hcond : Ideal.ltb 8192 (IZR w) || Ideal.ltb 8192 (IZR h) = true).
    { apply orb_true_iff; destruct Hbig as [H | H]; [left | right];
        apply ideal_ltb_true, IZR_lt; exact H. }
    rewrite Hcond; cbn [fst snd]; cbv zeta.
    assert (Hs : Rmin (8192 / IZR w) (8192 / IZR h) = 8192 / IZR (Z.max w h)).
    { destruct (Z.max_spec w h) as [[Hlt ->] | [Hle ->]].
      - apply Rmin_right. apply IZR_lt in Hlt.
        unfold Rdiv; apply Rmult_le_compat_l; [lra |].
        apply Rinv_le_contravar; lra.
      - apply Rmin_left. apply IZR_le in Hle.
        unfold Rdiv; apply Rmult_le_compat_l; [lra |].
        apply Rinv_le_contravar; lra. }
    rewrite Hs; set (s := 8192 / IZR (Z.max w h)).
    pose proof (Zfloor_bound (IZR w * s)) as Bw.
    pose proof (Zfloor_bound (IZR h * s)) as Bh.
    assert (Hm : 0 < IZR (Z.max w h)) by (apply IZR_lt; lia).
    assert (Hws : IZR w * s <= 8192).
    { unfold s, Rdiv. assert (IZR w <= IZR (Z.max w h)) by (apply IZR_le; lia).
      assert (Hk : 0 < / IZR (Z.max w h)) by (apply Rinv_0_lt_compat; exact Hm).
      assert (Hkm : / IZR (Z.max w h) * IZR (Z.max w h) = 1)
        by (apply Rinv_l; lra).
      nra. }
    assert (Hhs : IZR h * s <= 8192).
    { unfold s, Rdiv. assert (IZR h <= IZR (Z.max w h)) by (apply IZR_le; lia).
      assert (Hk : 0 < / IZR (Z.max w h)) by (apply Rinv_0_lt_compat; exact Hm).
      assert (Hkm : / IZR (Z.max w h) * IZR (Z.max w h) = 1)
        by (apply Rinv_l; lra).
      nra. }
    split; [| split; lra].
    destruct (Z.max_spec w h) as [[Hlt Hmax] | [Hle Hmax]].
    + assert (Hh8 : IZR h * s = 8192)
        by (unfold s; rewrite Hmax; field; lra).
      assert (Hfh : Zfloor (IZR h * s) = 8192%Z)
        by (rewrite Hh8; apply (ZfloorZ 8192)).
      rewrite Hfh; apply Rmax_right; lra.
    + assert (Hw8 : IZR w * s = 8192)
        by (unfold s; rewrite Hmax; field; lra).
      assert (Hfw : Zfloor (IZR w * s) = 8192%Z)
        by (rewrite Hw8; apply (ZfloorZ 8192)).
      rewrite Hfw; apply Rmax_left; lra.
Qed.

End ImageLoaderIdeal.

(* ================================================================== *)
(** * Persistence *)

Section PersistenceProperties.
Context {A : Type} (json : JSON.codec A) (accepts : string -> bool).

Lemma truthy_nonempty (s : string) : s <> EmptyString -> truthy (Some s) = true.
Proof. destruct s; [intros H; contradiction H; reflexivity | reflexivity]. Qed.



(** The guard of the auto-save effect: with an empty in-memory list and
    data persisted, nothing is written, at startup and at any later time. *)
Lemma autoSaveEffect_skips (stored : string) :
  stored <> EmptyString -> stored <> "[]"%string ->
  autoSaveEffect json accepts [] (Some stored) = Some stored.
Proof.
  intros Hne Hsent; unfold autoSaveEffect, getItem; cbn [List.length Nat.eqb].
  rewrite (truthy_nonempty _ Hne).
  destruct (String.eqb_spec stored "[]"); [contradiction | reflexivity].
Qed.





End PersistenceProperties.

Section PersistenceRuns.
#[local] Existing Instance Binary64.number.




End PersistenceRuns.


(* ================================================================== *)
(** * The theorems at sample inputs *)

Section Witnesses.
Local Open Scope R_scope.
#[local] Existing Instance Ideal.number.

Lemma degenerate_gesture_discarded_witness :
  degenerate narrowDrag
  /\ nothingStaged narrowDrag
       (handleWindowMouseUp None (MouseEvent.mk 15 60) narrowDrag)
  /\ dragCleared (handleWindowMouseUp None (MouseEvent.mk 15 60) narrowDrag).
Proof.
  assert (Hdeg : degenerate narrowDrag).
  { left; split; [reflexivity |].
    exists (Point.mk 10 10), (Point.mk 15 60); repeat split.
    left; cbn [Point.x]; rewrite Rabs_right; lra. }
  split; [exact Hdeg |].
  pose proof (degenerate_gesture_discarded None (MouseEvent.mk 15 60)
                narrowDrag Hdeg) as (Hns & _ & Hdc & _).
  split; assumption.
Defined.

Lemma committed_highlights_inBitmap_witness :
  (0 <= 500 /\ 0 <= 400
   /\ Forall (turnStartsInBitmap 500 400)
             (Scheduled.renderedAfterEach rectScenario)
   /\ Forall (fun a => highlightInBitmap 500 400 (Annotation.highlight a))
             (Editor.annotations
                (Scheduled.scheduled
                   (Scheduled.run 500 400 (Scheduled.start initialEditor)
                                  (Scheduled.renderedAfterEach rectScenario)))))
  /\ (let f := Binary64.of_Z in
      Forall (turnClamps64 (f 500%Z) (f 400%Z))
             (Scheduled.renderedAfterEach (rectScenario (N := Binary64.number)))
      /\ Forall (fun a =>
                   highlightInBitmap64 (f 500%Z) (f 400%Z)
                                       (Annotation.highlight a))
                (Editor.annotations
                   (Scheduled.scheduled
                      (Scheduled.run (N := Binary64.number) (f 500%Z) (f 400%Z)
                         (Scheduled.start (initialEditor (N := Binary64.number)))
                         (Scheduled.renderedAfterEach
                            (rectScenario (N := Binary64.number))))))).
Proof.
  assert (Hev : Forall (turnStartsInBitmap 500 400)
                  (Scheduled.renderedAfterEach
                     (rectScenario (N := Ideal.number)))).
  { unfold rectScenario, Scheduled.renderedAfterEach; cbn [flat_map app].
    repeat (apply Forall_cons; [| try apply Forall_nil]);
      cbn [turnStartsInBitmap startsInBitmap]; auto.
    unfold inBitmap, getCanvasPos, fullSizeRect; ideal;
      cbn [Canvas.rect Canvas.width Canvas.height DOMRect.width
           DOMRect.height DOMRect.left DOMRect.top MouseEvent.clientX
           MouseEvent.clientY Point.x Point.y]; lra. }
  assert (Hev64 : Forall (turnClamps64 (Binary64.of_Z 500) (Binary64.of_Z 400))
                    (Scheduled.renderedAfterEach
                       (rectScenario (N := Binary64.number)))).
  { unfold rectScenario, Scheduled.renderedAfterEach; cbn [flat_map app].
    repeat (apply Forall_cons; [| try apply Forall_nil]);
      cbn [turnClamps64 clamps64]; auto;
      vm_compute; repeat split; reflexivity. }
  assert (Hw : 0 <= 500) by lra.
  assert (Hh : 0 <= 400) by lra.
  pose proof (committed_highlights_inBitmap 500 400 _ Hw Hh Hev)
    as (_ & _ & Hreal & _ & _ & H64).
  split; [split; [exact Hw |]; split; [exact Hh |]; split;
          [exact Hev | exact Hreal] |].
  cbv zeta; split; [exact Hev64 |].
  exact (proj1 (H64 (Binary64.of_Z 500) (Binary64.of_Z 400) _
                    eq_refl eq_refl Hev64)).
Defined.

End Witnesses.

(* ================================================================== *)
(** * The store: replies *)

Section ReplyProperties.
Context {num : Type} {N : JSNumber num}.

(** X1. [handleReply]'s map keeps the length and the order of the store and
    every field but [replies] at every position; on the annotations whose id
    matches it appends the new reply after the replies already there, and it
    returns every other annotation as it is. *)
Theorem addReply_frame (id : string) (r : Reply.t num)
        (l : list (Annotation.t num)) :
  List.length (addReply id r l) = List.length l
  /\ (forall i a,
        nth_error l i = Some a ->
        exists a',
          nth_error (addReply id r l) i = Some a' /\
          Annotation.id a' = Annotation.id a /\
          Annotation.text a' = Annotation.text a /\
          Annotation.highlight a' = Annotation.highlight a /\
          Annotation.color a' = Annotation.color a /\
          Annotation.timestamp a' = Annotation.timestamp a /\
          Annotation.completed a' = Annotation.completed a /\
          (Annotation.id a = id ->
           Annotation.replies a' = Annotation.replies a ++ [r]) /\
          (Annotation.id a <> id -> a' = a)).
Proof.
  split; [apply length_map |].
  intros i a Ha; unfold addReply.
  rewrite nth_error_map, Ha; cbn [option_map].
  eexists; split; [reflexivity |].
  destruct (String.eqb_spec (Annotation.id a) id) as [He | He];
    cbn; repeat split; auto; intros; congruence.
Qed.

(** X2. Replying and marking complete commute, on the same annotation or on
    different ones: a completed annotation still takes replies, and
    completing keeps the replies. *)
Theorem addReply_markComplete_commute (i j : string) (r : Reply.t num)
        (l : list (Annotation.t num)) :
  markComplete i (addReply j r l) = addReply j r (markComplete i l).
Proof.
  unfold markComplete, addReply; rewrite !map_map.
  apply map_ext; intros a.
  destruct (String.eqb (Annotation.id a) j) eqn:Hj,
           (String.eqb (Annotation.id a) i) eqn:Hi;
    cbn; rewrite ?Hi, ?Hj; reflexivity.
Qed.

End ReplyProperties.

(* ================================================================== *)
(** * Saving a staged highlight *)

Section SaveProperties.
Context {num : Type} {N : JSNumber num}.
Local Open Scope num_scope.

Lemma handleSaveAnnotation_staged (id : string) (now : num) (s : Editor.t num)
      (h : Highlight num) :
  stagedHighlight s = Some h ->
  handleSaveAnnotation id now s
  = clearInput (Editor.annotations s ++ [newAnnotation id now s h]) s.
Proof. intros H; unfold handleSaveAnnotation; rewrite H; reflexivity. Qed.

Lemma stagedHighlight_clearInput (l : list (Annotation.t num)) (s : Editor.t num) :
  stagedHighlight (clearInput l s) = None.
Proof. reflexivity. Qed.

(** X3. A staged highlight is committed once: a second Save right after a
    Save, and a Save after a Discard, change nothing; a Save keeps the
    annotations of the store in place and appends at most one, which is not
    completed and has no reply. *)
Theorem handleSaveAnnotation_once (id id' : string) (now now' : num)
        (s : Editor.t num) :
  handleSaveAnnotation id' now' (handleSaveAnnotation id now s)
  = handleSaveAnnotation id now s
  /\ handleSaveAnnotation id now (handleDiscard s) = handleDiscard s
  /\ exists added,
       Editor.annotations (handleSaveAnnotation id now s)
       = Editor.annotations s ++ added
       /\ (List.length added <= 1)%nat
       /\ Forall (fun a => Annotation.completed a = false
                           /\ Annotation.replies a = []) added.
Proof.
  split; [| split].
  - unfold handleSaveAnnotation at 2 3.
    destruct (stagedHighlight s) as [h |] eqn:Hs.
    + unfold handleSaveAnnotation; rewrite stagedHighlight_clearInput; reflexivity.
    + unfold handleSaveAnnotation; rewrite Hs; reflexivity.
  - reflexivity.
  - unfold handleSaveAnnotation.
    destruct (stagedHighlight s) as [h |].
    + eexists; split; [reflexivity |]; split; [cbn; lia |].
      apply Forall_cons; [split; reflexivity | apply Forall_nil].
    + exists []; split; [rewrite app_nil_r; reflexivity |].
      split; [cbn; lia | apply Forall_nil].
Qed.

(** X4. Right after Save the new annotation is the last of the store and the
    one found at every point where its highlight passes the hit test,
    whatever lies below it; a mouse down there selects it and starts no
    drawing. *)
Theorem saved_annotation_found (canvas : Canvas.t num) (e : MouseEvent.t num)
        (id : string) (now : num) (s : Editor.t num) (h : Highlight num) :
  stagedHighlight s = Some h ->
  let a := newAnnotation id now s h in
  let s' := handleSaveAnnotation id now s in
  Editor.annotations s' = Editor.annotations s ++ [a]
  /\ (forall p, hits p a = true ->
                findAnnotationAtPoint (Editor.annotations s') p = Some a)
  /\ (hits (getCanvasPos canvas e) a = true ->
      Editor.selectedAnnotationId (handleMouseDown canvas e s') = Some id
      /\ Editor.isDrawing (handleMouseDown canvas e s') = Editor.isDrawing s).
Proof.
  intros Hs; cbv zeta; rewrite (handleSaveAnnotation_staged id now s h Hs).
  assert (Hfound : forall p,
            hits p (newAnnotation id now s h) = true ->
            findAnnotationAtPoint
              (Editor.annotations s ++ [newAnnotation id now s h]) p
            = Some (newAnnotation id now s h)).
  { intros p Hp; apply findAnnotationAtPoint_Some.
    exists (Editor.annotations s), []; repeat split; auto.
    intros b []. }
  split; [reflexivity |]; split; [exact Hfound |].
  intros Hp; unfold handleMouseDown.
  cbn [clearInput Editor.showInput Editor.pendingStrokes Editor.annotations
       List.length Nat.eqb andb negb].
  rewrite (Hfound _ Hp); split; reflexivity.
Qed.

End SaveProperties.

(* ================================================================== *)
(** * What the event loop commits *)

Section CommittedProperties.
Context {num : Type} {N : JSNumber num}.
Local Open Scope num_scope.

Lemma markComplete_Forall (P : Annotation.t num -> Prop) (id : string)
      (l : list (Annotation.t num)) :
  (forall a, P a ->
     P {| Annotation.id := Annotation.id a;
          Annotation.text := Annotation.text a;
          Annotation.highlight := Annotation.highlight a;
          Annotation.color := Annotation.color a;
          Annotation.timestamp := Annotation.timestamp a;
          Annotation.replies := Annotation.replies a;
          Annotation.completed := true |}) ->
  Forall P l -> Forall P (markComplete id l).
Proof.
  intros HP Hl; unfold markComplete; apply Forall_map.
  eapply Forall_impl; [| exact Hl].
  intros a Ha; destruct (String.eqb _ _); auto.
Qed.

Lemma addReply_Forall (P : Annotation.t num -> Prop) (id : string)
      (r : Reply.t num) (l : list (Annotation.t num)) :
  (forall a, P a ->
     P {| Annotation.id := Annotation.id a;
          Annotation.text := Annotation.text a;
          Annotation.highlight := Annotation.highlight a;
          Annotation.color := Annotation.color a;
          Annotation.timestamp := Annotation.timestamp a;
          Annotation.replies := Annotation.replies a ++ [r];
          Annotation.completed := Annotation.completed a |}) ->
  Forall P l -> Forall P (addReply id r l).
Proof.
  intros HP Hl; unfold addReply; apply Forall_map.
  eapply Forall_impl; [| exact Hl].
  intros a Ha; destruct (String.eqb _ _); auto.
Qed.

Lemma stagedHighlight_substantial (s : Editor.t num) (h : Highlight num) :
  editorSubstantial s -> stagedHighlight s = Some h -> substantial h.
Proof.
  intros (_ & Hp & Hs); unfold stagedHighlight.
  destruct (Editor.pendingColor s) as [c |].
  - destruct (Editor.pendingStrokes s) as [| st rest] eqn:Hst; cbn.
    + intros H; rewrite H in Hp; exact Hp.
    + destruct c as [| ch c'].
      * intros H; rewrite H in Hp; exact Hp.
      * intros H; inversion H; subst; cbn; split; [discriminate | exact Hs].
  - intros H; rewrite H in Hp; exact Hp.
Qed.

Lemma handleWindowMouseUp_substantial (container : option (DOMRect.t num))
      (e : MouseEvent.t num) (s : Editor.t num) :
  editorSubstantial s -> editorSubstantial (handleWindowMouseUp container e s).
Proof.
  intros (Ha & Hp & Hs); unfold handleWindowMouseUp, editorSubstantial.
  destruct (Editor.activeTool s) eqn:Ht;
    [destruct (Editor.dragStart s) as [a |];
       [destruct (Editor.dragEnd s) as [b |] |] |].
  - destruct ((nabs (Point.x b - Point.x a) >? #10)
              && (nabs (Point.y b - Point.y a) >? #10)) eqn:Hwh;
      cbn; repeat split; auto.
    + apply andb_prop in Hwh; tauto.
    + apply andb_prop in Hwh; tauto.
  - cbn; repeat split; auto.
  - cbn; repeat split; auto.
  - cbn [Tool.eqb andb].
    destruct (2 <? List.length (Editor.brushPoints s))%nat eqn:Hlen;
      cbn; repeat split; auto.
    apply Forall_app; split; [exact Hs |].
    apply Forall_cons; [| apply Forall_nil].
    cbn; apply Nat.ltb_lt; exact Hlen.
Qed.

Lemma step_substantial (width height : num) (s : Editor.t num) (ev : Event) :
  editorSubstantial s -> editorSubstantial (step width height s ev).
Proof.
  intros H; destruct ev; cbn [step].
  - destruct H as (Ha & Hp & Hs); unfold handleMouseDown.
    destruct (Editor.showInput s && Tool.eqb (Editor.activeTool s) Tool.select);
      [repeat split; assumption |].
    match goal with
    | |- context [match ?c with Some _ => _ | None => _ end] => destruct c
    end; repeat split; assumption.
  - destruct (Editor.isDrawing s); [| exact H].
    destruct H as (Ha & Hp & Hs); repeat split; assumption.
  - destruct (Editor.isDrawing s); [| exact H].
    apply handleWindowMouseUp_substantial; exact H.
  - unfold handleSaveAnnotation.
    destruct (stagedHighlight s) as [h |] eqn:Hst; [| exact H].
    pose proof (stagedHighlight_substantial s h H Hst) as Hh.
    destruct H as (Ha & Hp & Hs); repeat split; cbn.
    + apply Forall_app; split; [exact Ha |].
      apply Forall_cons; [exact Hh | apply Forall_nil].
    + apply Forall_nil.
  - destruct H as (Ha & Hp & Hs); repeat split; cbn; auto.
  - destruct H as (Ha & Hp & Hs); repeat split; assumption.
  - destruct H as (Ha & Hp & Hs); repeat split; assumption.
  - destruct H as (Ha & Hp & Hs); repeat split; assumption.
  - destruct H as (Ha & Hp & Hs); repeat split; assumption.
  - destruct H as (Ha & Hp & Hs); repeat split; cbn; auto.
    apply markComplete_Forall; auto.
  - destruct H as (Ha & Hp & Hs); repeat split; cbn; auto.
    apply addReply_Forall; auto.
  - destruct H as (Ha & Hp & Hs); repeat split; cbn; auto.
Qed.

Lemma run_substantial (width height : num) (evs : list Event) (s : Editor.t num) :
  editorSubstantial s -> editorSubstantial (run width height s evs).
Proof.
  revert s; induction evs as [| ev evs IH]; intros s H; [exact H |].
  cbn [run fold_left]; apply IH, step_substantial, H.
Qed.

(** X5. Whatever the events, every highlight the editor commits is
    substantial by the numbers' own comparison: a rectangle wider and higher
    than 10, or a brush highlight of at least one stroke, each stroke of at
    least three points. The same holds from any state whose store and staged
    highlights are substantial. *)
Theorem committed_highlights_substantial (width height : num) (evs : list Event) :
  Forall (fun a => substantial (Annotation.highlight a))
         (Editor.annotations (run width height initialEditor evs))
  /\ (forall s, editorSubstantial s ->
                editorSubstantial (run width height s evs)).
Proof.
  split; [| intros s; apply run_substantial].
  apply (run_substantial width height evs initialEditor).
  repeat split; cbn; auto.
Qed.

Lemma step_coloured (width height : num) (s : Editor.t num) (ev : Event) :
  Forall coloured (Editor.annotations s) ->
  Forall coloured (Editor.annotations (step width height s ev)).
Proof.
  intros H; destruct ev; cbn [step].
  - unfold handleMouseDown.
    destruct (Editor.showInput s && Tool.eqb (Editor.activeTool s) Tool.select);
      [assumption |].
    match goal with
    | |- context [match ?c with Some _ => _ | None => _ end] => destruct c
    end; assumption.
  - destruct (Editor.isDrawing s); assumption.
  - destruct (Editor.isDrawing s); [| exact H].
    unfold handleWindowMouseUp.
    destruct (match Editor.activeTool s with Tool.select => _ | Tool.brush => _ end)
      as [[[? ?] ?] ?]; exact H.
  - unfold handleSaveAnnotation.
    destruct (stagedHighlight s) as [h |]; [| exact H]; cbn.
    apply Forall_app; split; [exact H |].
    apply Forall_cons; [reflexivity | apply Forall_nil].
  - exact H.
  - exact H.
  - exact H.
  - exact H.
  - exact H.
  - cbn; apply markComplete_Forall; auto.
  - cbn; apply addReply_Forall; auto.
  - cbn; apply Forall_nil.
Qed.

(** X6. Whatever the events, every annotation of the store carries the
    colour of its own highlight: [color] is set from [highlight.color] at
    Save and no handler changes either afterwards. *)
Theorem committed_annotations_coloured (width height : num) (evs : list Event) :
  Forall coloured (Editor.annotations (run width height initialEditor evs))
  /\ (forall s, Forall coloured (Editor.annotations s) ->
                Forall coloured (Editor.annotations (run width height s evs))).
Proof.
  assert (Hrun : forall s, Forall coloured (Editor.annotations s) ->
                 Forall coloured (Editor.annotations (run width height s evs))).
  { induction evs as [| ev evs IH]; intros s H; [exact H |].
    cbn [run fold_left]; apply IH, step_coloured, H. }
  split; [apply Hrun; apply Forall_nil | exact Hrun].
Qed.

End CommittedProperties.

Section Palette.

Lemma paletteColor_mod (n : nat) : paletteColor n = paletteColor (n mod 6).
Proof.
  unfold paletteColor; cbn [List.length annotationColors].
  rewrite Nat.Div0.mod_mod; reflexivity.
Qed.

(** X7. The colour given to the next highlight is always one of the six of
    the palette, repeats with period six in the number of annotations, and
    differs from the colour given one annotation earlier. *)
Theorem paletteColor_cycle (n : nat) :
  In (paletteColor n) annotationColors
  /\ paletteColor (n + 6) = paletteColor n
  /\ paletteColor (S n) <> paletteColor n.
Proof.
  assert (Hm : (n mod 6 < 6)%nat) by (apply Nat.mod_upper_bound; discriminate).
  split; [| split].
  - rewrite paletteColor_mod.
    destruct (n mod 6)%nat as [| [| [| [| [| [| m]]]]]]; cbn; try tauto; lia.
  - rewrite (paletteColor_mod (n + 6)), (paletteColor_mod n).
    replace (n + 6)%nat with (n + 1 * 6)%nat by lia.
    rewrite Nat.Div0.mod_add; reflexivity.
  - rewrite (paletteColor_mod (S n)), (paletteColor_mod n).
    replace (S n) with (1 + n)%nat by lia.
    rewrite <- Nat.Div0.add_mod_idemp_r.
    destruct (n mod 6)%nat as [| [| [| [| [| [| m]]]]]]; cbn; try discriminate; lia.
Qed.

End Palette.

(* ================================================================== *)
(** * Zooming and coming to rest *)

Section IdealZoom.
Local Open Scope R_scope.

(** X8. Over the reals a zoom step (wheel with Ctrl or Meta) moves the scale
    by [-deltaY * 0.002] and clamps it to [0.5, 5]; the pan is untouched. *)
Theorem wheelZoom_range (dom : option (Layout.t R)) (e : WheelEvent.t R)
        (t : Transform.t R) :
  let t' := wheelZoom (N := Ideal.number) e t in
  Transform.scale t'
  = clamp (1 / 2) 5 (Transform.scale t - WheelEvent.deltaY e * (2 / 1000))
  /\ 1 / 2 <= Transform.scale t' <= 5
  /\ Transform.x t' = Transform.x t /\ Transform.y t' = Transform.y t
  /\ (WheelEvent.ctrlKey e = true \/ WheelEvent.metaKey e = true ->
      onWheel (N := Ideal.number) dom e t = t').
Proof.
  cbv zeta.
  assert (Hs : Transform.scale (wheelZoom (N := Ideal.number) e t)
               = clamp (1 / 2) 5
                   (Transform.scale t - WheelEvent.deltaY e * (2 / 1000))).
  { unfold wheelZoom, MIN_ELASTIC_SCALE, MAX_ELASTIC_SCALE, clamp, Rmax, Rmin.
    cbn [Transform.scale]; ideal.
    destruct (Rle_dec 5 (Transform.scale t - WheelEvent.deltaY e * (2 / 1000)));
      destruct (Rle_dec (1 / 2) _); ideal_cases; lra. }
  split; [exact Hs |]; split; [rewrite Hs; apply clamp_between; lra |].
  split; [reflexivity |]; split; [reflexivity |].
  intros H; unfold onWheel.
  destruct (WheelEvent.ctrlKey e), (WheelEvent.metaKey e); try reflexivity.
  destruct H; discriminate.
Qed.

(** A settled transform is at rest: its scale within [1, 3], its pan within
    the bounds of its own scale, at the origin when the scale is 1. *)
Lemma settle_at_rest (dom : option (Layout.t R)) (t : Transform.t R) :
  let t' := settle (N := Ideal.number) dom t in
  let b := getBounds (N := Ideal.number) dom (Transform.scale t') in
  1 <= Transform.scale t' <= 3
  /\ Bounds.minX b <= Transform.x t' <= Bounds.maxX b
  /\ Bounds.minY b <= Transform.y t' <= Bounds.maxY b
  /\ (Transform.scale t' = 1 -> Transform.x t' = 0 /\ Transform.y t' = 0).
Proof.
  cbv zeta.
  pose proof (getBounds_symmetric dom
                (Transform.scale (settle (N := Ideal.number) dom t))) as Hb.
  revert Hb; unfold settle; ideal.
  set (s0 := if Ideal.ltb (Transform.scale t) 1 then 1 else Transform.scale t).
  set (s1 := if Ideal.ltb 3 s0 then 3 else s0).
  assert (Hs1 : 1 <= s1 <= 3).
  { subst s1 s0; ideal_cases; lra. }
  destruct (Ideal.eqb s1 1) eqn:Heq.
  - cbn [Transform.scale Transform.x Transform.y]; cbv zeta.
    intros (Hx & Hx0 & Hy & Hy0); repeat split; lra.
  - cbn [Transform.scale Transform.x Transform.y].
    generalize (getBounds (N := Ideal.number) dom s1).
    intros [minX maxX minY maxY]; cbv zeta;
      cbn [Bounds.minX Bounds.maxX Bounds.minY Bounds.maxY].
    intros (Hx & Hx0 & Hy & Hy0); subst minX minY.
    apply ideal_eqb_false in Heq.
    split; [exact Hs1 |]; split; [| split]; [| | intros; contradiction];
      ideal_cases; lra.
Qed.

(** X10. Over the reals the snap-back is idempotent: settling a settled
    transform changes nothing. *)
Theorem settle_idempotent (dom : option (Layout.t R)) (t : Transform.t R) :
  settle (N := Ideal.number) dom (settle (N := Ideal.number) dom t)
  = settle (N := Ideal.number) dom t.
Proof.
  pose proof (settle_at_rest dom t) as H; cbv zeta in H.
  revert H; generalize (settle (N := Ideal.number) dom t).
  intros [x y scale]; cbn [Transform.scale Transform.x Transform.y].
  intros (Hs & Hx & Hy & H0).
  unfold settle; cbn [Transform.scale Transform.x Transform.y]; ideal.
  assert (H1 : Ideal.ltb scale 1 = false) by (apply ideal_ltb_false; lra).
  rewrite H1.
  assert (H3 : Ideal.ltb 3 scale = false) by (apply ideal_ltb_false; lra).
  rewrite H3.
  destruct (Ideal.eqb scale 1) eqn:Heq.
  - apply ideal_eqb_true in Heq; destruct (H0 Heq); subst; reflexivity.
  - revert Hx Hy; generalize (getBounds (N := Ideal.number) dom scale).
    intros [minX maxX minY maxY];
      cbn [Bounds.minX Bounds.maxX Bounds.minY Bounds.maxY]; intros Hx Hy.
    f_equal; ideal_cases; lra.
Qed.

(** X11. Over the reals a pan step from a settled transform meets no
    resistance: the pan moves by exactly [(-deltaX, -deltaY)] and the scale
    stays. *)
Theorem settle_then_pan (dom : option (Layout.t R)) (e : WheelEvent.t R)
        (t : Transform.t R) :
  let t' := settle (N := Ideal.number) dom t in
  wheelPan (N := Ideal.number) dom e t'
  = Transform.mk (Transform.x t' - WheelEvent.deltaX e)
                 (Transform.y t' - WheelEvent.deltaY e)
                 (Transform.scale t').
Proof.
  cbv zeta.
  pose proof (settle_at_rest dom t) as H; cbv zeta in H.
  revert H; generalize (settle (N := Ideal.number) dom t).
  intros [x y scale]; cbn [Transform.scale Transform.x Transform.y].
  intros (Hs & Hx & Hy & _).
  unfold wheelPan; cbn [Transform.scale Transform.x Transform.y]; ideal.
  revert Hx Hy; generalize (getBounds (N := Ideal.number) dom scale).
  intros [minX maxX minY maxY];
    cbn [Bounds.minX Bounds.maxX Bounds.minY Bounds.maxY]; intros Hx Hy.
  assert (Hx1 : Ideal.ltb maxX x = false) by (apply ideal_ltb_false; lra).
  assert (Hx2 : Ideal.ltb x minX = false) by (apply ideal_ltb_false; lra).
  assert (Hy1 : Ideal.ltb maxY y = false) by (apply ideal_ltb_false; lra).
  assert (Hy2 : Ideal.ltb y minY = false) by (apply ideal_ltb_false; lra).
  rewrite Hx1, Hx2, Hy1, Hy2; cbn [andb].
  f_equal; lra.
Qed.

End IdealZoom.

Section Binary64Zoom.
#[local] Existing Instance Binary64.number.
Local Open Scope Z_scope.

(** Two tests in a row clamp a number between bounds that are in order. *)
Lemma clamp_by_tests_binary64 (lo hi v : PrimFloat.float) :
  PrimFloat.leb lo hi = true -> PrimFloat.is_nan v = false ->
  let s1 := if PrimFloat.ltb v lo then lo else v in
  let s2 := if PrimFloat.ltb hi s1 then hi else s1 in
  PrimFloat.leb lo s2 = true /\ PrimFloat.leb s2 hi = true.
Proof.
  intros Hlh Hv; cbv zeta.
  destruct (leb_not_nan _ _ Hlh) as [Hnl Hnh].
  destruct (PrimFloat.ltb v lo) eqn:H1.
  - rewrite (leb_not_ltb _ _ Hlh); split; [apply leb_refl; exact Hnl | exact Hlh].
  - destruct (PrimFloat.ltb hi v) eqn:H2.
    + split; [exact Hlh | apply leb_refl; exact Hnh].
    + split; apply not_ltb_leb; assumption.
Qed.

(** X9. On binary64 numbers a zoom step leaves the scale within [0.5, 5]
    whenever the scale it aims at is a number, and never touches the pan. *)
Theorem wheelZoom_binary64 (e : WheelEvent.t PrimFloat.float)
        (t : Transform.t PrimFloat.float) :
  PrimFloat.is_nan
    (PrimFloat.add (Transform.scale t)
       (PrimFloat.mul (PrimFloat.opp (WheelEvent.deltaY e))
          (PrimFloat.div (Binary64.of_Z 2) (Binary64.of_Z 1000)))) = false ->
  let t' := wheelZoom e t in
  PrimFloat.leb (PrimFloat.div (Binary64.of_Z 1) (Binary64.of_Z 2))
                (Transform.scale t') = true
  /\ PrimFloat.leb (Transform.scale t') (Binary64.of_Z 5) = true
  /\ Transform.x t' = Transform.x t /\ Transform.y t' = Transform.y t.
Proof.
  intros Hv; cbv zeta.
  assert (Hlh : PrimFloat.leb (PrimFloat.div (Binary64.of_Z 1) (Binary64.of_Z 2))
                              (Binary64.of_Z 5) = true)
    by (vm_compute; reflexivity).
  pose proof (clamp_by_tests_binary64
                (PrimFloat.div (Binary64.of_Z 1) (Binary64.of_Z 2))
                (Binary64.of_Z 5) _ Hlh Hv) as [H1 H2].
  repeat split; assumption.
Qed.

End Binary64Zoom.

(* ================================================================== *)
(** * The popover, the fitted canvas and what is drawn *)

Section IdealLayout.
Local Open Scope R_scope.

(** X12. Over the reals, in a container of at least 288 x 212 px the
    popover's corner is placed so that its 256 x 180 box keeps 16 px from
    every edge, and a position that already does is returned as it is. *)
Theorem constrainPopoverPosition_within (containerRect : DOMRect.t R)
        (pos : Point.t R) :
  288 <= DOMRect.width containerRect ->
  212 <= DOMRect.height containerRect ->
  let pos' :=
    constrainPopoverPosition (N := Ideal.number) (Some containerRect) pos in
  16 <= Point.x pos' /\ Point.x pos' + 256 <= DOMRect.width containerRect - 16
  /\ 16 <= Point.y pos' /\ Point.y pos' + 180 <= DOMRect.height containerRect - 16
  /\ (16 <= Point.x pos -> Point.x pos + 256 <= DOMRect.width containerRect - 16 ->
      Point.x pos' = Point.x pos)
  /\ (16 <= Point.y pos -> Point.y pos + 180 <= DOMRect.height containerRect - 16 ->
      Point.y pos' = Point.y pos).
Proof.
  intros Hw Hh; cbv zeta; unfold constrainPopoverPosition; ideal.
  cbn [Point.x Point.y].
  repeat split; intros; ideal_cases; lra.
Qed.

(** X13. Over the reals constraining the popover is idempotent, whatever
    the container; with a container, however small, the popover is never
    placed left of or above 16 px (the left and top edges win over the right
    and bottom ones). *)
Theorem constrainPopoverPosition_idempotent (container : option (DOMRect.t R))
        (pos : Point.t R) :
  constrainPopoverPosition (N := Ideal.number) container
    (constrainPopoverPosition (N := Ideal.number) container pos)
  = constrainPopoverPosition (N := Ideal.number) container pos
  /\ (forall containerRect,
        container = Some containerRect ->
        16 <= Point.x (constrainPopoverPosition (N := Ideal.number) container pos)
        /\ 16 <= Point.y (constrainPopoverPosition (N := Ideal.number)
                            container pos)).
Proof.
  split.
  - destruct container as [c |]; [| reflexivity].
    unfold constrainPopoverPosition; ideal; cbn [Point.x Point.y].
    f_equal; ideal_cases; lra.
  - intros c ->; unfold constrainPopoverPosition; ideal; cbn [Point.x Point.y].
    split; ideal_cases; lra.
Qed.

(** The fitted size lies within the container and fills its width or its
    height. *)
Lemma displaySize_fits (containerWidth containerHeight imgWidth imgHeight : R) :
  0 < containerWidth -> 0 < containerHeight -> 0 < imgWidth -> 0 < imgHeight ->
  let size := displaySize (N := Ideal.number)
                containerWidth containerHeight imgWidth imgHeight in
  0 < fst size <= containerWidth
  /\ 0 < snd size <= containerHeight
  /\ (fst size = containerWidth \/ snd size = containerHeight).
Proof.
  intros Hcw Hch Hiw Hih; cbv zeta; unfold displaySize; ideal.
  assert (Ha : 0 < imgWidth / imgHeight) by (apply Rdiv_lt_0_compat; lra).
  assert (Hc : containerWidth = containerWidth / containerHeight * containerHeight)
    by (field; lra).
  destruct (Ideal.ltb (containerWidth / containerHeight) (imgWidth / imgHeight))
    eqn:Hlt; cbn [fst snd].
  - apply ideal_ltb_true in Hlt.
    assert (He : containerWidth / (imgWidth / imgHeight) * (imgWidth / imgHeight)
                 = containerWidth) by (field; lra).
    set (dh := containerWidth / (imgWidth / imgHeight)) in *.
    assert (Hdh : 0 < dh) by (apply Rdiv_lt_0_compat; lra).
    set (a := imgWidth / imgHeight) in *.
    set (c := containerWidth / containerHeight) in *.
    split; [split; lra |]; split; [split; [lra | nra] | left; reflexivity].
  - apply ideal_ltb_false in Hlt.
    set (a := imgWidth / imgHeight) in *.
    set (c := containerWidth / containerHeight) in *.
    split; [split; nra |]; split; [split; lra | right; reflexivity].
Qed.

(** X14. Over the reals the size the canvas is shown at is a contain fit:
    for an image and a container of positive sizes it lies within the
    container, equals the container's width or its height, and has the
    image's aspect ratio; it fills the width exactly when the image is
    relatively wider than the container. *)
Theorem displaySize_contain
        (containerWidth containerHeight imgWidth imgHeight : R) :
  0 < containerWidth -> 0 < containerHeight -> 0 < imgWidth -> 0 < imgHeight ->
  let size := displaySize (N := Ideal.number)
                containerWidth containerHeight imgWidth imgHeight in
  0 < fst size <= containerWidth
  /\ 0 < snd size <= containerHeight
  /\ (fst size = containerWidth \/ snd size = containerHeight)
  /\ fst size * imgHeight = snd size * imgWidth
  /\ (containerWidth * imgHeight < imgWidth * containerHeight ->
      fst size = containerWidth)
  /\ (imgWidth * containerHeight <= containerWidth * imgHeight ->
      snd size = containerHeight).
Proof.
  intros Hcw Hch Hiw Hih; cbv zeta; unfold displaySize; ideal.
  assert (Ha : 0 < imgWidth / imgHeight) by (apply Rdiv_lt_0_compat; lra).
  assert (Hc : containerWidth = containerWidth / containerHeight * containerHeight)
    by (field; lra).
  assert (Hi : imgWidth = imgWidth / imgHeight * imgHeight) by (field; lra).
  destruct (Ideal.ltb (containerWidth / containerHeight) (imgWidth / imgHeight))
    eqn:Hlt; cbn [fst snd].
  - apply ideal_ltb_true in Hlt.
    assert (He : containerWidth / (imgWidth / imgHeight) * (imgWidth / imgHeight)
                 = containerWidth) by (field; lra).
    set (dh := containerWidth / (imgWidth / imgHeight)) in *.
    assert (Hdh : 0 < dh) by (apply Rdiv_lt_0_compat; lra).
    set (a := imgWidth / imgHeight) in *.
    set (c := containerWidth / containerHeight) in *.
    split; [split; lra |]; split; [split; [lra | nra] |].
    split; [left; reflexivity |]; split; [nra |].
    split; [reflexivity | intros H; exfalso].
    rewrite Hi, Hc in H.
    assert (0 < (a - c) * (imgHeight * containerHeight))
      by (apply Rmult_lt_0_compat; [lra | apply Rmult_lt_0_compat; lra]).
    lra.
  - apply ideal_ltb_false in Hlt.
    set (a := imgWidth / imgHeight) in *.
    set (c := containerWidth / containerHeight) in *.
    split; [split; nra |]; split; [split; lra |].
    split; [right; reflexivity |]; split; [nra |].
    split; [intros H; exfalso | reflexivity].
    rewrite Hi, Hc in H.
    assert (0 <= (c - a) * (imgHeight * containerHeight))
      by (apply Rmult_le_pos; [lra | apply Rmult_le_pos; lra]).
    lra.
Qed.

(** X15. Over the reals, with the canvas styled at the fitted size in the
    container it was fitted to, the pan bounds are zero at every scale up to
    1, and above 1 at least one axis can be panned. *)
Theorem fitted_canvas_bounds
        (containerWidth containerHeight imgWidth imgHeight scale : R) :
  0 < containerWidth -> 0 < containerHeight -> 0 < imgWidth -> 0 < imgHeight ->
  let size := displaySize (N := Ideal.number)
                containerWidth containerHeight imgWidth imgHeight in
  let b := getBounds (N := Ideal.number)
             (Some (Layout.mk containerWidth containerHeight
                              (Some (fst size)) (Some (snd size))
                              imgWidth imgHeight)) scale in
  (scale <= 1 ->
   Bounds.minX b = 0 /\ Bounds.maxX b = 0
   /\ Bounds.minY b = 0 /\ Bounds.maxY b = 0)
  /\ (1 < scale -> 0 < Bounds.maxX b \/ 0 < Bounds.maxY b).
Proof.
  intros Hcw Hch Hiw Hih.
  pose proof (displaySize_fits containerWidth containerHeight imgWidth
                imgHeight Hcw Hch Hiw Hih) as (Hw & Hh & Hside).
  cbv zeta in *.
  revert Hw Hh Hside.
  generalize (displaySize (N := Ideal.number)
                containerWidth containerHeight imgWidth imgHeight).
  intros [dw dh]; cbn [fst snd]; intros Hw Hh Hside.
  unfold getBounds; ideal;
    cbn [Layout.styleWidth Layout.styleHeight Layout.containerWidth
         Layout.containerHeight Bounds.maxX Bounds.maxY Bounds.minX Bounds.minY].
  split.
  - intros Hs.
    assert (Hx : Rmax 0 ((dw * scale - containerWidth) / 2) = 0).
    { apply Rmax_left.
      assert (dw * scale <= dw * 1) by (apply Rmult_le_compat_l; lra). lra. }
    assert (Hy : Rmax 0 ((dh * scale - containerHeight) / 2) = 0).
    { apply Rmax_left.
      assert (dh * scale <= dh * 1) by (apply Rmult_le_compat_l; lra). lra. }
    rewrite Hx, Hy; repeat split; lra.
  - intros Hs; destruct Hside as [-> | ->]; [left | right].
    + assert (containerWidth * 1 < containerWidth * scale)
        by (apply Rmult_lt_compat_l; lra).
      apply Rlt_le_trans with ((containerWidth * scale - containerWidth) / 2);
        [lra | apply Rmax_r].
    + assert (containerHeight * 1 < containerHeight * scale)
        by (apply Rmult_lt_compat_l; lra).
      apply Rlt_le_trans with ((containerHeight * scale - containerHeight) / 2);
        [lra | apply Rmax_r].
Qed.

(** X16. Over the reals, while an annotation is selected every other
    annotation is drawn at opacity 0.08 and the selected one at an opacity
    between 0.2 and 1 (its brush opacity not negative), so always the more
    opaque. *)
Theorem selected_highlight_stands_out (id : string) (a b : Annotation.t R) :
  id <> EmptyString ->
  Annotation.id a = id -> Annotation.id b <> id ->
  (forall h, Annotation.highlight a = brush h -> 0 <= BrushHighlight.opacity h) ->
  highlightOpacity (N := Ideal.number) (Some id) b = 8 / 100
  /\ 2 / 10 <= highlightOpacity (N := Ideal.number) (Some id) a <= 1
  /\ highlightOpacity (N := Ideal.number) (Some id) b
     < highlightOpacity (N := Ideal.number) (Some id) a.
Proof.
  intros Hid Ha Hb Hop.
  assert (Hb' : highlightOpacity (N := Ideal.number) (Some id) b = 8 / 100).
  { unfold highlightOpacity.
    destruct (String.eqb_spec id (Annotation.id b)) as [He | He];
      [symmetry in He; contradiction |].
    rewrite (truthy_nonempty id Hid); reflexivity. }
  assert (Ha' : 2 / 10 <= highlightOpacity (N := Ideal.number) (Some id) a <= 1).
  { unfold highlightOpacity.
    rewrite Ha, String.eqb_refl, andb_false_r.
    destruct (Annotation.highlight a) as [r | h] eqn:Hh; ideal; [lra |].
    specialize (Hop h eq_refl).
    unfold Rmin; destruct (Rle_dec _ _); lra. }
  split; [exact Hb' |]; split; [exact Ha' |]; rewrite Hb'; lra.
Qed.

End IdealLayout.

Section DrawnAndFound.
Context {num : Type} {N : JSNumber num}.

(** X17. What can be clicked is what is drawn: an annotation the hit test
    finds is among the highlights drawn when highlights are shown, which are
    the non-completed ones, one draw each; with highlights hidden none is
    drawn. *)
Theorem found_annotation_is_drawn (annotations : list (Annotation.t num))
        (selectedAnnotationId : option string) (p : Point.t num) :
  (forall a,
     findAnnotationAtPoint annotations p = Some a ->
     In (Annotation.highlight a, highlightOpacity selectedAnnotationId a)
        (savedHighlights true annotations selectedAnnotationId))
  /\ List.length (savedHighlights true annotations selectedAnnotationId)
     = List.length (activeAnnotations annotations)
  /\ savedHighlights false annotations selectedAnnotationId = [].
Proof.
  split; [| split; [apply length_map | reflexivity]].
  intros a Ha; apply findAnnotationAtPoint_Some in Ha.
  destruct Ha as (before & after & -> & Hc & _).
  unfold savedHighlights; apply in_map_iff; exists a; split; [reflexivity |].
  apply filter_In; split; [apply in_or_app; right; left; reflexivity |].
  rewrite Hc; reflexivity.
Qed.

End DrawnAndFound.

(* ================================================================== *)
(** * Shortcuts, the popover drag and the dragged rectangle *)

Section IdealEditor.
Local Open Scope R_scope.

Lemma handleKeyDown_brushSize (onField : bool) (key : string)
      (st : Editor.t R * bool) :
  5 <= Editor.brushSize (fst st) <= 100 ->
  5 <= Editor.brushSize (fst (handleKeyDown (N := Ideal.number) onField key st))
  <= 100.
Proof.
  destruct st as [s v]; cbn [fst]; intros H; unfold handleKeyDown.
  destruct onField; [exact H |].
  destruct (String.eqb key "[" ), (String.eqb key "]");
    destruct (String.eqb key "b" || String.eqb key "B");
    destruct (String.eqb key "s" || String.eqb key "S");
    destruct (Tool.eqb (Editor.activeTool s) Tool.brush);
    cbn [fst setTools Editor.brushSize]; ideal;
    unfold Rmax, Rmin;
    repeat match goal with |- context [Rle_dec ?a ?b] => destruct (Rle_dec a b) end;
    lra.
Qed.

(** X18. Over the reals the keyboard shortcuts keep the brush size within
    the slider's range: from a size in [5, 100] no sequence of key presses
    leads out of it, and none changes the store. *)
Theorem brushSize_shortcuts_in_range (keys : list string) (st : Editor.t R * bool) :
  5 <= Editor.brushSize (fst st) <= 100 ->
  5 <= Editor.brushSize (fst (pressKeys keys st)) <= 100
  /\ Editor.annotations (fst (pressKeys keys st)) = Editor.annotations (fst st).
Proof.
  revert st; induction keys as [| key keys IH]; intros st H;
    [split; [exact H | reflexivity] |].
  unfold pressKeys in *; cbn [fold_left].
  destruct (IH (handleKeyDown (N := Ideal.number) false key st)
               (handleKeyDown_brushSize false key st H)) as [IH1 IH2].
  split; [exact IH1 |]; rewrite IH2.
  destruct st as [s v]; unfold handleKeyDown.
  destruct (String.eqb key "b" || String.eqb key "B");
    destruct (String.eqb key "s" || String.eqb key "S");
    destruct (Tool.eqb (Editor.activeTool s) Tool.brush); reflexivity.
Qed.

(** X19. Over the reals, dragging the popover from pointer [e0] to pointer
    [e1] places it at its old position moved by the pointer's displacement
    and by minus the container's left and top, then constrained; the store
    and the staged strokes are untouched, and after the mouse is released a
    move does nothing. *)
Theorem popover_drag (containerRect : DOMRect.t R) (e0 e1 : MouseEvent.t R)
        (s : Editor.t R) (p : Popover.t R) (pos : Point.t R) :
  Editor.inputPosition s = Some pos ->
  let p' := handlePopoverMouseDown (N := Ideal.number) false e0 s p in
  let s' :=
    handlePopoverMouseMove (N := Ideal.number) (Some containerRect) e1 p' s in
  Editor.inputPosition s'
  = Some (constrainPopoverPosition (N := Ideal.number) (Some containerRect)
            (Point.mk (Point.x pos + (MouseEvent.clientX e1 - MouseEvent.clientX e0)
                       - DOMRect.left containerRect)
                      (Point.y pos + (MouseEvent.clientY e1 - MouseEvent.clientY e0)
                       - DOMRect.top containerRect)))
  /\ Editor.annotations s' = Editor.annotations s
  /\ Editor.pendingStrokes s' = Editor.pendingStrokes s
  /\ handlePopoverMouseMove (N := Ideal.number) (Some containerRect) e1
       (handlePopoverMouseUp p') s = s.
Proof.
  intros Hpos; cbv zeta.
  unfold handlePopoverMouseDown, handlePopoverMouseMove; rewrite Hpos.
  cbn [Popover.isDraggingPopover Popover.popoverDragOffset setInputPosition
       Editor.inputPosition Editor.annotations Editor.pendingStrokes
       handlePopoverMouseUp Point.x Point.y]; ideal.
  repeat split.
  do 2 f_equal; f_equal; lra.
Qed.

End IdealEditor.

(* ================================================================== *)
(** * Uploading an image *)

Section UploadProperties.
Context {num : Type} {N : JSNumber num}.

(** X21. An upload is accepted exactly when a file is chosen, its type
    starts with [image/] and its size is at most 52428800 bytes; a rejected
    upload leaves the state as it is; an accepted one empties the store and
    keeps what is staged. *)
Theorem handleFileUpload_validates (file : option File.t) (s : Editor.t num) :
  (forall f, snd (handleFileUpload file s) = LoadImage f <->
             file = Some f
             /\ String.prefix "image/" (File.type f) = true
             /\ (File.size f <= 52428800)%Z)
  /\ ((forall f, snd (handleFileUpload file s) = LoadImage f -> False) ->
      fst (handleFileUpload file s) = s)
  /\ (forall f, snd (handleFileUpload file s) = LoadImage f ->
      Editor.annotations (fst (handleFileUpload file s)) = []
      /\ Editor.pendingStrokes (fst (handleFileUpload file s))
         = Editor.pendingStrokes s
      /\ Editor.pendingHighlight (fst (handleFileUpload file s))
         = Editor.pendingHighlight s).
Proof.
  unfold handleFileUpload.
  destruct file as [f0 |].
  - destruct (String.prefix "image/" (File.type f0)) eqn:Hp; cbn [negb].
    + destruct (File.size f0 >? MAX_FILE_SIZE)%Z eqn:Hs; cbn [fst snd].
      * apply Z.gtb_lt in Hs; unfold MAX_FILE_SIZE in Hs.
        repeat split; try discriminate.
        intros (Hf & _ & Hle); inversion Hf; subst; lia.
      * assert (Hle : (File.size f0 <= 52428800)%Z).
        { destruct (Z.gtb_spec (File.size f0) MAX_FILE_SIZE) as [Hgt | Hle];
            [discriminate | exact Hle]. }
        split; [| split].
        -- intros f; split.
           ++ intros H; inversion H; subst; auto.
           ++ intros (Hf & _); inversion Hf; reflexivity.
        -- intros H; exfalso; apply (H f0); reflexivity.
        -- intros f _; repeat split.
    + cbn [fst snd]; repeat split; try discriminate.
      intros (Hf & Hpf & _); inversion Hf; subst; congruence.
  - cbn [fst snd]; repeat split; try discriminate.
    intros (Hf & _); discriminate.
Qed.

End UploadProperties.

(* ================================================================== *)
(** * The chat of the selected annotation *)

Section ChatProperties.
Context {num : Type} {N : JSNumber num}.
Local Open Scope num_scope.

Lemma selectedAnnotation_Some (annotations : list (Annotation.t num))
      (selectedId : option string) (a : Annotation.t num) :
  selectedAnnotation annotations selectedId = Some a ->
  In a annotations /\ selectedId = Some (Annotation.id a)
  /\ Annotation.completed a = false.
Proof.
  unfold selectedAnnotation; intros H.
  apply find_some in H; destruct H as [Hin Hp].
  apply andb_prop in Hp; destruct Hp as [Hid Hc].
  destruct selectedId as [id |]; [| discriminate].
  apply String.eqb_eq in Hid; subst id.
  apply negb_true_iff in Hc; auto.
Qed.

Lemma selectedAnnotation_None (annotations : list (Annotation.t num)) :
  selectedAnnotation annotations None = None.
Proof. unfold selectedAnnotation; apply find_none_iff; reflexivity. Qed.

Lemma selectedAnnotation_markComplete (id : string)
      (annotations : list (Annotation.t num)) :
  selectedAnnotation (markComplete id annotations) (Some id) = None.
Proof.
  unfold selectedAnnotation; apply find_none_iff.
  intros a Hin; unfold markComplete in Hin; apply in_map_iff in Hin.
  destruct Hin as (a0 & Ha & _); subst a.
  destruct (String.eqb (Annotation.id a0) id) eqn:He; cbn;
    rewrite He; reflexivity.
Qed.

Lemma chatPositionEffect_custom (dom : option (ChatLayout.t num))
      (annotations : list (Annotation.t num)) (c : Chat.t num)
      (a : Annotation.t num) (position : Point.t (Ext.t num)) :
  selectedAnnotation annotations (Chat.selectedId c) = Some a ->
  chatPositionEffect dom annotations
    (handleChatPositionChange (Annotation.id a) position c)
  = Some (Chat.Position position).
Proof.
  intros Hsel;
    unfold chatPositionEffect, readChatPosition, handleChatPositionChange;
    cbn [Chat.selectedId Chat.customChatPositions].
  rewrite Hsel, String.eqb_refl; reflexivity.
Qed.

(** X22. The chat belongs to a non-completed annotation of the store whose
    id is the selected one; once an annotation is marked complete no chat
    position is set for it, were it still selected and whatever position
    was stored for it, and the handler deselects it. *)
Theorem completed_annotation_has_no_chat (dom : option (ChatLayout.t num))
        (id : string) (s : Editor.t num) (c : Chat.t num) :
  (forall a,
     selectedAnnotation (Editor.annotations s) (Chat.selectedId c) = Some a ->
     In a (Editor.annotations s)
     /\ Chat.selectedId c = Some (Annotation.id a)
     /\ Annotation.completed a = false)
  /\ chatPositionEffect dom (Editor.annotations (handleMarkComplete id s))
       (Chat.mk (Some id) (Chat.chatPosition c) (Chat.customChatPositions c))
     = None
  /\ (Editor.selectedAnnotationId s = Some id ->
      Editor.selectedAnnotationId (handleMarkComplete id s) = None).
Proof.
  split; [intros a; apply selectedAnnotation_Some |]; split.
  - unfold chatPositionEffect;
      cbn [Chat.selectedId handleMarkComplete withStore Editor.annotations].
    rewrite selectedAnnotation_markComplete; reflexivity.
  - intros H; cbn; rewrite H, String.eqb_refl; reflexivity.
Qed.

(** X23. A position stored for the selected annotation takes precedence
    over the computed one, whatever the layout; Reset deletes it and
    deselects, the effect then hides the chat, and once the annotation is
    selected again the chat is at the position computed from its highlight
    (it stays hidden when the canvas is missing), unless the annotation's
    id names a property of [Object.prototype]: the effect then sets the
    inherited value as the position. *)
Theorem custom_chat_position (dom : option (ChatLayout.t num))
        (annotations : list (Annotation.t num)) (c : Chat.t num)
        (a : Annotation.t num) (position : Point.t (Ext.t num)) :
  selectedAnnotation annotations (Chat.selectedId c) = Some a ->
  let moved := handleChatPositionChange (Annotation.id a) position c in
  let reset :=
    runChatPositionEffect dom annotations
      (handleResetChatPosition (Annotation.id a) moved) in
  chatPositionEffect dom annotations moved = Some (Chat.Position position)
  /\ Chat.chatPosition reset = None
  /\ chatPositionEffect dom annotations (reselect (Annotation.id a) reset)
     = if inheritedKey (Annotation.id a)
       then Some (Chat.Inherited (Annotation.id a))
       else option_map
              (fun d =>
                 Chat.Position (initialChatPosition d (Annotation.highlight a)))
              dom.
Proof.
  intros Hsel; cbv zeta.
  pose proof (selectedAnnotation_Some _ _ _ Hsel) as (_ & Hid & _).
  split; [| split].
  - apply chatPositionEffect_custom; exact Hsel.
  - unfold runChatPositionEffect, chatPositionEffect, handleResetChatPosition;
      cbn [Chat.selectedId Chat.chatPosition].
    rewrite selectedAnnotation_None; reflexivity.
  - unfold runChatPositionEffect, chatPositionEffect, readChatPosition,
      handleChatPositionChange, handleResetChatPosition, reselect;
      cbn [Chat.selectedId Chat.customChatPositions Chat.chatPosition].
    rewrite selectedAnnotation_None, <- Hid, Hsel, String.eqb_refl.
    destruct (inheritedKey (Annotation.id a)); [reflexivity |].
    destruct dom; reflexivity.
Qed.

End ChatProperties.

Section IdealChat.
Local Open Scope R_scope.

Lemma boundingBox_snoc (l : list (Point.t R * R)) (p : Point.t R) (h : R)
      (minX maxX minY maxY : R) :
  boundingBox l minX maxX minY maxY ->
  boundingBox (l ++ [(p, h)])
    (Rmin minX (Point.x p - h)) (Rmax maxX (Point.x p + h))
    (Rmin minY (Point.y p - h)) (Rmax maxY (Point.y p + h)).
Proof.
  intros (Hall & Hx0 & Hx1 & Hy0 & Hy1).
  assert (Hmin : forall a b, Rmin a b <= a /\ Rmin a b <= b)
    by (intros; split; [apply Rmin_l | apply Rmin_r]).
  assert (Hmax : forall a b, a <= Rmax a b /\ b <= Rmax a b)
    by (intros; split; [apply Rmax_l | apply Rmax_r]).
  assert (Hpick : forall (f : Point.t R -> R -> R) (m : R) (op : R -> R -> R),
            (forall a b, op a b = a \/ op a b = b) ->
            (exists q k, In (q, k) l /\ m = f q k) ->
            exists q k, In (q, k) (l ++ [(p, h)]) /\ op m (f p h) = f q k).
  { intros f m op Hop (q & k & Hin & Hm).
    destruct (Hop m (f p h)) as [He | He]; rewrite He.
    - exists q, k; split; [apply in_or_app; left; exact Hin | exact Hm].
    - exists p, h; split; [apply in_or_app; right; left; reflexivity | reflexivity]. }
  assert (Hrmin : forall a b, Rmin a b = a \/ Rmin a b = b).
  { intros a b; unfold Rmin; destruct (Rle_dec a b); auto. }
  assert (Hrmax : forall a b, Rmax a b = a \/ Rmax a b = b).
  { intros a b; unfold Rmax; destruct (Rle_dec a b); auto. }
  split; [| split; [| split; [| split]]].
  - intros q k Hin; apply in_app_or in Hin.
    pose proof (Hmin minX (Point.x p - h)); pose proof (Hmin minY (Point.y p - h)).
    pose proof (Hmax maxX (Point.x p + h)); pose proof (Hmax maxY (Point.y p + h)).
    destruct Hin as [Hin | [Hin | []]].
    + specialize (Hall q k Hin); lra.
    + inversion Hin; subst; lra.
  - apply (Hpick (fun q k => Point.x q - k) minX Rmin Hrmin Hx0).
  - apply (Hpick (fun q k => Point.x q + k) maxX Rmax Hrmax Hx1).
  - apply (Hpick (fun q k => Point.y q - k) minY Rmin Hrmin Hy0).
  - apply (Hpick (fun q k => Point.y q + k) maxY Rmax Hrmax Hy1).
Qed.

(** One turn of the loop over the points. *)
Lemma growBox_boxOf (l : list (Point.t R * R)) (box : Box.t R)
      (p : Point.t R) (h : R) :
  boxOf l box -> boxOf (l ++ [(p, h)]) (growBox (N := Ideal.number) h box p).
Proof.
  destruct l as [| s l].
  - cbn [boxOf app]; intros ->.
    exists (Point.x p - h), (Point.x p + h), (Point.y p - h), (Point.y p + h).
    split; [reflexivity |].
    split; [| repeat split; exists p, h; split; try reflexivity; left; reflexivity].
    intros q k [Hin | []]; inversion Hin; subst; lra.
  - intros (minX & maxX & minY & maxY & -> & Hbb).
    change ((s :: l) ++ [(p, h)]) with (s :: (l ++ [(p, h)])); cbn [boxOf].
    exists (Rmin minX (Point.x p - h)), (Rmax maxX (Point.x p + h)),
           (Rmin minY (Point.y p - h)), (Rmax maxY (Point.y p + h)).
    split; [| apply (boundingBox_snoc (s :: l)); exact Hbb].
    unfold growBox; cbn [Box.minX Box.maxX Box.minY Box.maxY Ext.below Ext.above];
      ideal.
    unfold Rmin, Rmax.
    repeat match goal with |- context [Rle_dec ?a ?b] => destruct (Rle_dec a b) end;
      ideal_cases; try reflexivity; try lra;
      repeat f_equal; lra.
Qed.

Lemma strokeBox_boxOf (stroke : BrushStroke.t R) (l : list (Point.t R * R))
      (box : Box.t R) :
  boxOf l box ->
  boxOf (l ++ map (fun p => (p, BrushStroke.brushSize stroke / 2))
                  (BrushStroke.points stroke))
        (strokeBox (N := Ideal.number) box stroke).
Proof.
  unfold strokeBox; ideal.
  revert l box; induction (BrushStroke.points stroke) as [| p ps IH];
    intros l box H; cbn [fold_left map].
  - rewrite app_nil_r; exact H.
  - change ((p, BrushStroke.brushSize stroke / 2)
              :: map (fun p0 : Point.t R => (p0, BrushStroke.brushSize stroke / 2)) ps)
      with ([(p, BrushStroke.brushSize stroke / 2)]
              ++ map (fun p0 : Point.t R => (p0, BrushStroke.brushSize stroke / 2)) ps).
    rewrite app_assoc; apply IH, growBox_boxOf, H.
Qed.

Lemma strokes_boxOf (strokes : list (BrushStroke.t R)) (l : list (Point.t R * R))
      (box : Box.t R) :
  boxOf l box ->
  boxOf (l ++ inflatedPoints strokes)
        (fold_left (strokeBox (N := Ideal.number)) strokes box).
Proof.
  revert l box; induction strokes as [| stroke strokes IH]; intros l box H.
  - cbn; rewrite app_nil_r; exact H.
  - cbn [fold_left].
    unfold inflatedPoints; cbn [flat_map]; fold (inflatedPoints strokes).
    rewrite app_assoc; apply IH, strokeBox_boxOf, H.
Qed.

Lemma highlightBox_boxOf (b : BrushHighlight.t R) :
  boxOf (inflatedPoints (BrushHighlight.strokes b))
        (highlightBox (N := Ideal.number) (brush b)).
Proof.
  apply (strokes_boxOf (BrushHighlight.strokes b) []); reflexivity.
Qed.

(** The box of a highlight is untouched or finite on every side. *)
Lemma highlightBox_shape (h : Highlight R) :
  highlightBox (N := Ideal.number) h
  = Box.mk Ext.PosInfinity Ext.NegInfinity Ext.PosInfinity Ext.NegInfinity
  \/ exists minX maxX minY maxY,
       highlightBox (N := Ideal.number) h
       = Box.mk (Ext.Finite minX) (Ext.Finite maxX)
                (Ext.Finite minY) (Ext.Finite maxY).
Proof.
  destruct h as [r | b].
  - right; cbn; eauto.
  - pose proof (highlightBox_boxOf b) as H.
    destruct (inflatedPoints (BrushHighlight.strokes b)); cbn [boxOf] in H.
    + left; exact H.
    + right; destruct H as (minX & maxX & minY & maxY & H & _); eauto.
Qed.

(** X24. Over the reals the box the position effect computes for a brush
    highlight that has a point is finite and is the bounding box of its
    strokes: every point of every stroke lies within it with half the
    stroke's size to spare on each side, and each side of the box is met by
    such a point. *)
Theorem highlightBox_encloses (b : BrushHighlight.t R) (stroke : BrushStroke.t R)
        (p : Point.t R) :
  In stroke (BrushHighlight.strokes b) -> In p (BrushStroke.points stroke) ->
  exists minX maxX minY maxY,
    highlightBox (N := Ideal.number) (brush b)
    = Box.mk (Ext.Finite minX) (Ext.Finite maxX) (Ext.Finite minY) (Ext.Finite maxY)
    /\ (forall stroke' q,
          In stroke' (BrushHighlight.strokes b) ->
          In q (BrushStroke.points stroke') ->
          minX <= Point.x q - BrushStroke.brushSize stroke' / 2
          /\ Point.x q + BrushStroke.brushSize stroke' / 2 <= maxX
          /\ minY <= Point.y q - BrushStroke.brushSize stroke' / 2
          /\ Point.y q + BrushStroke.brushSize stroke' / 2 <= maxY)
    /\ (exists stroke' q,
          In stroke' (BrushHighlight.strokes b)
          /\ In q (BrushStroke.points stroke')
          /\ minX = Point.x q - BrushStroke.brushSize stroke' / 2)
    /\ (exists stroke' q,
          In stroke' (BrushHighlight.strokes b)
          /\ In q (BrushStroke.points stroke')
          /\ maxX = Point.x q + BrushStroke.brushSize stroke' / 2)
    /\ (exists stroke' q,
          In stroke' (BrushHighlight.strokes b)
          /\ In q (BrushStroke.points stroke')
          /\ minY = Point.y q - BrushStroke.brushSize stroke' / 2)
    /\ (exists stroke' q,
          In stroke' (BrushHighlight.strokes b)
          /\ In q (BrushStroke.points stroke')
          /\ maxY = Point.y q + BrushStroke.brushSize stroke' / 2).
Proof.
  intros Hs Hp.
  assert (Hin : forall stroke' q,
            In stroke' (BrushHighlight.strokes b) ->
            In q (BrushStroke.points stroke') ->
            In (q, BrushStroke.brushSize stroke' / 2)
               (inflatedPoints (BrushHighlight.strokes b))).
  { intros stroke' q Hs' Hq; unfold inflatedPoints; apply in_flat_map.
    exists stroke'; split; [exact Hs' |].
    apply in_map_iff; exists q; auto. }
  assert (Hout : forall q h,
            In (q, h) (inflatedPoints (BrushHighlight.strokes b)) ->
            exists stroke',
              In stroke' (BrushHighlight.strokes b)
              /\ In q (BrushStroke.points stroke')
              /\ h = BrushStroke.brushSize stroke' / 2).
  { intros q h H; unfold inflatedPoints in H; apply in_flat_map in H.
    destruct H as (stroke' & Hs' & Hq); apply in_map_iff in Hq.
    destruct Hq as (q' & He & Hq'); inversion He; subst.
    exists stroke'; auto. }
  pose proof (highlightBox_boxOf b) as Hbox.
  pose proof (Hin stroke p Hs Hp) as Hne.
  destruct (inflatedPoints (BrushHighlight.strokes b)) as [| s l] eqn:Hl;
    [destruct Hne |].
  destruct Hbox as (minX & maxX & minY & maxY & Heq & Hall & Hx0 & Hx1 & Hy0 & Hy1).
  exists minX, maxX, minY, maxY; split; [exact Heq |].
  assert (Hback : forall (f : Point.t R -> R -> R) (m : R),
            (exists q h, In (q, h) (s :: l) /\ m = f q h) ->
            exists stroke' q,
              In stroke' (BrushHighlight.strokes b)
              /\ In q (BrushStroke.points stroke')
              /\ m = f q (BrushStroke.brushSize stroke' / 2)).
  { intros f m (q & h & Hqh & Hm).
    destruct (Hout q h Hqh) as (stroke' & Hs' & Hq & Hh); subst h.
    exists stroke', q; auto. }
  split; [intros stroke' q Hs' Hq; apply Hall, Hin; assumption |].
  split; [apply (Hback (fun q h => Point.x q - h)); exact Hx0 |].
  split; [apply (Hback (fun q h => Point.x q + h)); exact Hx1 |].
  split; [apply (Hback (fun q h => Point.y q - h)); exact Hy0 |].
  apply (Hback (fun q h => Point.y q + h)); exact Hy1.
Qed.

(** X25. Over the reals, with the canvas shown and its bitmap not empty,
    the computed chat position is a pair of numbers for every highlight, a
    brush highlight without points included, with [x >= 20] and [y] between
    20 and the larger of 20 and the container's height less 300. *)
Theorem chat_position_in_view (dom : ChatLayout.t R) (h : Highlight R) :
  canvasShown dom ->
  exists x y,
    initialChatPosition (N := Ideal.number) dom h
    = Point.mk (Ext.Finite x) (Ext.Finite y)
    /\ 20 <= x
    /\ 20 <= y <= Rmax 20 (DOMRect.height (ChatLayout.containerRect dom) - 300).
Proof.
  intros (Hw & Hh & Hcw & Hch).
  assert (Hsx : 0 < DOMRect.width (Canvas.rect (ChatLayout.canvas dom))
                    / Canvas.width (ChatLayout.canvas dom))
    by (apply Rdiv_lt_0_compat; assumption).
  assert (Hsy : 0 < DOMRect.height (Canvas.rect (ChatLayout.canvas dom))
                    / Canvas.height (ChatLayout.canvas dom))
    by (apply Rdiv_lt_0_compat; assumption).
  unfold initialChatPosition; ideal.
  set (scaleX := DOMRect.width (Canvas.rect (ChatLayout.canvas dom))
                 / Canvas.width (ChatLayout.canvas dom)) in *.
  set (scaleY := DOMRect.height (Canvas.rect (ChatLayout.canvas dom))
                 / Canvas.height (ChatLayout.canvas dom)) in *.
  assert (Hy : forall v H, 20 <= Rmax 20 (Rmin v (H - 300)) <= Rmax 20 (H - 300)).
  { intros v H; unfold Rmax, Rmin;
      repeat match goal with |- context [Rle_dec ?a ?b] => destruct (Rle_dec a b) end;
      lra. }
  destruct (highlightBox_shape h) as [-> | (minX & maxX & minY & maxY & ->)];
    cbn [Box.minX Box.maxX Box.minY Ext.mul Ext.add Ext.sub Ext.gtb Ext.ltb
         Ext.min Ext.max]; ideal.
  - assert (H1 : Ideal.ltb 0 scaleX = true) by (apply ideal_ltb_true; exact Hsx).
    assert (H2 : Ideal.ltb 0 scaleY = true) by (apply ideal_ltb_true; exact Hsy).
    rewrite H1, H2;
      cbn [Ext.mul Ext.add Ext.sub Ext.gtb Ext.ltb Ext.min Ext.max]; ideal.
    eexists _, _; split; [reflexivity |]; split; [lra |].
    split; [apply Rmax_l | lra].
  - destruct (Ideal.ltb _ _) eqn:Hflip;
      cbn [Ext.mul Ext.add Ext.sub Ext.gtb Ext.ltb Ext.min Ext.max]; ideal;
      destruct (Ideal.ltb _ 20) eqn:Hleft;
      eexists _, _; (split; [reflexivity |]); (split; [| apply Hy]);
      try lra; apply ideal_ltb_false in Hleft; lra.
Qed.

(** X26. Over the reals, for a highlight whose box is finite the chat is
    placed 20 px to the right of the highlight's right side when its 320 px
    then fit in the container's width, otherwise 20 px to the left of the
    highlight's left side, and in either case at [x = 20] when that would be
    further left. *)
Theorem chat_beside_highlight (dom : ChatLayout.t R) (h : Highlight R)
        (minX maxX minY maxY : R) :
  highlightBox (N := Ideal.number) h
  = Box.mk (Ext.Finite minX) (Ext.Finite maxX) (Ext.Finite minY) (Ext.Finite maxY) ->
  let canvas := ChatLayout.canvas dom in
  let scaleX := DOMRect.width (Canvas.rect canvas) / Canvas.width canvas in
  let offsetX := DOMRect.left (Canvas.rect canvas)
                 - DOMRect.left (ChatLayout.containerRect dom) in
  let left := minX * scaleX + offsetX in
  let right := maxX * scaleX + offsetX in
  exists x y,
    initialChatPosition (N := Ideal.number) dom h
    = Point.mk (Ext.Finite x) (Ext.Finite y)
    /\ ((right + 20 + 320 <= DOMRect.width (ChatLayout.containerRect dom)
         /\ x = Rmax 20 (right + 20))
        \/ (DOMRect.width (ChatLayout.containerRect dom) < right + 20 + 320
            /\ x = Rmax 20 (left - 320 - 20))).
Proof.
  intros Hbox; cbv zeta; unfold initialChatPosition; rewrite Hbox; ideal.
  cbn [Box.minX Box.maxX Box.minY Ext.mul Ext.add Ext.sub Ext.gtb Ext.ltb
       Ext.min Ext.max]; ideal.
  destruct (Ideal.ltb _ _) eqn:Hflip;
    cbn [Ext.mul Ext.add Ext.sub Ext.gtb Ext.ltb Ext.min Ext.max]; ideal;
    destruct (Ideal.ltb _ 20) eqn:Hleft;
    eexists _, _; (split; [reflexivity |]);
    [apply ideal_ltb_true in Hflip, Hleft; right
    | apply ideal_ltb_true in Hflip; apply ideal_ltb_false in Hleft; right
    | apply ideal_ltb_false in Hflip; apply ideal_ltb_true in Hleft; left
    | apply ideal_ltb_false in Hflip, Hleft; left];
    (split; [lra |]); unfold Rmax; destruct (Rle_dec _ _); lra.
Qed.

(** X27. Over the reals, dragging the chat's header from pointer [e0] to
    pointer [e1] reports its position moved by exactly the pointer's
    displacement; the page stores it for the selected annotation and the
    chat is shown there; after the mouse is released a move reports
    nothing. *)
Theorem chat_drag (dom : option (ChatLayout.t R))
        (annotations : list (Annotation.t R)) (c : Chat.t R)
        (a : Annotation.t R) (w : AnnotationChat.t R)
        (x y : R) (e0 e1 : MouseEvent.t R) :
  selectedAnnotation annotations (Chat.selectedId c) = Some a ->
  let w' := AnnotationChat.handleMouseDown (N := Ideal.number) false
              (Point.mk (Ext.Finite x) (Ext.Finite y)) e0 w in
  let moved :=
    Point.mk (Ext.Finite (x + (MouseEvent.clientX e1 - MouseEvent.clientX e0)))
             (Ext.Finite (y + (MouseEvent.clientY e1 - MouseEvent.clientY e0))) in
  AnnotationChat.handleMouseMove (N := Ideal.number) e1 w' = Some moved
  /\ chatPositionEffect (N := Ideal.number) dom annotations
       (handleChatPositionChange (Annotation.id a) moved c)
     = Some (Chat.Position moved)
  /\ AnnotationChat.handleMouseMove (N := Ideal.number) e1
       (AnnotationChat.handleMouseUp w') = None.
Proof.
  intros Hsel; cbv zeta; split; [| split].
  - unfold AnnotationChat.handleMouseDown, AnnotationChat.handleMouseMove.
    cbn [AnnotationChat.isDragging AnnotationChat.dragOffset Point.x Point.y
         Ext.rsub]; ideal.
    do 2 f_equal; f_equal; lra.
  - apply chatPositionEffect_custom; exact Hsel.
  - reflexivity.
Qed.

End IdealChat.

Section ReplyInput.
Context {num : Type} {N : JSNumber num}.

Lemma trimStart_blank (s : string) :
  blank s = true -> trimStart s = EmptyString.
Proof.
  induction s as [| c s IH]; [reflexivity |]; cbn.
  destruct (isWhiteSpace c); [exact IH | discriminate].
Qed.

Lemma trimEnd_nonblank (c : ascii) (s : string) :
  isWhiteSpace c = false -> trimEnd (String c s) <> EmptyString.
Proof.
  intros Hc; cbn; destruct (trimEnd s); [rewrite Hc |]; discriminate.
Qed.

Lemma trimStart_nonblank (s : string) :
  blank s = false ->
  exists c rest, trimStart s = String c rest /\ isWhiteSpace c = false.
Proof.
  induction s as [| c s IH]; [discriminate |]; cbn.
  destruct (isWhiteSpace c) eqn:Hc; [exact IH |].
  intros _; exists c, s; auto.
Qed.

(** A trimmed text is empty exactly when the text was white space only. *)
Lemma trim_blank (s : string) : truthy (Some (trim s)) = negb (blank s).
Proof.
  unfold trim; destruct (blank s) eqn:Hb.
  - rewrite (trimStart_blank s Hb); reflexivity.
  - destruct (trimStart_nonblank s Hb) as (c & rest & -> & Hc).
    pose proof (trimEnd_nonblank c rest Hc) as Hne.
    destruct (trimEnd (String c rest)); [contradiction Hne |]; reflexivity.
Qed.

(** X28. A reply of white space only (the empty one included) is not sent:
    the store and the input are left as they are. Any other reply is
    appended to the annotation's replies with its text as typed, not
    trimmed, and the input is emptied. *)
Theorem blank_reply_not_sent (annotationId replyId : string) (now : num)
        (s : Editor.t num) (c : AnnotationChat.t num) :
  let st' := AnnotationChat.handleSendReply annotationId replyId now (s, c) in
  (blank (AnnotationChat.replyText c) = true -> st' = (s, c))
  /\ (blank (AnnotationChat.replyText c) = false ->
      Editor.annotations (fst st')
      = addReply annotationId
          (Reply.mk replyId (AnnotationChat.replyText c) now)
          (Editor.annotations s)
      /\ AnnotationChat.replyText (snd st') = EmptyString).
Proof.
  cbv zeta; unfold AnnotationChat.handleSendReply; rewrite trim_blank.
  destruct (blank (AnnotationChat.replyText c)); cbn [negb];
    split; intros H; try discriminate; [reflexivity |].
  split; reflexivity.
Qed.

End ReplyInput.

(* ================================================================== *)
(** * Mounting over unreadable data *)

Section MountProperties.
Context {A : Type} (json : JSON.codec A) (accepts : string -> bool).

(** X29. When the persisted text is neither empty nor the empty-list
    sentinel and does not parse to an array (it is malformed, or another
    JSON value), mounting the page loads nothing and writes nothing: the
    store is empty and the text stays as it was. *)
Theorem mount_keeps_unreadable_data (stored : string) :
  stored <> EmptyString -> stored <> "[]"%string ->
  (forall l, JSON.parse json stored <> Some (JSON.array l)) ->
  mount json accepts (Some stored) = Page.mk [] (Some stored)
  /\ load json accepts (Some stored) = [].
Proof.
  intros Hne Hsent Hparse.
  assert (Hload : loadEffect json (Some stored) = None).
  { unfold loadEffect, getItem; rewrite (truthy_nonempty _ Hne).
    destruct (JSON.parse json stored) as [[l |] |] eqn:Hp; try reflexivity.
    exfalso; apply (Hparse l); reflexivity. }
  unfold load, mount; rewrite Hload, (autoSaveEffect_skips json accepts stored Hne Hsent).
  split; reflexivity.
Qed.

End MountProperties.

(* ================================================================== *)
(** * The further theorems at sample inputs *)

Section Binary64Samples.
#[local] Existing Instance Binary64.number.
Local Open Scope Z_scope.

Lemma wheelZoom_binary64_witness :
  let f := Binary64.of_Z in
  let e := WheelEvent.mk (f 0) (f (-100)) true false in
  let t := Transform.mk (f 0) (f 0) (f 1) in
  PrimFloat.is_nan
    (PrimFloat.add (Transform.scale t)
       (PrimFloat.mul (PrimFloat.opp (WheelEvent.deltaY e))
          (PrimFloat.div (f 2) (f 1000)))) = false
  /\ PrimFloat.leb (PrimFloat.div (f 1) (f 2))
                   (Transform.scale (wheelZoom e t)) = true
  /\ PrimFloat.leb (Transform.scale (wheelZoom e t)) (f 5) = true.
Proof.
  cbv zeta.
  assert (Hv : PrimFloat.is_nan
                 (PrimFloat.add (Binary64.of_Z 1)
                    (PrimFloat.mul (PrimFloat.opp (Binary64.of_Z (-100)))
                       (PrimFloat.div (Binary64.of_Z 2) (Binary64.of_Z 1000))))
               = false)
    by (vm_compute; reflexivity).
  split; [exact Hv |].
  pose proof (wheelZoom_binary64
                (WheelEvent.mk (Binary64.of_Z 0) (Binary64.of_Z (-100)) true false)
                (Transform.mk (Binary64.of_Z 0) (Binary64.of_Z 0) (Binary64.of_Z 1))
                Hv) as (H1 & H2 & _).
  split; assumption.
Defined.

Lemma mount_keeps_unreadable_data_witness :
  "{}"%string <> EmptyString /\ "{}"%string <> "[]"%string
  /\ (forall l, JSON.parse MiniJSON.codec "{}" <> Some (JSON.array l))
  /\ mount MiniJSON.codec (fun _ => true) (Some "{}"%string)
     = Page.mk [] (Some "{}"%string)
  /\ mount MiniJSON.codec (fun _ => false) (Some "{}"%string)
     = Page.mk [] (Some "{}"%string).
Proof.
  assert (H1 : "{}"%string <> EmptyString) by discriminate.
  assert (H2 : "{}"%string <> "[]"%string) by discriminate.
  assert (H3 : forall l, JSON.parse MiniJSON.codec "{}" <> Some (JSON.array l))
    by (intros l H; vm_compute in H; discriminate H).
  split; [exact H1 |]; split; [exact H2 |]; split; [exact H3 |].
  split.
  - exact (proj1 (mount_keeps_unreadable_data MiniJSON.codec (fun _ => true)
                    "{}" H1 H2 H3)).
  - exact (proj1 (mount_keeps_unreadable_data MiniJSON.codec (fun _ => false)
                    "{}" H1 H2 H3)).
Defined.

End Binary64Samples.

Section IdealSamples.
Local Open Scope R_scope.
#[local] Existing Instance Ideal.number.

Lemma saved_annotation_found_witness :
  stagedHighlight rectStaged
  = Some (rect (RectHighlight.mk 10 10 90 70 "rgba(255, 180, 0, 0.25)"))
  /\ findAnnotationAtPoint
       (Editor.annotations
          (handleSaveAnnotation "1700000000000" 1700000000000 rectStaged))
       (Point.mk 20 20)
     = Some rectAnnotation.
Proof.
  assert (Hs : stagedHighlight rectStaged
               = Some (rect (RectHighlight.mk 10 10 90 70
                               "rgba(255, 180, 0, 0.25)")))
    by reflexivity.
  split; [exact Hs |].
  pose proof (saved_annotation_found
                (Canvas.mk 500 400 fullSizeRect) (MouseEvent.mk 20 20)
                "1700000000000" 1700000000000 rectStaged _ Hs) as (_ & Hfound & _).
  apply Hfound.
  apply isPointInRect_ideal; cbn; lra.
Defined.

Lemma constrainPopoverPosition_within_witness :
  288 <= 800 /\ 212 <= 600
  /\ constrainPopoverPosition (Some (DOMRect.mk 0 0 800 600)) (Point.mk 700 100)
     = Point.mk (Point.x (constrainPopoverPosition
                            (Some (DOMRect.mk 0 0 800 600)) (Point.mk 700 100)))
                100
  /\ Point.x (constrainPopoverPosition
                (Some (DOMRect.mk 0 0 800 600)) (Point.mk 700 100)) + 256
     <= 800 - 16.
Proof.
  assert (Hw : 288 <= 800) by lra.
  assert (Hh : 212 <= 600) by lra.
  split; [exact Hw |]; split; [exact Hh |].
  pose proof (constrainPopoverPosition_within
                (DOMRect.mk 0 0 800 600) (Point.mk 700 100) Hw Hh)
    as (_ & Hx & _ & _ & _ & Hy).
  cbv zeta in Hx, Hy; cbn [DOMRect.width DOMRect.height Point.x Point.y] in Hx, Hy.
  split; [| exact Hx].
  assert (Hy' : Point.y (constrainPopoverPosition
                           (Some (DOMRect.mk 0 0 800 600)) (Point.mk 700 100))
                = 100) by (apply Hy; lra).
  revert Hy'.
  generalize (constrainPopoverPosition (Some (DOMRect.mk 0 0 800 600))
                                       (Point.mk 700 100)).
  intros [x y]; cbn [Point.x Point.y]; intros ->; reflexivity.
Defined.

Lemma displaySize_contain_witness :
  0 < 800 /\ 0 < 600 /\ 0 < 1600 /\ 0 < 900
  /\ fst (displaySize 800 600 1600 900) * 900
     = snd (displaySize 800 600 1600 900) * 1600
  /\ snd (displaySize 800 600 1600 900) <= 600.
Proof.
  assert (H1 : 0 < 800) by lra.
  assert (H2 : 0 < 600) by lra.
  assert (H3 : 0 < 1600) by lra.
  assert (H4 : 0 < 900) by lra.
  pose proof (displaySize_contain 800 600 1600 900 H1 H2 H3 H4)
    as (_ & Hh & _ & Ha & _).
  do 4 (split; [assumption |]); split; [exact Ha | exact (proj2 Hh)].
Defined.

Lemma fitted_canvas_bounds_witness :
  0 < 800 /\ 0 < 600 /\ 0 < 1600 /\ 0 < 900
  /\ Bounds.maxX
       (getBounds
          (Some (Layout.mk 800 600
                           (Some (fst (displaySize 800 600 1600 900)))
                           (Some (snd (displaySize 800 600 1600 900)))
                           1600 900)) 1) = 0.
Proof.
  assert (H1 : 0 < 800) by lra.
  assert (H2 : 0 < 600) by lra.
  assert (H3 : 0 < 1600) by lra.
  assert (H4 : 0 < 900) by lra.
  do 4 (split; [assumption |]).
  pose proof (fitted_canvas_bounds 800 600 1600 900 1 H1 H2 H3 H4) as (H & _).
  apply H; lra.
Defined.

Lemma selected_highlight_stands_out_witness :
  "1700000000000"%string <> EmptyString
  /\ Annotation.id (rectAnnotation (N := Ideal.number)) = "1700000000000"%string
  /\ Annotation.id (overlappingAnnotation (N := Ideal.number))
     <> "1700000000000"%string
  /\ highlightOpacity (Some "1700000000000"%string) overlappingAnnotation
     < highlightOpacity (Some "1700000000000"%string) rectAnnotation.
Proof.
  assert (H1 : "1700000000000"%string <> EmptyString) by discriminate.
  assert (H2 : Annotation.id (rectAnnotation (N := Ideal.number))
               = "1700000000000"%string) by reflexivity.
  assert (H3 : Annotation.id (overlappingAnnotation (N := Ideal.number))
               <> "1700000000000"%string)
    by (apply String.eqb_neq; reflexivity).
  assert (H4 : forall h,
            Annotation.highlight (rectAnnotation (N := Ideal.number)) = brush h ->
            0 <= BrushHighlight.opacity h) by (intros h H; discriminate H).
  split; [exact H1 |]; split; [exact H2 |]; split; [exact H3 |].
  exact (proj2 (proj2 (selected_highlight_stands_out
                         "1700000000000" rectAnnotation overlappingAnnotation
                         H1 H2 H3 H4))).
Defined.

Lemma brushSize_shortcuts_in_range_witness :
  5 <= Editor.brushSize (fst (initialEditor (N := Ideal.number), true)) <= 100
  /\ 5 <= Editor.brushSize
            (fst (pressKeys ["]"; "]"; "["; "b"]%string (initialEditor, true)))
     <= 100.
Proof.
  assert (H : 5 <= Editor.brushSize (fst (initialEditor (N := Ideal.number), true))
              <= 100) by (cbn; lra).
  split; [exact H |].
  exact (proj1 (brushSize_shortcuts_in_range ["]"; "]"; "["; "b"]%string
                  (initialEditor, true) H)).
Defined.

Lemma popover_drag_witness :
  Editor.inputPosition (rectStaged (N := Ideal.number)) = Some (Point.mk 100 80)
  /\ Editor.inputPosition
       (handlePopoverMouseMove (Some (DOMRect.mk 320 0 800 600))
          (MouseEvent.mk 460 120)
          (handlePopoverMouseDown false (MouseEvent.mk 430 90) rectStaged
             (Popover.mk false None))
          rectStaged)
     = Some (constrainPopoverPosition (Some (DOMRect.mk 320 0 800 600))
               (Point.mk (100 + (460 - 430) - 320) (80 + (120 - 90) - 0))).
Proof.
  assert (H : Editor.inputPosition (rectStaged (N := Ideal.number))
              = Some (Point.mk 100 80)) by reflexivity.
  split; [exact H |].
  exact (proj1 (popover_drag (DOMRect.mk 320 0 800 600)
                  (MouseEvent.mk 430 90) (MouseEvent.mk 460 120)
                  rectStaged (Popover.mk false None) (Point.mk 100 80) H)).
Defined.

Lemma custom_chat_position_witness :
  let position := Point.mk (Ext.Finite 300) (Ext.Finite 200) in
  (selectedAnnotation [rectAnnotation (N := Ideal.number)]
                      (Chat.selectedId (rectSelected (num := R)))
   = Some rectAnnotation
   /\ chatPositionEffect (Some chatLayout) [rectAnnotation]
        (handleChatPositionChange "1700000000000" position rectSelected)
      = Some (Chat.Position position)
   /\ chatPositionEffect (Some chatLayout) [rectAnnotation]
        (reselect "1700000000000"
           (runChatPositionEffect (Some chatLayout) [rectAnnotation]
              (handleResetChatPosition "1700000000000"
                 (handleChatPositionChange "1700000000000" position
                    rectSelected))))
      = Some (Chat.Position
                (initialChatPosition chatLayout
                   (Annotation.highlight rectAnnotation))))
  /\ (selectedAnnotation [constructorAnnotation (N := Ideal.number)]
                         (Chat.selectedId (constructorSelected (num := R)))
      = Some constructorAnnotation
      /\ chatPositionEffect (Some chatLayout) [constructorAnnotation]
           (reselect "constructor"
              (runChatPositionEffect (Some chatLayout) [constructorAnnotation]
                 (handleResetChatPosition "constructor"
                    (handleChatPositionChange "constructor" position
                       constructorSelected))))
         = Some (Chat.Inherited "constructor")).
Proof.
  cbv zeta.
  assert (H : selectedAnnotation [rectAnnotation (N := Ideal.number)]
                                 (Chat.selectedId (rectSelected (num := R)))
              = Some rectAnnotation) by reflexivity.
  assert (H' : selectedAnnotation [constructorAnnotation (N := Ideal.number)]
                                  (Chat.selectedId (constructorSelected (num := R)))
               = Some constructorAnnotation) by reflexivity.
  pose proof (custom_chat_position (Some chatLayout) [rectAnnotation]
                rectSelected rectAnnotation
                (Point.mk (Ext.Finite 300) (Ext.Finite 200)) H)
    as (H1 & _ & H3).
  pose proof (custom_chat_position (Some chatLayout) [constructorAnnotation]
                constructorSelected constructorAnnotation
                (Point.mk (Ext.Finite 300) (Ext.Finite 200)) H')
    as (_ & _ & H3').
  split; [split; [exact H |]; split; [exact H1 | exact H3] |].
  split; [exact H' | exact H3'].
Defined.

Lemma highlightBox_encloses_witness :
  In (BrushStroke.mk [Point.mk 30 40; Point.mk 60 45; Point.mk 90 35] 20)
     (BrushHighlight.strokes (brushSample (N := Ideal.number)))
  /\ In (Point.mk 60 45) [Point.mk 30 40; Point.mk 60 45; Point.mk 90 35]
  /\ exists minX maxX minY maxY,
       highlightBox (brush brushSample)
       = Box.mk (Ext.Finite minX) (Ext.Finite maxX)
                (Ext.Finite minY) (Ext.Finite maxY)
       /\ minX <= 60 - 20 / 2 /\ 60 + 20 / 2 <= maxX.
Proof.
  assert (Hs : In (BrushStroke.mk
                     [Point.mk 30 40; Point.mk 60 45; Point.mk 90 35] 20)
                  (BrushHighlight.strokes (brushSample (N := Ideal.number))))
    by (left; reflexivity).
  assert (Hp : In (Point.mk 60 45)
                  (BrushStroke.points
                     (BrushStroke.mk
                        [Point.mk 30 40; Point.mk 60 45; Point.mk 90 35] 20)))
    by (right; left; reflexivity).
  split; [exact Hs |]; split; [exact Hp |].
  destruct (highlightBox_encloses brushSample _ _ Hs Hp)
    as (minX & maxX & minY & maxY & Hbox & Hall & _).
  exists minX, maxX, minY, maxY; split; [exact Hbox |].
  destruct (Hall _ _ Hs Hp) as (H1 & H2 & _).
  split; [exact H1 | exact H2].
Defined.

Lemma chat_position_in_view_witness :
  canvasShown chatLayout
  /\ exists x y,
       initialChatPosition chatLayout (brush brushSample)
       = Point.mk (Ext.Finite x) (Ext.Finite y)
       /\ 20 <= x /\ 20 <= y.
Proof.
  assert (H : canvasShown (chatLayout (N := Ideal.number)))
    by (unfold canvasShown; cbn; lra).
  split; [exact H |].
  destruct (chat_position_in_view chatLayout (brush brushSample) H)
    as (x & y & Hpos & Hx & Hy & _).
  exists x, y; auto.
Defined.

Lemma chat_beside_highlight_witness :
  highlightBox
    (rect (RectHighlight.mk 10 10 90 70 "rgba(255, 180, 0, 0.25)"))
  = Box.mk (Ext.Finite 10) (Ext.Finite (10 + 90))
           (Ext.Finite 10) (Ext.Finite (10 + 70))
  /\ exists x y,
       initialChatPosition chatLayout
         (rect (RectHighlight.mk 10 10 90 70 "rgba(255, 180, 0, 0.25)"))
       = Point.mk (Ext.Finite x) (Ext.Finite y)
       /\ x = 220.
Proof.
  assert (H : highlightBox (N := Ideal.number)
                (rect (RectHighlight.mk 10 10 90 70 "rgba(255, 180, 0, 0.25)"))
              = Box.mk (Ext.Finite 10) (Ext.Finite (10 + 90))
                       (Ext.Finite 10) (Ext.Finite (10 + 70)))
    by reflexivity.
  split; [exact H |].
  destruct (chat_beside_highlight chatLayout _ _ _ _ _ H)
    as (x & y & Hpos & Hx).
  exists x, y; split; [exact Hpos |].
  cbn in Hx.
  assert (Hr : Rmax 20 ((10 + 90) * (500 / 500) + (100 - 0) + 20) = 220)
    by (unfold Rmax; destruct (Rle_dec _ _); lra).
  destruct Hx as [[_ Hx] | [Hlt _]]; [rewrite Hx; exact Hr | lra].
Defined.

Lemma chat_drag_witness :
  selectedAnnotation [rectAnnotation (N := Ideal.number)]
                     (Chat.selectedId (rectSelected (num := R)))
  = Some rectAnnotation
  /\ AnnotationChat.handleMouseMove (MouseEvent.mk 460 120)
       (AnnotationChat.handleMouseDown false
          (Point.mk (Ext.Finite 220) (Ext.Finite 20)) (MouseEvent.mk 430 90)
          (AnnotationChat.mk EmptyString false
             (Point.mk (Ext.Finite 0) (Ext.Finite 0))))
     = Some (Point.mk (Ext.Finite (220 + (460 - 430)))
                      (Ext.Finite (20 + (120 - 90)))).
Proof.
  assert (H : selectedAnnotation [rectAnnotation (N := Ideal.number)]
                                 (Chat.selectedId (rectSelected (num := R)))
              = Some rectAnnotation) by reflexivity.
  split; [exact H |].
  exact (proj1 (chat_drag (Some chatLayout) [rectAnnotation] rectSelected
                  rectAnnotation
                  (AnnotationChat.mk EmptyString false
                     (Point.mk (Ext.Finite 0) (Ext.Finite 0)))
                  220 20 (MouseEvent.mk 430 90) (MouseEvent.mk 460 120) H)).
Defined.

End IdealSamples.
